(** * Scheduling views of the kinesiology back end

    A shallow embedding of [scheduling/views.py]: the slot listing of
    [KinesiologistAvailableSlotsView.get], the two transitions
    [AppointmentStatusView.patch] and [AppointmentCommentView.patch], and the
    authorisation gate of [AppointmentCreateView.post], with the properties
    the specification states about them. *)

From Stdlib Require Import ZArith List Lia String Ascii DecimalString.
From stdpp Require Import base gmap list fin_maps sorting.
From Equations Require Import Equations.
Import ListNotations.

Local Open Scope Z_scope.

(** ** Python values *)

(** A Python [str] is a sequence of code points. *)
Abbreviation pystr := (list N) (only parsing).

(** The text of a source literal. *)
Definition py (s : string) : pystr := map N_of_ascii (list_ascii_of_string s).

(** The values [request.data.get(key)] can yield: [None] (also for an absent
    key), a JSON boolean, integer or string, and any other value (a float, a
    list, an object), of which the views only observe the truth value and the
    text [str()] gives. *)
Inductive pyval :=
| PyNone
| PyBool (b : bool)
| PyInt (z : Z)
| PyStr (s : pystr)
| PyObj (truth : bool) (text : pystr).

(** [bool(v)], as tested by [not v]. *)
Definition truthy (v : pyval) : bool :=
  match v with
  | PyNone => false
  | PyBool b => b
  | PyInt z => negb (z =? 0)
  | PyStr s => match s with [] => false | _ :: _ => true end
  | PyObj t _ => t
  end.

(** [str(v)]. *)
Definition py_str (v : pyval) : pystr :=
  match v with
  | PyNone => py "None"
  | PyBool true => py "True"
  | PyBool false => py "False"
  | PyInt z => py (NilZero.string_of_int (Z.to_int z))
  | PyStr s => s
  | PyObj _ t => t
  end.

(** [v == lit] for a [str] literal: only a [str] is equal to a [str]. *)
Definition py_eq_str (v : pyval) (lit : pystr) : bool :=
  match v with
  | PyStr s => bool_decide (s = lit)
  | _ => false
  end.

(** [v in [lit; ...]]. *)
Definition py_in (v : pyval) (lits : list pystr) : bool :=
  existsb (py_eq_str v) lits.

(** [str.isspace] on one character: the code points Python counts as
    whitespace. *)
Definition isspace (c : N) : bool :=
  ((9 <=? c) && (c <=? 13) || (28 <=? c) && (c <=? 32)
   || (c =? 133) || (c =? 160) || (c =? 5760)
   || (8192 <=? c) && (c <=? 8202)
   || (c =? 8232) || (c =? 8233) || (c =? 8239) || (c =? 8287)
   || (c =? 12288))%N.

(** [s.lstrip()]. *)
Fixpoint lstrip (s : pystr) : pystr :=
  match s with
  | [] => []
  | c :: s' => if isspace c then lstrip s' else s
  end.

(** [s.rstrip()]. *)
Definition rstrip (s : pystr) : pystr := rev (lstrip (rev s)).

(** [s.strip()]. *)
Definition strip (s : pystr) : pystr := rstrip (lstrip s).

(** A surrogate code point, which has no UTF-8 encoding. *)
Definition is_surrogate (c : N) : bool := ((55296 <=? c) && (c <=? 57343))%N.

(** [s.encode("utf-8")] succeeds: [s] holds no surrogate. A text that JSON
    escapes produce may hold one. *)
Definition utf8_encodable (s : pystr) : bool :=
  forallb (fun c => negb (is_surrogate c)) s.

(** ** Dates and times *)

(** A [date] is its proleptic Gregorian ordinal ([date.toordinal()]), a
    [time] the microseconds since midnight, a [timedelta] a number of
    microseconds, and a naive [datetime] the microseconds since the midnight
    that starts ordinal 0. *)
Abbreviation date := Z (only parsing).
Abbreviation time := Z (only parsing).
Abbreviation timedelta := Z (only parsing).
Abbreviation datetime := Z (only parsing).

Definition DAY : Z := 86400000000.
Definition MINYEAR_ORDINAL : Z := 1.
Definition MAXORDINAL : Z := 3652059.

Definition valid_time (t : time) : Prop := 0 <= t < DAY.
Definition valid_date (d : date) : Prop := MINYEAR_ORDINAL <= d <= MAXORDINAL.

(** [time(hour, minute)]. *)
Definition mktime (h m : Z) : time := (h * 60 + m) * 60000000.

(** [timedelta(minutes=m)]. *)
Definition minutes (m : Z) : timedelta := m * 60000000.

(** [datetime.combine(d, t)]. *)
Definition combine (d : date) (t : time) : datetime := d * DAY + t.

(** [dt.time()] and [dt.date()]. *)
Definition time_of (dt : datetime) : time := dt mod DAY.
Definition date_of (dt : datetime) : date := dt / DAY.

(** [dt + delta]: Python raises [OverflowError] when the resulting date
    leaves [date.min .. date.max]; [None] stands for that. *)
Definition dt_add (dt : datetime) (delta : timedelta) : option datetime :=
  let r := dt + delta in
  if bool_decide (MINYEAR_ORDINAL <= r / DAY <= MAXORDINAL)
  then Some r else None.

(** [d.weekday()]: Monday is 0. *)
Definition weekday (d : date) : Z := (d + 6) mod 7.

(** ** The store *)

Record Availability := {
  av_kinesiologist_id : Z;
  av_day : Z;
  av_start_time : time;
  av_end_time : time;
}.

Record Appointment := {
  kinesiologist_id : Z;
  patient_name_id : Z;
  appt_date : date;
  start_time : time;
  end_time : time;
  status : pystr;
  kine_comment : option pystr;
  comment_updated_at : option datetime;
}.

Record Kinesiologist := {
  kine_user : option Z;
}.

(** The tables the views read and write. [Availability] rows are kept in the
    order the store returns them; appointments and kinesiologists are keyed
    by primary key. *)
Record DB := {
  availabilities : list Availability;
  appointments : gmap Z Appointment;
  kinesiologists : gmap Z Kinesiologist;
}.

(** The columns [save(update_fields=...)] can name. *)
Inductive Field := FStatus | FKineComment | FCommentUpdatedAt.

(** Every access to the store. *)
Inductive Query :=
| QAvailabilityExists (kid day : Z)
| QAvailabilitySelect (kid day : Z)
| QAppointmentOverlapExists (kid : Z) (d : date) (start_lt end_gt : time)
| QAppointmentGet (id : Z)
| QKinesiologistGet (id : Z)
| QAppointmentUpdate (id : Z) (fields : list Field)
| QSerializerValidate
| QSerializerSave.

(** ** Computations against the store *)

Inductive exn :=
| Http404
| SerializerError
| OverflowError
| DatabaseError
| UnicodeEncodeError.

Inductive outcome (A : Type) :=
| Return (a : A)
| Raise (e : exn).
Arguments Return {A} a.
Arguments Raise {A} e.

(** A computation reads and writes the store, logs its queries, and returns
    or raises. *)
Definition M (A : Type) : Type := DB -> outcome A * DB * list Query.

Definition ret {A} (a : A) : M A := fun db => (Return a, db, []).

Definition raise {A} (e : exn) : M A := fun db => (Raise e, db, []).

Definition bind {A B} (m : M A) (k : A -> M B) : M B :=
  fun db =>
    match m db with
    | (Return a, db1, q1) =>
        match k a db1 with
        | (r, db2, q2) => (r, db2, q1 ++ q2)
        end
    | (Raise e, db1, q1) => (Raise e, db1, q1)
    end.

Notation "'let*' x ':=' m 'in' k" := (bind m (fun x => k))
  (at level 10, x name, m at level 100, k at level 200).

(** A read-only query, logged. *)
Definition query {A} (q : Query) (f : DB -> A) : M A :=
  fun db => (Return (f db), db, [q]).

(** [Availability.objects.filter(kinesiologist_id=kid, day=day)]. *)
Definition availability_filter (kid day : Z) (db : DB) : list Availability :=
  filter (fun a => av_kinesiologist_id a = kid /\ av_day a = day)
         (availabilities db).

Definition availability_exists (kid day : Z) : M bool :=
  query (QAvailabilityExists kid day)
        (fun db => match availability_filter kid day db with
                   | [] => false
                   | _ :: _ => true
                   end).

Definition availability_select (kid day : Z) : M (list Availability) :=
  query (QAvailabilitySelect kid day) (availability_filter kid day).

(** The row test of
    [Appointment.objects.filter(kinesiologist_id=kid, date=d)
       .filter(start_time__lt=start_lt, end_time__gt=end_gt)]. *)
Definition overlap_row (kid : Z) (d : date) (start_lt end_gt : time)
    (a : Appointment) : bool :=
  (kinesiologist_id a =? kid) && (appt_date a =? d)
  && (start_time a <? start_lt) && (end_gt <? end_time a).

Definition appointment_overlap_exists (kid : Z) (d : date)
    (start_lt end_gt : time) : M bool :=
  query (QAppointmentOverlapExists kid d start_lt end_gt)
        (fun db => existsb (fun p => overlap_row kid d start_lt end_gt (snd p))
                           (map_to_list (appointments db))).

(** [get_object_or_404(Appointment.objects.select_related("kinesiologist__user"),
    id=appointment_id)]: the appointment joined with its kinesiologist. *)
Definition get_appointment_or_404 (appointment_id : Z)
    : M (Appointment * Kinesiologist) :=
  fun db =>
    match appointments db !! appointment_id with
    | Some a =>
        match kinesiologists db !! kinesiologist_id a with
        | Some k => (Return (a, k), db, [QAppointmentGet appointment_id])
        | None => (Raise Http404, db, [QAppointmentGet appointment_id])
        end
    | None => (Raise Http404, db, [QAppointmentGet appointment_id])
    end.

(** [get_object_or_404(Kinesiologist.objects.select_related('user'), pk=id)]. *)
Definition get_kinesiologist_or_404 (id : Z) : M Kinesiologist :=
  fun db =>
    match kinesiologists db !! id with
    | Some k => (Return k, db, [QKinesiologistGet id])
    | None => (Raise Http404, db, [QKinesiologistGet id])
    end.

(** One column of [inst] written over [row]. *)
Definition write_field (inst row : Appointment) (f : Field) : Appointment :=
  match f with
  | FStatus =>
      {| kinesiologist_id := kinesiologist_id row;
         patient_name_id := patient_name_id row;
         appt_date := appt_date row;
         start_time := start_time row;
         end_time := end_time row;
         status := status inst;
         kine_comment := kine_comment row;
         comment_updated_at := comment_updated_at row |}
  | FKineComment =>
      {| kinesiologist_id := kinesiologist_id row;
         patient_name_id := patient_name_id row;
         appt_date := appt_date row;
         start_time := start_time row;
         end_time := end_time row;
         status := status row;
         kine_comment := kine_comment inst;
         comment_updated_at := comment_updated_at row |}
  | FCommentUpdatedAt =>
      {| kinesiologist_id := kinesiologist_id row;
         patient_name_id := patient_name_id row;
         appt_date := appt_date row;
         start_time := start_time row;
         end_time := end_time row;
         status := status row;
         kine_comment := kine_comment row;
         comment_updated_at := comment_updated_at inst |}
  end.

(** The store with row [id] of the appointments replaced by [a]. *)
Definition put_appointment (db : DB) (id : Z) (a : Appointment) : DB :=
  {| availabilities := availabilities db;
     appointments := <[id := a]> (appointments db);
     kinesiologists := kinesiologists db |}.

(** The texts among the parameters of the UPDATE: the values [inst] holds
    in the columns [fields]. *)
Definition text_parameters (inst : Appointment) (fields : list Field)
    : list pystr :=
  flat_map (fun f => match f with
                     | FStatus => [status inst]
                     | FKineComment =>
                         match kine_comment inst with
                         | Some c => [c]
                         | None => []
                         end
                     | FCommentUpdatedAt => []
                     end)
           fields.

(** [inst.save(update_fields=fields)]: one UPDATE of the named columns of the
    row with [inst]'s primary key. The database driver encodes the text
    parameters as UTF-8 before the statement reaches the store and raises
    [UnicodeEncodeError] for one that has no encoding; Django raises
    [DatabaseError] when the UPDATE touches no row. *)
Definition save (id : Z) (inst : Appointment) (fields : list Field) : M unit :=
  fun db =>
    if forallb utf8_encodable (text_parameters inst fields)
    then
      match appointments db !! id with
      | Some row =>
          (Return tt,
           put_appointment db id (fold_left (write_field inst) fields row),
           [QAppointmentUpdate id fields])
      | None => (Raise DatabaseError, db, [QAppointmentUpdate id fields])
      end
    else (Raise UnicodeEncodeError, db, []).

(** ** Responses *)

Record Slot := {
  slot_date : date;
  slot_start_time : time;
  slot_end_time : time;
  slot_datetime : datetime;
}.

(** The payload handed to [Response]. *)
Inductive Body :=
| BDetail (detail : string)
| BMessage (ok : bool) (message : string)
| BStatusDisplay (st : pystr)
| BSlots (slots : list Slot)
| BCreated (a : Appointment)
| BException (e : exn).

Record Response := {
  status_code : Z;
  body : Body;
}.

Definition HTTP_200_OK : Z := 200.
Definition HTTP_201_CREATED : Z := 201.
Definition HTTP_400_BAD_REQUEST : Z := 400.
Definition HTTP_403_FORBIDDEN : Z := 403.
Definition HTTP_404_NOT_FOUND : Z := 404.
Definition HTTP_500_INTERNAL_SERVER_ERROR : Z := 500.

(** What the framework answers when the handler raises. *)
Definition exception_response (e : exn) : Response :=
  match e with
  | Http404 => {| status_code := HTTP_404_NOT_FOUND; body := BException e |}
  | SerializerError =>
      {| status_code := HTTP_400_BAD_REQUEST; body := BException e |}
  | _ =>
      {| status_code := HTTP_500_INTERNAL_SERVER_ERROR; body := BException e |}
  end.

(** A handler run on a store: the response, the store afterwards and the
    queries issued. *)
Definition dispatch (h : M Response) (db : DB) : Response * DB * list Query :=
  match h db with
  | (Return r, db', q) => (r, db', q)
  | (Raise e, db', q) => (exception_response e, db', q)
  end.

(** ** KinesiologistAvailableSlotsView *)

Definition SLOT_MINUTES : Z := 45.

Definition slot_length : timedelta := minutes SLOT_MINUTES.

(** A value together with the equation that names it, for the case
    analyses whose branches need the equation. *)
Definition inspect {A} (a : A) : {b : A | a = b} := exist _ a eq_refl.

(** The [while] loop over one availability window: [current_start] advances
    by [slot_length] while the next slot still ends by [avail_end_dt]. The
    sum [current_start + slot_length], which the source writes three times,
    is bound once. The loop ends because the number of slots that still fit
    before [avail_end_dt] goes down with every turn. *)
Equations? while_slots (kid : Z) (target_date : date) (avail_end_dt : datetime)
    (current_start : datetime) (slots : list Slot) : M (list Slot)
    by wf (Z.to_nat ((avail_end_dt - current_start) / slot_length)) lt :=
  while_slots kid target_date avail_end_dt current_start slots
    with inspect (dt_add current_start slot_length) := {
    | exist _ None _ := raise OverflowError
    | exist _ (Some current_end) Hadd
        with decide (current_end <= avail_end_dt) := {
      | right _ := ret slots
      | left Hle :=
          let* overlap :=
            appointment_overlap_exists kid target_date
              (time_of current_end) (time_of current_start) in
          while_slots kid target_date avail_end_dt current_end
            (if overlap then slots
             else slots ++ [ {| slot_date := target_date;
                                slot_start_time := time_of current_start;
                                slot_end_time := time_of current_end;
                                slot_datetime := current_start |} ]) } }.
Proof.
  unfold dt_add in Hadd. case_bool_decide; [|discriminate].
  injection Hadd as <-.
  replace (avail_end_dt - current_start)
    with (avail_end_dt - (current_start + slot_length) + 1 * slot_length) by lia.
  rewrite Z.div_add by discriminate.
  assert (0 <= (avail_end_dt - (current_start + slot_length)) / slot_length)
    by (apply Z.div_pos; [lia | reflexivity]).
  lia.
Qed.

(** The [for avail in availability_qs] loop. *)
Fixpoint for_avail (kid : Z) (target_date : date) (rows : list Availability)
    (slots : list Slot) : M (list Slot) :=
  match rows with
  | [] => ret slots
  | avail :: rest =>
      let current_start := combine target_date (av_start_time avail) in
      let avail_end_dt := combine target_date (av_end_time avail) in
      let* slots' :=
        while_slots kid target_date avail_end_dt current_start slots in
      for_avail kid target_date rest slots'
  end.

Module KinesiologistAvailableSlotsView.
Section View.

(** [datetime.strptime(s, "%Y-%m-%d").date()]: [None] stands for the
    [ValueError] of a text that does not parse. *)
Variable strptime : pystr -> option date.

(** [date_str] is [request.query_params.get("date")]; the slots of the
    response are the list handed to [TimeSlotSerializer]. *)
Definition get (date_str : option pystr) (kinesiologist_id : Z)
    : M Response :=
  match date_str with
  | None | Some [] =>
      ret {| status_code := HTTP_400_BAD_REQUEST;
             body := BDetail "Parámetro 'date' es obligatorio (YYYY-MM-DD)." |}
  | Some date_str =>
      match strptime date_str with
      | None =>
          ret {| status_code := HTTP_400_BAD_REQUEST;
                 body := BDetail "Formato de fecha inválido. Usa YYYY-MM-DD." |}
      | Some target_date =>
          let day_of_week := weekday target_date in
          let* has_rows := availability_exists kinesiologist_id day_of_week in
          if negb has_rows
          then ret {| status_code := HTTP_200_OK; body := BSlots [] |}
          else
            let* availability_qs :=
              availability_select kinesiologist_id day_of_week in
            let* slots :=
              for_avail kinesiologist_id target_date availability_qs [] in
            ret {| status_code := HTTP_200_OK; body := BSlots slots |}
      end
  end.

End View.
End KinesiologistAvailableSlotsView.

(** ** AppointmentStatusView and AppointmentCommentView *)

Record User := {
  user_id : Z;
  is_superuser : bool;
}.

(** [request.user == x.user], where the relation [x.user] may be empty. *)
Definition same_user (u : User) (o : option Z) : bool :=
  match o with
  | Some i => user_id u =? i
  | None => false
  end.

(** [request.data.get(key)]. *)
Definition data_get (data : gmap (list N) pyval) (key : pystr) : pyval :=
  default PyNone (data !! key).

Definition set_status (a : Appointment) (s : pystr) : Appointment :=
  {| kinesiologist_id := kinesiologist_id a;
     patient_name_id := patient_name_id a;
     appt_date := appt_date a;
     start_time := start_time a;
     end_time := end_time a;
     status := s;
     kine_comment := kine_comment a;
     comment_updated_at := comment_updated_at a |}.

Definition set_kine_comment (a : Appointment) (c : pystr) : Appointment :=
  {| kinesiologist_id := kinesiologist_id a;
     patient_name_id := patient_name_id a;
     appt_date := appt_date a;
     start_time := start_time a;
     end_time := end_time a;
     status := status a;
     kine_comment := Some c;
     comment_updated_at := comment_updated_at a |}.

Definition set_comment_updated_at (a : Appointment) (t : datetime)
    : Appointment :=
  {| kinesiologist_id := kinesiologist_id a;
     patient_name_id := patient_name_id a;
     appt_date := appt_date a;
     start_time := start_time a;
     end_time := end_time a;
     status := status a;
     kine_comment := kine_comment a;
     comment_updated_at := Some t |}.

Definition not_authorized : Response :=
  {| status_code := HTTP_403_FORBIDDEN;
     body := BMessage false "No autorizado" |}.

Module AppointmentStatusView.

(** [user] is [request.user], [data] is [request.data]. The status column
    takes the text of the value assigned to it. *)
Definition patch (user : User) (data : gmap (list N) pyval)
    (appointment_id : Z) : M Response :=
  let* found := get_appointment_or_404 appointment_id in
  let (appointment, kinesiologist) := found : Appointment * Kinesiologist in
  if negb (same_user user (kine_user kinesiologist))
  then ret not_authorized
  else
    let new_status := data_get data (py "status") in
    if negb (py_in new_status [py "confirmed"; py "cancelled"])
    then ret {| status_code := HTTP_400_BAD_REQUEST;
                body := BMessage false
                  "Estado inválido. Use 'confirmed' o 'cancelled'." |}
    else
      let appointment := set_status appointment (py_str new_status) in
      let* _ := save appointment_id appointment [FStatus] in
      ret {| status_code := HTTP_200_OK;
             body := BStatusDisplay (status appointment) |}.

End AppointmentStatusView.

Module AppointmentCommentView.

(** [now] is what [timezone.now()] reads. *)
Definition patch (now : datetime) (user : User)
    (data : gmap (list N) pyval) (appointment_id : Z) : M Response :=
  let* found := get_appointment_or_404 appointment_id in
  let (appointment, kinesiologist) := found : Appointment * Kinesiologist in
  if negb (same_user user (kine_user kinesiologist))
  then ret not_authorized
  else
    let comment := data_get data (py "kine_comment") in
    if negb (truthy comment)
       || match strip (py_str comment) with [] => true | _ :: _ => false end
    then ret {| status_code := HTTP_400_BAD_REQUEST;
                body := BMessage false "El comentario es obligatorio." |}
    else
      let appointment :=
        set_kine_comment appointment (strip (py_str comment)) in
      let appointment := set_status appointment (py "completed") in
      let appointment := set_comment_updated_at appointment now in
      let* _ := save appointment_id appointment
                  [FKineComment; FStatus; FCommentUpdatedAt] in
      ret {| status_code := HTTP_200_OK;
             body := BMessage true
               "Sesión marcada como realizada y comentario guardado." |}.

End AppointmentCommentView.

(** ** AppointmentCreateView *)

Record Patient := {
  patient_user : option Z;
}.

(** What [serializer.save()] inside [transaction.atomic()] comes to: the new
    row and the store holding it, or one of the two errors the view catches,
    the store rolled back. *)
Inductive SaveResult :=
| Saved (appointment : Appointment) (db' : DB)
| SaveValidationError (message : string)
| SaveIntegrityError.

Module AppointmentCreateView.
Section View.

(** [AppointmentSerializer] is not part of the views module: its validated
    data, its validation (which reads the store; [None] stands for the
    error [is_valid(raise_exception=True)] raises) and its [save] are
    taken as given. *)
Variable ValidatedData : Type.
Variable vd_patient_name : ValidatedData -> Patient.
Variable serializer_is_valid :
  Kinesiologist -> gmap (list N) pyval -> DB -> option ValidatedData.
Variable serializer_save : ValidatedData -> DB -> SaveResult.

Definition is_valid (kinesiologist : Kinesiologist)
    (data : gmap (list N) pyval) : M ValidatedData :=
  fun db =>
    match serializer_is_valid kinesiologist data db with
    | Some v => (Return v, db, [QSerializerValidate])
    | None => (Raise SerializerError, db, [QSerializerValidate])
    end.

Definition atomic_save (v : ValidatedData) : M SaveResult :=
  fun db =>
    match serializer_save v db with
    | Saved a db' => (Return (Saved a db'), db', [QSerializerSave])
    | r => (Return r, db, [QSerializerSave])
    end.

Definition post (user : User) (data : gmap (list N) pyval)
    (kinesiologist_id : Z) : M Response :=
  let* kinesiologist := get_kinesiologist_or_404 kinesiologist_id in
  let* validated_data := is_valid kinesiologist data in
  let patient := vd_patient_name validated_data in
  let is_authorized :=
    is_superuser user
    || same_user user (patient_user patient)
    || same_user user (kine_user kinesiologist) in
  if negb is_authorized
  then ret {| status_code := HTTP_403_FORBIDDEN;
              body := BMessage false
                "No tiene permisos para agendar esta hora médica." |}
  else
    let* saved := atomic_save validated_data in
    match saved with
    | SaveValidationError message =>
        ret {| status_code := HTTP_400_BAD_REQUEST;
               body := BMessage false message |}
    | SaveIntegrityError =>
        ret {| status_code := HTTP_500_INTERNAL_SERVER_ERROR;
               body := BMessage false
                 "No fue posible agendar la hora médica. Intente nuevamente." |}
    | Saved appointment _ =>
        ret {| status_code := HTTP_201_CREATED; body := BCreated appointment |}
    end.

End View.
End AppointmentCreateView.

(** ** The date text format

    A model of [datetime.strptime(s, "%Y-%m-%d").date()], to run the slot
    listing on dates written out: four digits of year, then month and day
    as the format's patterns accept them, then the calendar check of the
    [date] constructor. The pattern [\d] of the year, and of the second
    character of a day from 10 to 29, reads the decimal digits of every
    script; the other characters are ASCII. *)

(** [[0-9]], with the digit's value. *)
Definition digit (c : N) : option Z :=
  if ((48 <=? c) && (c <=? 57))%N then Some (Z.of_N c - 48) else None.

(** The digit zero of every decimal number system of Unicode; the digits one
    to nine of the system follow it. *)
Definition decimal_zeros : list N :=
  [ 48; 1632; 1776; 1984; 2406; 2534; 2662; 2790; 2918; 3046; 3174; 3302;
    3430; 3558; 3664; 3792; 3872; 4160; 4240; 6112; 6160; 6470; 6608; 6784;
    6800; 6992; 7088; 7232; 7248; 42528; 43216; 43264; 43472; 43504; 43600;
    44016; 65296; 66720; 68912; 69734; 69872; 69942; 70096; 70384; 70736;
    70864; 71248; 71360; 71472; 71904; 72016; 72784; 73040; 73120; 92768;
    92864; 93008; 120782; 120792; 120802; 120812; 120822; 123200; 123632;
    125264; 130032 ]%N.

(** [\d] on a [str], with the value [int] gives the character. *)
Definition decimal (c : N) : option Z :=
  match List.find (fun z => (z <=? c) && (c <? z + 10))%N decimal_zeros with
  | Some z => Some (Z.of_N (c - z))
  | None => None
  end.

Definition is_leap (y : Z) : bool :=
  (y mod 4 =? 0) && (negb (y mod 100 =? 0) || (y mod 400 =? 0)).

Definition days_before_year (year : Z) : Z :=
  let y := year - 1 in y * 365 + y / 4 - y / 100 + y / 400.

Definition days_in_month (year month : Z) : Z :=
  if month =? 2 then (if is_leap year then 29 else 28)
  else if (month =? 4) || (month =? 6) || (month =? 9) || (month =? 11) then 30
  else 31.

Definition days_before_month (year month : Z) : Z :=
  fold_right Z.add 0 (map (days_in_month year) (seqZ 1 (month - 1))).

Definition ymd2ord (year month day : Z) : date :=
  days_before_year year + days_before_month year month + day.

(** [1[0-2]|0[1-9]|[1-9]]. *)
Definition parse_month (p : pystr) : option Z :=
  match p with
  | [a] => d ← digit a; if 1 <=? d then Some d else None
  | [a; b] =>
      da ← digit a; db ← digit b;
      if (da =? 1) && (db <=? 2) || (da =? 0) && (1 <=? db)
      then Some (10 * da + db) else None
  | _ => None
  end.

(** [3[0-1]|[1-2]\d|0[1-9]|[1-9]| [1-9]]. *)
Definition parse_day (p : pystr) : option Z :=
  match p with
  | [a] => d ← digit a; if 1 <=? d then Some d else None
  | [a; b] =>
      if (a =? 32)%N
      then d ← digit b; if 1 <=? d then Some d else None
      else
        da ← digit a;
        if (1 <=? da) && (da <=? 2)
        then db ← decimal b; Some (10 * da + db)
        else
          db ← digit b;
          if (da =? 3) && (db <=? 1) || (da =? 0) && (1 <=? db)
          then Some (10 * da + db) else None
  | _ => None
  end.

(** The text up to the first hyphen, and the text after it. *)
Fixpoint split_hyphen (s : pystr) : option (list N * list N) :=
  match s with
  | [] => None
  | c :: s' =>
      if (c =? 45)%N then Some ([], s')
      else p ← split_hyphen s'; Some (c :: fst p, snd p)
  end.

Definition strptime_ymd (s : pystr) : option date :=
  match s with
  | y1 :: y2 :: y3 :: y4 :: h :: rest =>
      if (h =? 45)%N then
        a ← decimal y1; b ← decimal y2; c ← decimal y3; d ← decimal y4;
        p ← split_hyphen rest;
        month ← parse_month (fst p);
        day ← parse_day (snd p);
        let year := 1000 * a + 100 * b + 10 * c + d in
        if (1 <=? year) && (day <=? days_in_month year month)
        then Some (ymd2ord year month day) else None
      else None
  | _ => None
  end.

(** ** The specification's vocabulary *)

(** Section 4.2: two intervals overlap iff [a.start < b.end] and
    [b.start < a.end]. *)
Definition overlaps (a_start a_end b_start b_end : time) : bool :=
  (a_start <? b_end) && (b_start <? a_end).

Definition slot_overlaps (s : Slot) (a : Appointment) : bool :=
  overlaps (slot_start_time s) (slot_end_time s) (start_time a) (end_time a).

(** The appointments of provider [kid] on date [d]. *)
Definition booked (db : DB) (kid : Z) (d : date) (a : Appointment) : Prop :=
  (exists id, appointments db !! id = Some a)
  /\ kinesiologist_id a = kid /\ appt_date a = d.

(** Section 4.2, [isFree]: no appointment of the provider on that date
    overlaps the candidate. *)
Definition is_free (db : DB) (kid : Z) (d : date) (s : Slot) : bool :=
  forallb (fun p : Z * Appointment =>
             negb ((kinesiologist_id (snd p) =? kid) && (appt_date (snd p) =? d)
                   && slot_overlaps s (snd p)))
          (map_to_list (appointments db)).

(** Section 4.1: the slots of length [slot_duration] tiled from [s], as many
    as end by [e]. *)
Definition candidate (slot_duration : timedelta) (d : date) (s : time) (k : Z)
    : Slot :=
  {| slot_date := d;
     slot_start_time := s + k * slot_duration;
     slot_end_time := s + k * slot_duration + slot_duration;
     slot_datetime := combine d (s + k * slot_duration) |}.

Definition tile (slot_duration : timedelta) (d : date) (s e : time)
    : list Slot :=
  map (candidate slot_duration d s) (seqZ 0 ((e - s) / slot_duration)).

(** The slots the listing keeps from one window. *)
Definition free_slots (db : DB) (kid : Z) (d : date) (w : Availability)
    : list Slot :=
  List.filter (is_free db kid d)
    (tile slot_length d (av_start_time w) (av_end_time w)).

(** The overlap query the listing issues for a candidate. *)
Definition overlap_query (kid : Z) (d : date) (s : Slot) : Query :=
  QAppointmentOverlapExists kid d (slot_end_time s) (slot_start_time s).

Definition valid_window (w : Availability) : Prop :=
  valid_time (av_start_time w) /\ valid_time (av_end_time w).

(** Every sum [current_start + slot_length] the loop forms over window [w]
    on date [d] is a [datetime]: [d] is not [date.max], or the window starts
    and ends at least a slot before midnight. *)
Definition no_overflow (d : date) (w : Availability) : Prop :=
  d < MAXORDINAL
  \/ (av_start_time w + slot_length < DAY
      /\ av_end_time w + slot_length < DAY).

(** The windows the listing is stated for. *)
Definition regular_window (d : date) (w : Availability) : Prop :=
  valid_window w /\ no_overflow d w.

(** [datetime.max], the last microsecond of [date.max]. *)
Definition datetime_max : datetime := combine MAXORDINAL (DAY - 1).

(** How many of the sums [current_start + slot_length],
    [current_start + 2 * slot_length], ... are datetimes, counted from
    [current_start = combine d s]. *)
Definition sums_in_range (d : date) (s : time) : Z :=
  (datetime_max - combine d s) / slot_length.

(** The loop over a window from [s] to [e] on date [d] forms one sum per
    candidate of the window and one more, the sum whose test ends it;
    [loop_fits] says that all of them are datetimes. *)
Definition loop_fits (d : date) (s e : time) : bool :=
  Z.max 0 ((e - s) / slot_length) + 1 <=? sums_in_range d s.

Definition window_fits (d : date) (w : Availability) : bool :=
  loop_fits d (av_start_time w) (av_end_time w).

(** The candidates the loop asks the store about: every candidate of the
    window when the loop fits, and otherwise those before the sum that is no
    datetime. *)
Definition probed (d : date) (s e : time) : list Slot :=
  if loop_fits d s e then tile slot_length d s e
  else take (Z.to_nat (sums_in_range d s)) (tile slot_length d s e).

(** The overlap queries of the whole listing: window after window, up to
    and including the first window whose loop does not fit. *)
Fixpoint probes (kid : Z) (d : date) (rows : list Availability)
    : list Query :=
  match rows with
  | [] => []
  | w :: rest =>
      map (overlap_query kid d) (probed d (av_start_time w) (av_end_time w))
      ++ (if window_fits d w then probes kid d rest else [])
  end.

(** A date parameter the listing rejects: absent, empty, or not a date for
    the parser [strptime]. *)
Definition malformed (strptime : pystr -> option date)
    (date_str : option pystr) : Prop :=
  match date_str with
  | None => True
  | Some s => s = [] \/ strptime s = None
  end.

(** Terminal statuses, section 3. *)
Definition terminal (st : pystr) : Prop :=
  st = py "cancelled" \/ st = py "completed".

(** [user] is the provider assigned to appointment [id], whose row is [a]. *)
Definition assigned_provider (db : DB) (user : User) (id : Z)
    (a : Appointment) : Prop :=
  appointments db !! id = Some a
  /\ exists k, kinesiologists db !! kinesiologist_id a = Some k
               /\ kine_user k = Some (user_id user).

(** The row a comment submission leaves: completed, with the comment and the
    time of the call. *)
Definition completed_with (a : Appointment) (comment : pystr) (now : datetime)
    : Appointment :=
  {| kinesiologist_id := kinesiologist_id a;
     patient_name_id := patient_name_id a;
     appt_date := appt_date a;
     start_time := start_time a;
     end_time := end_time a;
     status := py "completed";
     kine_comment := Some comment;
     comment_updated_at := Some now |}.

(** ** Sample data *)

Definition monday_window : Availability :=
  {| av_kinesiologist_id := 1; av_day := 0;
     av_start_time := mktime 9 0; av_end_time := mktime 10 30 |}.

Definition appointment_0945 (st : string) : Appointment :=
  {| kinesiologist_id := 1; patient_name_id := 7;
     appt_date := 738886;
     start_time := mktime 9 45; end_time := mktime 10 30;
     status := py st; kine_comment := None; comment_updated_at := None |}.

Definition sample_db (appts : gmap Z Appointment) : DB :=
  {| availabilities := [monday_window];
     appointments := appts;
     kinesiologists := {[ 1 := {| kine_user := Some 10 |} ]} |}.

(** A store whose only window is on Fridays, 23:00 to 23:50. *)
Definition late_db : DB :=
  {| availabilities :=
       [ {| av_kinesiologist_id := 1; av_day := 4;
            av_start_time := mktime 23 0; av_end_time := mktime 23 50 |} ];
     appointments := ∅;
     kinesiologists := ∅ |}.

(** A store whose windows are on Fridays, 09:00 to 10:30 and 22:00 to
    23:20, with the appointments [appts]. *)
Definition last_day_db (appts : gmap Z Appointment) : DB :=
  {| availabilities :=
       [ {| av_kinesiologist_id := 1; av_day := 4;
            av_start_time := mktime 9 0; av_end_time := mktime 10 30 |};
         {| av_kinesiologist_id := 1; av_day := 4;
            av_start_time := mktime 22 0; av_end_time := mktime 23 20 |} ];
     appointments := appts;
     kinesiologists := {[ 1 := {| kine_user := Some 10 |} ]} |}.

(** A store whose windows are on Fridays, 23:00 to 23:50 and, stored after
    it, 09:00 to 10:30. *)
Definition late_first_db : DB :=
  {| availabilities :=
       [ {| av_kinesiologist_id := 1; av_day := 4;
            av_start_time := mktime 23 0; av_end_time := mktime 23 50 |};
         {| av_kinesiologist_id := 1; av_day := 4;
            av_start_time := mktime 9 0; av_end_time := mktime 10 30 |} ];
     appointments := ∅;
     kinesiologists := {[ 1 := {| kine_user := Some 10 |} ]} |}.

(** An appointment on [date.max], 09:45 to 10:30. *)
Definition last_day_appointment : Appointment :=
  {| kinesiologist_id := 1; patient_name_id := 7;
     appt_date := MAXORDINAL;
     start_time := mktime 9 45; end_time := mktime 10 30;
     status := py "requested"; kine_comment := None;
     comment_updated_at := None |}.

Definition slot_of (d : date) (s e : time) : Slot :=
  {| slot_date := d; slot_start_time := s; slot_end_time := e;
     slot_datetime := combine d s |}.

Definition provider : User := {| user_id := 10; is_superuser := false |}.
Definition stranger : User := {| user_id := 11; is_superuser := false |}.

(** ** Ordered queries *)

(** The order of [order_by(k1, k2)] on the key pair of a row. *)
Definition lex_le (k1 k2 : Z * Z) : Prop :=
  fst k1 < fst k2 \/ (fst k1 = fst k2 /\ snd k1 <= snd k2).

#[global] Instance lex_le_dec (k1 k2 : Z * Z) : Decision (lex_le k1 k2).
Proof. unfold lex_le. apply _. Defined.

(** [qs.order_by(...)], the rows sorted by their key pair. The store is free
    to return rows of equal keys in any order; here they keep the order the
    merge gives them. *)
Definition order_by {A} (key : A -> Z * Z) (l : list A) : list A :=
  merge_sort (fun x y => lex_le (key x) (key y)) l.

(** [Appointment.objects.filter(...)]: the rows of the table, with their
    primary keys, that pass [keep]. *)
Definition appointment_rows (keep : Appointment -> bool) (db : DB)
    : list (Z * Appointment) :=
  List.filter (fun p => keep (snd p)) (map_to_list (appointments db)).

(** ** Replies of the other views *)

(** One entry of the upcoming appointments of a kinesiologist. *)
Record UpcomingRow := {
  up_appointment_id : Z;
  up_patient_id : Z;
  up_patient_name : pystr;
  up_date : pystr;
  up_start_time : pystr;
  up_end_time : pystr;
  up_status : pystr;
  up_status_label : pystr;
}.

(** One entry of the history of a patient. *)
Record HistoryRow := {
  hi_id : Z;
  hi_date : pystr;
  hi_time : pystr;
  hi_treatment : pystr;
  hi_kinesiologist : pystr;
  hi_status : pystr;
  hi_status_label : pystr;
  hi_kine_comment : pystr;
  hi_comment_updated_at : option datetime;
}.

(** Exceptions the views below let through. *)
Inductive uncaught := DoesNotExist | MultipleObjectsReturned | AttributeError.

Inductive Payload :=
| PMessage (ok : bool) (message : string)
| PAgenda (kinesiologist : Kinesiologist) (availability : list Availability)
    (appointments : list (Z * Appointment))
| PAvailability (availability : Availability)
| PUpcoming (rows : list UpcomingRow)
| PHistory (rows : list HistoryRow)
| PException (e : exn)
| PUncaught (e : uncaught).

Record Reply := {
  reply_code : Z;
  payload : Payload;
}.

(** What the framework answers when a handler of these views raises. *)
Definition failure_reply (e : exn) : Reply :=
  {| reply_code := status_code (exception_response e);
     payload := PException e |}.

Definition serve (r : outcome Reply) : Reply :=
  match r with
  | Return reply => reply
  | Raise e => failure_reply e
  end.

Definition dispatch_reply (h : M Reply) (db : DB) : Reply * DB * list Query :=
  match h db with
  | (r, db', q) => (serve r, db', q)
  end.

(** ** AvailabilityListCreateView *)

Inductive AvailabilitySaveResult :=
| AvailabilitySaved (availability : Availability) (db' : DB)
| AvailabilityValidationError (message : string)
| AvailabilityIntegrityError.

Module AvailabilityListCreateView.

(** The agenda of a kinesiologist: the windows by day and start time, the
    appointments by date and start time. *)
Definition get (kid : Z) (db : DB) : outcome Reply :=
  match kinesiologists db !! kid with
  | None => Raise Http404
  | Some kinesiologist =>
      let availability_qs :=
        order_by (fun a => (av_day a, av_start_time a))
          (filter (fun a => av_kinesiologist_id a = kid) (availabilities db)) in
      let appointments_qs :=
        order_by (fun p : Z * Appointment =>
                    (appt_date (snd p), start_time (snd p)))
          (appointment_rows (fun a => kinesiologist_id a =? kid) db) in
      Return {| reply_code := HTTP_200_OK;
                payload :=
                  PAgenda kinesiologist availability_qs appointments_qs |}
  end.

Section Post.

(** [AvailabilitySerializer] is not part of the views module: its validated
    data, its validation ([None] stands for the error
    [is_valid(raise_exception=True)] raises) and its
    [save(kinesiologist=...)] inside [transaction.atomic()] are taken as
    given. *)
Variable ValidatedData : Type.
Variable serializer_is_valid :
  Kinesiologist -> gmap (list N) pyval -> DB -> option ValidatedData.
Variable serializer_save : Z -> ValidatedData -> DB -> AvailabilitySaveResult.

Definition is_valid (kinesiologist : Kinesiologist)
    (data : gmap (list N) pyval) : M ValidatedData :=
  fun db =>
    match serializer_is_valid kinesiologist data db with
    | Some v => (Return v, db, [QSerializerValidate])
    | None => (Raise SerializerError, db, [QSerializerValidate])
    end.

Definition atomic_save (kid : Z) (v : ValidatedData)
    : M AvailabilitySaveResult :=
  fun db =>
    match serializer_save kid v db with
    | AvailabilitySaved a db' =>
        (Return (AvailabilitySaved a db'), db', [QSerializerSave])
    | r => (Return r, db, [QSerializerSave])
    end.

Definition post (user : User) (data : gmap (list N) pyval) (kid : Z)
    : M Reply :=
  let* kinesiologist := get_kinesiologist_or_404 kid in
  if negb (is_superuser user || same_user user (kine_user kinesiologist))
  then ret {| reply_code := HTTP_403_FORBIDDEN;
              payload := PMessage false
                "No tiene permisos para registrar este horario." |}
  else
    let* validated_data := is_valid kinesiologist data in
    let* saved := atomic_save kid validated_data in
    match saved with
    | AvailabilityValidationError message =>
        ret {| reply_code := HTTP_400_BAD_REQUEST;
               payload := PMessage false message |}
    | AvailabilityIntegrityError =>
        ret {| reply_code := HTTP_500_INTERNAL_SERVER_ERROR;
               payload := PMessage false
                 "No fue posible guardar el horario. Intente nuevamente." |}
    | AvailabilitySaved availability _ =>
        ret {| reply_code := HTTP_201_CREATED;
               payload := PAvailability availability |}
    end.

End Post.
End AvailabilityListCreateView.

(** ** Accounts *)

(** The user rows and patient rows the two views below read through
    [select_related]. *)
Record AuthUser := {
  first_name : option pystr;
  last_name : option pystr;
  username : pystr;
}.

Record Accounts := {
  users : gmap Z AuthUser;
  patients : gmap Z Patient;
}.

(** ** KinesiologistUpcomingAppointmentsView *)

Module KinesiologistUpcomingAppointmentsView.

(** [Kinesiologist.objects.filter(user=request.user).first()]: of the
    kinesiologists of the user, the one of lowest primary key. *)
Definition first_kinesiologist (user : User) (db : DB)
    : option (Z * Kinesiologist) :=
  head (order_by (fun p : Z * Kinesiologist => (fst p, 0))
          (List.filter (fun p => same_user user (kine_user (snd p)))
             (map_to_list (kinesiologists db)))).

(** The name built from the patient's user: first and last name joined by a
    blank and stripped, empty when the patient has no user. *)
Definition patient_full_name (acc : Accounts) (patient : Patient) : pystr :=
  match patient_user patient with
  | None => []
  | Some uid =>
      match users acc !! uid with
      | None => []
      | Some u =>
          strip (default [] (first_name u) ++ py " "
                 ++ default [] (last_name u))
      end
  end.

(** The filter of the upcoming appointments of kinesiologist [kine_id]:
    [Q(date__gt=today) | Q(date=today, start_time__gte=now_time)]. *)
Definition upcoming (today : date) (now_time : time) (kine_id : Z)
    (a : Appointment) : bool :=
  (kinesiologist_id a =? kine_id)
  && ((today <? appt_date a)
      || (appt_date a =? today) && (now_time <=? start_time a)).

Section View.

(** [d.strftime("%Y-%m-%d")], [t.strftime("%H:%M")],
    [a.get_status_display()] and [str(patient)], which the models and the
    library define. *)
Variable strftime_date : date -> pystr.
Variable strftime_time : time -> pystr.
Variable status_display : pystr -> pystr.
Variable patient_str : Patient -> pystr.

Definition row_of (acc : Accounts) (patient : Patient) (p : Z * Appointment)
    : UpcomingRow :=
  let a := snd p in
  let patient_full_name := patient_full_name acc patient in
  {| up_appointment_id := fst p;
     up_patient_id := patient_name_id a;
     up_patient_name :=
       match patient_full_name with
       | [] => patient_str patient
       | _ :: _ => patient_full_name
       end;
     up_date := strftime_date (appt_date a);
     up_start_time := strftime_time (start_time a);
     up_end_time := strftime_time (end_time a);
     up_status := status a;
     up_status_label := status_display (status a) |}.

(** The row of an appointment; the join of [select_related] yields no row
    for an appointment whose patient is not in the store. *)
Definition row (acc : Accounts) (p : Z * Appointment) : option UpcomingRow :=
  match patients acc !! patient_name_id (snd p) with
  | Some patient => Some (row_of acc patient p)
  | None => None
  end.

(** [today] and [now_time] are what [timezone.localdate()] and
    [timezone.localtime().time()] read. *)
Definition get (today : date) (now_time : time) (user : User)
    (acc : Accounts) (db : DB) : Reply :=
  match first_kinesiologist user db with
  | None =>
      {| reply_code := HTTP_403_FORBIDDEN;
         payload := PMessage false
           "El usuario no corresponde a un kinesiólogo." |}
  | Some kine =>
      let qs :=
        order_by (fun p : Z * Appointment =>
                    (appt_date (snd p), start_time (snd p)))
          (appointment_rows (upcoming today now_time (fst kine)) db) in
      {| reply_code := HTTP_200_OK;
         payload := PUpcoming (omap (row acc) qs) |}
  end.

End View.
End KinesiologistUpcomingAppointmentsView.

(** ** patient_appointments_history *)

(** [Patient.objects.get(user=request.user)]: the one patient of the user. *)
Definition get_patient (user : User) (acc : Accounts)
    : uncaught + Z * Patient :=
  match List.filter (fun p => same_user user (patient_user (snd p)))
          (map_to_list (patients acc)) with
  | [] => inl DoesNotExist
  | [p] => inr p
  | _ :: _ :: _ => inl MultipleObjectsReturned
  end.

Section History.

(** [d.strftime("%Y-%m-%d")], [t.strftime("%H:%M")],
    [a.get_status_display()] and [user.get_full_name()]. *)
Variable strftime_date : date -> pystr.
Variable strftime_time : time -> pystr.
Variable status_display : pystr -> pystr.
Variable get_full_name : AuthUser -> pystr.

Definition history_row (u : AuthUser) (p : Z * Appointment) : HistoryRow :=
  let a := snd p in
  {| hi_id := fst p;
     hi_date := strftime_date (appt_date a);
     hi_time := strftime_time (start_time a);
     hi_treatment :=
       py "Sesi" ++ [243%N] ++ py "n de kinesiolog" ++ [237%N] ++ py "a";
     hi_kinesiologist :=
       match get_full_name u with
       | [] => username u
       | _ :: _ => get_full_name u
       end;
     hi_status := status a;
     hi_status_label := status_display (status a);
     hi_kine_comment := default [] (kine_comment a);
     hi_comment_updated_at := comment_updated_at a |}.

(** The [for a in qs] loop: the join yields no row for an appointment whose
    kinesiologist is not in the store, and [a.kinesiologist.user] without a
    user raises [AttributeError] at [get_full_name]. *)
Fixpoint history_rows (acc : Accounts) (db : DB) (qs : list (Z * Appointment))
    : uncaught + list HistoryRow :=
  match qs with
  | [] => inr []
  | p :: rest =>
      match kinesiologists db !! kinesiologist_id (snd p) with
      | None => history_rows acc db rest
      | Some k =>
          match kine_user k ≫= (fun uid => users acc !! uid) with
          | None => inl AttributeError
          | Some u =>
              match history_rows acc db rest with
              | inl e => inl e
              | inr data => inr (history_row u p :: data)
              end
          end
      end
  end.

Definition patient_appointments_history (user : User) (acc : Accounts)
    (db : DB) : Reply :=
  match get_patient user acc with
  | inl e =>
      {| reply_code := HTTP_500_INTERNAL_SERVER_ERROR; payload := PUncaught e |}
  | inr patient =>
      let qs :=
        order_by (fun p : Z * Appointment =>
                    (- appt_date (snd p), - start_time (snd p)))
          (appointment_rows (fun a => patient_name_id a =? fst patient) db) in
      match history_rows acc db qs with
      | inl e =>
          {| reply_code := HTTP_500_INTERNAL_SERVER_ERROR;
             payload := PUncaught e |}
      | inr data =>
          {| reply_code := HTTP_200_OK; payload := PHistory data |}
      end
  end.

End History.

(** People of the sample stores: the users of the two kinesiologists, a
    patient with a user and one without. *)
Definition sample_accounts : Accounts :=
  {| users :=
       {[ 10 := {| first_name := Some (py "Ana"); last_name := Some [];
                   username := py "ana" |};
          20 := {| first_name := None; last_name := None;
                   username := py "kine2" |};
          30 := {| first_name := Some (py "Luis");
                   last_name := Some (py "Soto");
                   username := py "lsoto" |} ]};
     patients :=
       {[ 7 := {| patient_user := Some 30 |};
          8 := {| patient_user := None |} ]} |}.

Definition patient_luis : User := {| user_id := 30; is_superuser := false |}.

(** A store with two windows of provider 1, stored out of order, one window
    of provider 2, and three appointments. *)
Definition agenda_db : DB :=
  {| availabilities :=
       [ {| av_kinesiologist_id := 1; av_day := 2;
            av_start_time := mktime 15 0; av_end_time := mktime 18 0 |};
         {| av_kinesiologist_id := 2; av_day := 0;
            av_start_time := mktime 8 0; av_end_time := mktime 12 0 |};
         monday_window ];
     appointments :=
       {[ 5 := appointment_0945 "cancelled";
          6 := {| kinesiologist_id := 1; patient_name_id := 8;
                  appt_date := 738886;
                  start_time := mktime 9 0; end_time := mktime 9 45;
                  status := py "confirmed"; kine_comment := None;
                  comment_updated_at := None |};
          7 := {| kinesiologist_id := 2; patient_name_id := 7;
                  appt_date := 738880;
                  start_time := mktime 8 0; end_time := mktime 8 45;
                  status := py "completed"; kine_comment := Some (py "ok");
                  comment_updated_at := Some 77 |} ]};
     kinesiologists :=
       {[ 1 := {| kine_user := Some 10 |}; 2 := {| kine_user := Some 20 |} ]} |}.

(** ** The routes of [urls.py] *)

Inductive View :=
| AvailabilityListCreateView_as_view
| AppointmentCreateView_as_view
| KinesiologistAvailableSlotsView_as_view
| patient_appointments_history_view
| KinesiologistUpcomingAppointmentsView_as_view
| AppointmentStatusView_as_view
| AppointmentCommentView_as_view.

(** A route is literal text and [<int:parameter>] converters. *)
Inductive Part :=
| Lit (text : pystr)
| IntConverter (parameter : pystr).

Record URLPattern := {
  route : list Part;
  view : View;
  name : pystr;
}.

Definition app_name : pystr := py "scheduling".

Definition urlpatterns : list URLPattern :=
  [ {| route := [ Lit (py "kinesiologists/");
                  IntConverter (py "kinesiologist_id");
                  Lit (py "/availability/") ];
       view := AvailabilityListCreateView_as_view;
       name := py "kinesiologist-availability" |};
    {| route := [ Lit (py "kinesiologists/");
                  IntConverter (py "kinesiologist_id");
                  Lit (py "/appointments/") ];
       view := AppointmentCreateView_as_view;
       name := py "kinesiologist-appointments" |};
    {| route := [ Lit (py "kinesiologists/");
                  IntConverter (py "kinesiologist_id");
                  Lit (py "/slots/") ];
       view := KinesiologistAvailableSlotsView_as_view;
       name := py "kinesiologist-slots" |};
    {| route := [ Lit (py "patients/appointments/history/") ];
       view := patient_appointments_history_view;
       name := py "patient-history" |};
    {| route := [ Lit (py "kinesiologist/appointments/upcoming/") ];
       view := KinesiologistUpcomingAppointmentsView_as_view;
       name := py "kinesiologist-upcoming" |};
    {| route := [ Lit (py "appointments/"); IntConverter (py "appointment_id");
                  Lit (py "/status/") ];
       view := AppointmentStatusView_as_view;
       name := py "appointment-status" |};
    {| route := [ Lit (py "appointments/"); IntConverter (py "appointment_id");
                  Lit (py "/comment/") ];
       view := AppointmentCommentView_as_view;
       name := py "appointment-comment" |} ].

(** The text after the literal [l], when [s] starts with it. *)
Fixpoint after_prefix (l s : pystr) : option (list N) :=
  match l, s with
  | [], _ => Some s
  | _ :: _, [] => None
  | a :: l', c :: s' => if (a =? c)%N then after_prefix l' s' else None
  end.

(** The pattern [[0-9]+] of the converter [int], followed by the rest [k] of
    the route: as the pattern is greedy, the longest run of digits is tried
    first and shorter ones after it. [seen] holds the digits read so far;
    the result is the text of every group. *)
Fixpoint match_int (k : pystr -> option (list (list N * list N)))
    (parameter : pystr) (seen : pystr) (s : pystr)
    : option (list (list N * list N)) :=
  match s with
  | [] => None
  | c :: s' =>
      match digit c with
      | None => None
      | Some _ =>
          match match_int k parameter (seen ++ [c]) s' with
          | Some groups => Some groups
          | None =>
              match k s' with
              | Some groups => Some ((parameter, seen ++ [c]) :: groups)
              | None => None
              end
          end
      end
  end.

(** The regular expression of a route matched against a whole path: the
    text of its groups, or [None]. *)
Fixpoint match_groups (parts : list Part) (s : pystr)
    : option (list (list N * list N)) :=
  match parts with
  | [] => match s with [] => Some [] | _ :: _ => None end
  | Lit l :: parts' =>
      match after_prefix l s with
      | Some rest => match_groups parts' rest
      | None => None
      end
  | IntConverter parameter :: parts' =>
      match_int (match_groups parts') parameter [] s
  end.

(** [int(ds)] for a text of digits, after the value [acc]. *)
Definition int_of_digits (acc : Z) (ds : pystr) : Z :=
  fold_left (fun v c => 10 * v + (Z.of_N c - 48)) ds acc.

(** [sys.get_int_max_str_digits()], as Python sets it. *)
Definition INT_MAX_STR_DIGITS : Z := 4300.

(** [IntConverter.to_python]: [int(value)], which raises [ValueError], here
    [None], for a text of more digits than [INT_MAX_STR_DIGITS]. *)
Definition to_python (value : pystr) : option Z :=
  if Z.of_nat (length value) <=? INT_MAX_STR_DIGITS
  then Some (int_of_digits 0 value) else None.

(** Every group converted; one [ValueError] and the route does not match. *)
Fixpoint convert (groups : list (list N * list N))
    : option (list (list N * Z)) :=
  match groups with
  | [] => Some []
  | (key, value) :: rest =>
      match to_python value with
      | None => None
      | Some v =>
          match convert rest with
          | Some kwargs => Some ((key, v) :: kwargs)
          | None => None
          end
      end
  end.

(** A route matched against a whole path, as [RoutePattern.match] does it:
    the groups of the regular expression, converted; the keyword arguments
    of the view, or [None]. *)
Definition match_route (parts : list Part) (s : pystr)
    : option (list (list N * Z)) :=
  match match_groups parts s with
  | Some groups => convert groups
  | None => None
  end.

(** The first pattern that matches decides. *)
Fixpoint resolve_in (patterns : list URLPattern) (path : pystr)
    : option (View * list (list N * Z)) :=
  match patterns with
  | [] => None
  | p :: rest =>
      match match_route (route p) path with
      | Some kwargs => Some (view p, kwargs)
      | None => resolve_in rest path
      end
  end.

Definition resolve (path : pystr) : option (View * list (list N * Z)) :=
  resolve_in urlpatterns path.

(** The texts a route matches. *)
Fixpoint has_shape (parts : list Part) (s : pystr) : Prop :=
  match parts with
  | [] => s = []
  | Lit l :: parts' => exists rest, s = l ++ rest /\ has_shape parts' rest
  | IntConverter _ :: parts' =>
      exists ds rest,
        ds <> [] /\ Forall (fun c => is_Some (digit c)) ds
        /\ s = ds ++ rest /\ has_shape parts' rest
  end.

(** ** Invariants of the appointment table *)

(** The columns that say who is booked with whom and when. *)
Definition same_booking (a a' : Appointment) : Prop :=
  kinesiologist_id a' = kinesiologist_id a
  /\ patient_name_id a' = patient_name_id a
  /\ appt_date a' = appt_date a
  /\ start_time a' = start_time a
  /\ end_time a' = end_time a.

(** A row has a comment exactly when it has a comment timestamp. *)
Definition comment_consistent (db : DB) : Prop :=
  forall id a,
    appointments db !! id = Some a ->
    (kine_comment a = None <-> comment_updated_at a = None).

(** Every stored comment is non-empty and has no whitespace around it. *)
Definition comments_stripped (db : DB) : Prop :=
  forall id a c,
    appointments db !! id = Some a -> kine_comment a = Some c ->
    c <> [] /\ strip c = c.

(** Two stores hold the same windows and answer every overlap query of the
    listing alike. *)
Definition same_schedule (db db' : DB) : Prop :=
  availabilities db' = availabilities db
  /\ forall kid d start_lt end_gt,
       existsb (fun p : Z * Appointment =>
                  overlap_row kid d start_lt end_gt (snd p))
               (map_to_list (appointments db'))
       = existsb (fun p : Z * Appointment =>
                    overlap_row kid d start_lt end_gt (snd p))
                 (map_to_list (appointments db)).

(** * Properties *)

(** ** Dates and times *)

Lemma slot_length_pos : 0 < slot_length.
Proof. reflexivity. Qed.

Lemma time_of_combine (d : date) (t : time) :
  valid_time t -> time_of (combine d t) = t.
Proof.
  unfold valid_time, time_of, combine. intros Ht.
  rewrite Z.add_comm, Z.mod_add by discriminate.
  apply Z.mod_small. exact Ht.
Qed.

Lemma combine_add (d : date) (t : time) (delta : timedelta) :
  combine d t + delta = combine d (t + delta).
Proof. unfold combine. lia. Qed.

Lemma combine_le (d : date) (t1 t2 : time) :
  combine d t1 <= combine d t2 <-> t1 <= t2.
Proof. unfold combine. lia. Qed.

(** Before the last day of the calendar, and on it up to a slot before
    midnight, a slot's end is a representable [datetime]. *)
Lemma dt_add_combine (d : date) (t : time) :
  valid_date d -> valid_time t ->
  d < MAXORDINAL \/ t + slot_length < DAY ->
  dt_add (combine d t) slot_length = Some (combine d (t + slot_length)).
Proof.
  unfold valid_date, valid_time. intros Hd Ht Hfit. unfold dt_add.
  rewrite combine_add. case_bool_decide as Hr; [reflexivity | exfalso].
  apply Hr. unfold combine.
  unfold MINYEAR_ORDINAL, MAXORDINAL, slot_length, minutes, SLOT_MINUTES, DAY
    in *.
  split.
  - apply Z.div_le_lower_bound; lia.
  - apply Z.lt_succ_r, Z.div_lt_upper_bound; lia.
Qed.

Lemma dt_add_sum (dt : datetime) (delta : timedelta) (r : datetime) :
  dt_add dt delta = Some r -> r = dt + delta.
Proof. unfold dt_add. case_bool_decide; congruence. Qed.

(** ** The slot loop *)

Lemma while_slots_unroll kid d e cur slots :
  while_slots kid d e cur slots =
  match dt_add cur slot_length with
  | None => raise OverflowError
  | Some current_end =>
      if decide (current_end <= e) then
        let* overlap :=
          appointment_overlap_exists kid d (time_of current_end) (time_of cur) in
        while_slots kid d e current_end
          (if overlap then slots
           else slots ++ [ {| slot_date := d;
                              slot_start_time := time_of cur;
                              slot_end_time := time_of current_end;
                              slot_datetime := cur |} ])
      else ret slots
  end.
Proof.
  simp while_slots.
  destruct (inspect (dt_add cur slot_length)) as [[ce|] Heq];
    (etransitivity; [| rewrite Heq; reflexivity]).
  - simp while_slots. destruct (decide (ce <= e)); simp while_slots; reflexivity.
  - simp while_slots. reflexivity.
Qed.

Lemma iterations_decrease (e cur : datetime) :
  cur + slot_length <= e ->
  (Z.to_nat ((e - (cur + slot_length)) / slot_length)
   < Z.to_nat ((e - cur) / slot_length))%nat.
Proof.
  intros Hle.
  replace (e - cur) with (e - (cur + slot_length) + 1 * slot_length) by lia.
  rewrite Z.div_add by discriminate.
  assert (0 <= (e - (cur + slot_length)) / slot_length)
    by (apply Z.div_pos; [lia | reflexivity]).
  lia.
Qed.

(** The overlap query of the loop is the negation of [is_free] at the slot
    it is asked for. *)
Lemma overlap_query_is_free db kid d (s : Slot) :
  existsb (fun p : Z * Appointment =>
             overlap_row kid d (slot_end_time s) (slot_start_time s) (snd p))
          (map_to_list (appointments db))
  = negb (is_free db kid d s).
Proof.
  unfold is_free. induction (map_to_list (appointments db)) as [|p l IH].
  - reflexivity.
  - cbn [existsb forallb]. rewrite IH, negb_andb, negb_involutive.
    f_equal. unfold overlap_row, slot_overlaps, overlaps.
    destruct (kinesiologist_id (snd p) =? kid), (appt_date (snd p) =? d),
      (start_time (snd p) <? slot_end_time s),
      (slot_start_time s <? end_time (snd p)); reflexivity.
Qed.

Lemma is_free_spec db kid d (s : Slot) :
  is_free db kid d s = true <->
  forall a, booked db kid d a -> slot_overlaps s a = false.
Proof.
  unfold is_free, booked. rewrite forallb_forall. split.
  - intros H a [[id Hid] [Hk Hd]].
    apply elem_of_map_to_list, list_elem_of_In in Hid.
    specialize (H _ Hid). cbn in H.
    rewrite Hk, Hd, !Z.eqb_refl in H. cbn in H.
    destruct (slot_overlaps s a); [discriminate | reflexivity].
  - intros H [id a] Hin. cbn.
    apply list_elem_of_In, elem_of_map_to_list in Hin.
    destruct (kinesiologist_id a =? kid) eqn:Hk; [|reflexivity].
    destruct (appt_date a =? d) eqn:Hd; [|reflexivity].
    apply Z.eqb_eq in Hk, Hd. cbn.
    rewrite (H a); [reflexivity | eauto].
Qed.

(** ** Tiling *)

Lemma tile_nil L d s e : 0 < L -> e - s < L -> tile L d s e = [].
Proof.
  intros HL Hlt. unfold tile. rewrite seqZ_nil; [reflexivity |].
  apply Z.lt_succ_r, Z.div_lt_upper_bound; lia.
Qed.

Lemma candidate_shift L d s k :
  candidate L d s (Z.succ k) = candidate L d (s + L) k.
Proof. unfold candidate, combine. f_equal; lia. Qed.

Lemma tile_cons L d s e :
  0 < L -> L <= e - s ->
  tile L d s e = candidate L d s 0 :: tile L d (s + L) e.
Proof.
  intros HL Hle. unfold tile.
  replace (e - s) with (e - (s + L) + 1 * L) by lia.
  rewrite Z.div_add by lia.
  assert (0 <= (e - (s + L)) / L) by (apply Z.div_pos; lia).
  rewrite seqZ_cons by lia. cbn [map]. f_equal.
  replace (Z.pred ((e - (s + L)) / L + 1)) with ((e - (s + L)) / L) by lia.
  replace (Z.succ 0) with (1 + 0) by reflexivity.
  rewrite <- fmap_add_seqZ.
  change (Z.add 1 <$> ?l) with (map (Z.add 1) l). rewrite map_map.
  apply map_ext. intros k. rewrite <- candidate_shift. f_equal. lia.
Qed.

Lemma candidate_0 L d s :
  candidate L d s 0 =
  {| slot_date := d; slot_start_time := s; slot_end_time := s + L;
     slot_datetime := combine d s |}.
Proof. unfold candidate. rewrite Z.mul_0_l, Z.add_0_r. reflexivity. Qed.

(** A slot is in the tiling iff it is the [k]-th step from the window's
    start and still ends by the window's end. *)
Lemma elem_of_tile L d s e (x : Slot) :
  0 < L ->
  In x (tile L d s e) <->
  exists k, 0 <= k /\ s + k * L + L <= e /\ x = candidate L d s k.
Proof.
  intros HL. unfold tile. rewrite in_map_iff. split.
  - intros [k [<- Hk]]. exists k.
    apply list_elem_of_In, elem_of_seqZ in Hk.
    split; [lia | split; [| reflexivity]].
    assert (k + 1 <= (e - s) / L) by lia.
    assert (L * (k + 1) <= e - s); [| lia].
    etransitivity; [apply Z.mul_le_mono_nonneg_l; [lia | eassumption] |].
    apply Z.mul_div_le. lia.
  - intros [k [Hk [Hle ->]]]. exists k. split; [reflexivity |].
    apply list_elem_of_In, elem_of_seqZ.
    split; [lia |]. cbn.
    assert (k + 1 <= (e - s) / L); [| lia].
    apply Z.div_le_lower_bound; lia.
Qed.

(** ** The loops, run *)

Lemma while_slots_run db kid d (s e : time) slots :
  valid_date d -> valid_time s -> e < DAY ->
  d < MAXORDINAL \/ (s + slot_length < DAY /\ e + slot_length < DAY) ->
  while_slots kid d (combine d e) (combine d s) slots db =
  (Return (slots ++ List.filter (is_free db kid d) (tile slot_length d s e)),
   db, map (overlap_query kid d) (tile slot_length d s e)).
Proof.
  intros Hd Hs He Hfit.
  remember (Z.to_nat ((e - s) / slot_length)) as n eqn:Hn.
  revert s slots Hs Hfit Hn.
  induction n as [n IH] using lt_wf_ind. intros s slots Hs Hfit Hn.
  pose proof slot_length_pos as HL.
  rewrite while_slots_unroll, dt_add_combine by (try assumption; lia).
  destruct (decide (combine d (s + slot_length) <= combine d e)) as [Hle|Hgt].
  - apply combine_le in Hle.
    assert (Hs' : valid_time (s + slot_length))
      by (unfold valid_time in *; lia).
    unfold bind, appointment_overlap_exists, query.
    rewrite !time_of_combine by assumption.
    rewrite (tile_cons slot_length d s e), candidate_0 by lia.
    set (slot0 := {| slot_date := d; slot_start_time := s;
                     slot_end_time := s + slot_length;
                     slot_datetime := combine d s |}).
    change (existsb _ (map_to_list (appointments db)))
      with (existsb (fun p : Z * Appointment =>
                       overlap_row kid d (slot_end_time slot0)
                         (slot_start_time slot0) (snd p))
                    (map_to_list (appointments db))).
    rewrite overlap_query_is_free.
    rewrite (IH (Z.to_nat ((e - (s + slot_length)) / slot_length)));
      [| subst n; apply iterations_decrease; lia | assumption | lia
       | reflexivity].
    cbn [List.filter map]. unfold overlap_query at 2. cbn [app].
    destruct (is_free db kid d slot0); cbn [negb].
    + rewrite <- app_assoc. reflexivity.
    + reflexivity.
  - rewrite combine_le in Hgt.
    rewrite tile_nil by lia. cbn. rewrite app_nil_r. reflexivity.
Qed.

Lemma for_avail_run db kid d rows slots :
  valid_date d -> Forall (regular_window d) rows ->
  for_avail kid d rows slots db =
  (Return (slots ++ flat_map (free_slots db kid d) rows), db,
   flat_map (fun w => map (overlap_query kid d)
                        (tile slot_length d (av_start_time w) (av_end_time w)))
            rows).
Proof.
  intros Hd Hrows. revert slots.
  induction Hrows as [|w rows [[Hws Hwe] Hfit] _ IH]; intros slots.
  - cbn. rewrite app_nil_r. reflexivity.
  - cbn [for_avail flat_map]. unfold bind.
    rewrite while_slots_run by (try assumption; apply Hwe).
    rewrite IH. unfold free_slots at 2. rewrite <- app_assoc. reflexivity.
Qed.

(** ** The loops, whatever the date and the windows *)

Lemma while_slots_sound db kid d e cur slots r db' q :
  while_slots kid d e cur slots db = (Return r, db', q) ->
  db' = db /\
  exists extra, r = slots ++ extra
                /\ Forall (fun x => is_free db kid d x = true) extra.
Proof.
  remember (Z.to_nat ((e - cur) / slot_length)) as n eqn:Hn.
  revert cur slots q Hn.
  induction n as [n IH] using lt_wf_ind. intros cur slots q Hn.
  rewrite while_slots_unroll.
  destruct (dt_add cur slot_length) as [ce|] eqn:Hadd; [| discriminate].
  apply dt_add_sum in Hadd.
  destruct (decide (ce <= e)) as [Hle|Hgt].
  - unfold bind, appointment_overlap_exists, query.
    set (slot0 := {| slot_date := d; slot_start_time := time_of cur;
                     slot_end_time := time_of ce; slot_datetime := cur |}).
    change (existsb _ (map_to_list (appointments db)))
      with (existsb (fun p : Z * Appointment =>
                       overlap_row kid d (slot_end_time slot0)
                         (slot_start_time slot0) (snd p))
                    (map_to_list (appointments db))).
    rewrite overlap_query_is_free.
    destruct (while_slots kid d e ce _ db) as [[r1 db1] q1] eqn:Hrec.
    intros Heq. injection Heq as -> -> _.
    eapply IH in Hrec; [| | reflexivity];
      [| subst n ce; apply iterations_decrease; lia].
    destruct Hrec as [-> [extra [-> Hfree]]]. split; [reflexivity |].
    destruct (is_free db kid d slot0) eqn:Hslot0; cbn [negb].
    + exists (slot0 :: extra). rewrite <- app_assoc.
      split; [reflexivity | constructor; assumption].
    + exists extra. split; [reflexivity | assumption].
  - unfold ret. intros Heq. injection Heq as <- <- _.
    split; [reflexivity |]. exists []. rewrite app_nil_r.
    split; [reflexivity | constructor].
Qed.

Lemma for_avail_sound db kid d rows slots r db' q :
  for_avail kid d rows slots db = (Return r, db', q) ->
  db' = db /\
  exists extra, r = slots ++ extra
                /\ Forall (fun x => is_free db kid d x = true) extra.
Proof.
  revert slots q. induction rows as [|w rows IH]; intros slots q.
  - cbn. unfold ret. intros Heq. injection Heq as <- <- _.
    split; [reflexivity |]. exists []. rewrite app_nil_r.
    split; [reflexivity | constructor].
  - cbn [for_avail]. unfold bind.
    destruct (while_slots kid d _ _ slots db) as [[[r1|e1] db1] q1] eqn:Hw;
      [| discriminate].
    apply while_slots_sound in Hw. destruct Hw as [-> [ex1 [-> Hf1]]].
    destruct (for_avail kid d rows _ db) as [[r2 db2] q2] eqn:Hrec.
    intros Heq. injection Heq as -> -> _.
    apply IH in Hrec. destruct Hrec as [-> [ex2 [-> Hf2]]].
    split; [reflexivity |]. exists (ex1 ++ ex2). rewrite app_assoc.
    split; [reflexivity | apply Forall_app; split; assumption].
Qed.

(** ** The loops and the last day of the calendar *)

Lemma sums_in_range_spec (d : date) (s : time) (k : Z) :
  k <= sums_in_range d s <-> combine d s + k * slot_length <= datetime_max.
Proof.
  unfold sums_in_range. pose proof slot_length_pos as HL. split.
  - intros Hk.
    pose proof (Z.mul_div_le (datetime_max - combine d s) slot_length HL).
    assert (k * slot_length
            <= slot_length * ((datetime_max - combine d s) / slot_length))
      by nia.
    lia.
  - intros Hle. apply Z.div_le_lower_bound; lia.
Qed.

Lemma dt_add_cases (d : date) (s : time) :
  valid_date d -> valid_time s ->
  dt_add (combine d s) slot_length
  = if 1 <=? sums_in_range d s then Some (combine d (s + slot_length))
    else None.
Proof.
  unfold valid_date, valid_time. intros Hd Hs.
  pose proof (sums_in_range_spec d s 1) as Hspec.
  unfold dt_add. rewrite combine_add.
  assert (Hrange : MINYEAR_ORDINAL <= combine d (s + slot_length) / DAY
                     <= MAXORDINAL
                   <-> combine d s + 1 * slot_length <= datetime_max).
  { unfold datetime_max, combine.
    pose proof (Z.mul_div_le (d * DAY + (s + slot_length)) DAY eq_refl) as H1.
    pose proof (Z.mul_succ_div_gt (d * DAY + (s + slot_length)) DAY eq_refl)
      as H2.
    remember ((d * DAY + (s + slot_length)) / DAY) as q eqn:Hq.
    clear Hq Hspec.
    unfold MINYEAR_ORDINAL, MAXORDINAL, slot_length, minutes, SLOT_MINUTES, DAY
      in *.
    lia. }
  destruct (Z.leb_spec 1 (sums_in_range d s)) as [Hm | Hm];
    case_bool_decide as Hr; try reflexivity; exfalso.
  - apply Hr, Hrange, Hspec, Hm.
  - apply Hrange, Hspec in Hr. lia.
Qed.

Lemma sums_in_range_step (d : date) (s : time) :
  sums_in_range d (s + slot_length) = sums_in_range d s - 1.
Proof.
  unfold sums_in_range. rewrite <- combine_add.
  replace (datetime_max - (combine d s + slot_length))
    with (datetime_max - combine d s + (-1) * slot_length) by lia.
  rewrite Z.div_add by discriminate. lia.
Qed.

Lemma loop_fits_step (d : date) (s e : time) :
  s + slot_length <= e ->
  loop_fits d (s + slot_length) e = loop_fits d s e.
Proof.
  intros Hle. unfold loop_fits. rewrite sums_in_range_step.
  pose proof slot_length_pos as HL.
  replace (e - s) with (e - (s + slot_length) + 1 * slot_length) by lia.
  rewrite Z.div_add by discriminate.
  assert (0 <= (e - (s + slot_length)) / slot_length)
    by (apply Z.div_pos; lia).
  apply Bool.eq_iff_eq_true. rewrite !Z.leb_le. lia.
Qed.

Lemma probed_step (d : date) (s e : time) :
  s + slot_length <= e -> 1 <= sums_in_range d s ->
  probed d s e = candidate slot_length d s 0 :: probed d (s + slot_length) e.
Proof.
  intros Hle Hm. unfold probed.
  rewrite loop_fits_step, sums_in_range_step by exact Hle.
  rewrite (tile_cons slot_length d s e) by (pose proof slot_length_pos; lia).
  destruct (loop_fits d s e); [reflexivity |].
  replace (Z.to_nat (sums_in_range d s))
    with (S (Z.to_nat (sums_in_range d s - 1))) by lia.
  reflexivity.
Qed.

(** One window on any date: the loop returns the free candidates of the
    window when it fits and raises [OverflowError] otherwise, having asked
    the store about the candidates in [probed]. *)
Lemma while_slots_cases db kid d (s e : time) slots :
  valid_date d -> valid_time s -> e < DAY ->
  while_slots kid d (combine d e) (combine d s) slots db =
  (if loop_fits d s e
   then Return (slots
                ++ List.filter (is_free db kid d) (tile slot_length d s e))
   else Raise OverflowError,
   db, map (overlap_query kid d) (probed d s e)).
Proof.
  intros Hd Hs He.
  remember (Z.to_nat ((e - s) / slot_length)) as n eqn:Hn.
  revert s slots Hs Hn.
  induction n as [n IH] using lt_wf_ind. intros s slots Hs Hn.
  pose proof slot_length_pos as HL.
  rewrite while_slots_unroll, dt_add_cases by assumption.
  destruct (Z.leb_spec 1 (sums_in_range d s)) as [Hm | Hm].
  - destruct (decide (combine d (s + slot_length) <= combine d e)) as [Hle|Hgt].
    + apply combine_le in Hle.
      assert (Hs' : valid_time (s + slot_length))
        by (unfold valid_time in *; lia).
      unfold bind, appointment_overlap_exists, query.
      rewrite !time_of_combine by assumption.
      rewrite (probed_step d s e Hle Hm).
      rewrite (tile_cons slot_length d s e), candidate_0 by lia.
      set (slot0 := {| slot_date := d; slot_start_time := s;
                       slot_end_time := s + slot_length;
                       slot_datetime := combine d s |}).
      change (existsb _ (map_to_list (appointments db)))
        with (existsb (fun p : Z * Appointment =>
                         overlap_row kid d (slot_end_time slot0)
                           (slot_start_time slot0) (snd p))
                      (map_to_list (appointments db))).
      rewrite overlap_query_is_free.
      rewrite (IH (Z.to_nat ((e - (s + slot_length)) / slot_length)));
        [| subst n; apply iterations_decrease; lia | assumption
         | reflexivity].
      rewrite (loop_fits_step d s e Hle).
      cbn [List.filter map]. unfold overlap_query at 2. cbn [app].
      destruct (loop_fits d s e), (is_free db kid d slot0); cbn [negb];
        rewrite <- ?app_assoc; reflexivity.
    + rewrite combine_le in Hgt.
      assert (Hn0 : (e - s) / slot_length <= 0)
        by (apply Z.lt_succ_r, Z.div_lt_upper_bound; lia).
      assert (Hfit : loop_fits d s e = true)
        by (unfold loop_fits; apply Z.leb_le; lia).
      unfold probed. rewrite Hfit, tile_nil by lia.
      cbn. rewrite app_nil_r. reflexivity.
  - assert (Hfit : loop_fits d s e = false)
      by (unfold loop_fits; apply Z.leb_gt; lia).
    unfold probed. rewrite Hfit.
    replace (Z.to_nat (sums_in_range d s)) with 0%nat by lia.
    reflexivity.
Qed.

(** All the windows: the listing's loop returns the free candidates of every
    window when every loop fits, and raises [OverflowError] at the first
    that does not. *)
Lemma for_avail_cases db kid d rows slots :
  valid_date d -> Forall valid_window rows ->
  for_avail kid d rows slots db =
  (if forallb (window_fits d) rows
   then Return (slots ++ flat_map (free_slots db kid d) rows)
   else Raise OverflowError,
   db, probes kid d rows).
Proof.
  intros Hd Hrows. revert slots.
  induction Hrows as [|w rows [Hws Hwe] _ IH]; intros slots.
  - cbn. rewrite app_nil_r. reflexivity.
  - cbn [for_avail flat_map forallb probes]. unfold bind.
    rewrite while_slots_cases by (try assumption; apply Hwe).
    destruct (window_fits d w) eqn:Hfit; unfold window_fits in Hfit;
      rewrite Hfit; cbn [andb].
    + rewrite IH. unfold free_slots at 2.
      destruct (forallb (window_fits d) rows);
        rewrite <- ?app_assoc; reflexivity.
    + rewrite app_nil_r. reflexivity.
Qed.

Lemma probes_all kid d rows :
  forallb (window_fits d) rows = true ->
  probes kid d rows
  = flat_map (fun w => map (overlap_query kid d)
                         (tile slot_length d (av_start_time w)
                            (av_end_time w)))
             rows.
Proof.
  induction rows as [|w rows IH]; [reflexivity |].
  cbn [forallb probes flat_map]. intros Hfit.
  apply andb_true_iff in Hfit. destruct Hfit as [Hw Hrows].
  rewrite Hw, (IH Hrows). unfold probed.
  unfold window_fits in Hw. rewrite Hw. reflexivity.
Qed.

Lemma probes_overflow kid d rows :
  forallb (window_fits d) rows = false ->
  exists pre w post,
    rows = pre ++ w :: post
    /\ probes kid d rows
       = flat_map (fun w => map (overlap_query kid d)
                              (tile slot_length d (av_start_time w)
                                 (av_end_time w)))
                  pre
         ++ map (overlap_query kid d)
              (take (Z.to_nat (sums_in_range d (av_start_time w)))
                 (tile slot_length d (av_start_time w) (av_end_time w))).
Proof.
  induction rows as [|w rows IH]; [discriminate |].
  cbn [forallb probes]. unfold probed.
  destruct (window_fits d w) eqn:Hw; unfold window_fits in Hw; rewrite Hw;
    cbn [andb].
  - intros Hrows. destruct (IH Hrows) as [pre [w' [post [-> ->]]]].
    exists (w :: pre), w', post. split; [reflexivity |].
    cbn [flat_map]. rewrite <- app_assoc. reflexivity.
  - intros _. exists [], w, rows. split; [reflexivity |].
    rewrite app_nil_r. reflexivity.
Qed.

(** Before [date.max] every loop fits. *)
Lemma window_fits_before_last_day d w :
  valid_date d -> valid_window w -> d < MAXORDINAL ->
  window_fits d w = true.
Proof.
  unfold valid_date, valid_window, valid_time, window_fits, loop_fits.
  intros Hd [Hs He] Hlast. apply Z.leb_le, sums_in_range_spec.
  pose proof slot_length_pos as HL.
  assert (Hn : Z.max 0 ((av_end_time w - av_start_time w) / slot_length)
               * slot_length <= Z.max 0 (av_end_time w - av_start_time w)).
  { destruct (Z_lt_le_dec (av_end_time w - av_start_time w) 0) as [Hneg | Hpos].
    - assert ((av_end_time w - av_start_time w) / slot_length < 0)
        by (apply Z.div_lt_upper_bound; lia).
      lia.
    - pose proof (Z.mul_div_le (av_end_time w - av_start_time w) slot_length
                    HL).
      assert (0 <= (av_end_time w - av_start_time w) / slot_length)
        by (apply Z.div_pos; lia).
      lia. }
  unfold datetime_max, combine.
  unfold MINYEAR_ORDINAL, MAXORDINAL, slot_length, minutes, SLOT_MINUTES, DAY
    in *.
  lia.
Qed.

(** ** The slot listing *)

Section SlotsProperties.

Variable strptime : pystr -> option date.

Lemma slots_get_malformed date_str :
  malformed strptime date_str ->
  exists detail, forall db kid,
    dispatch (KinesiologistAvailableSlotsView.get strptime date_str kid) db =
    ({| status_code := HTTP_400_BAD_REQUEST; body := BDetail detail |}, db, []).
Proof.
  unfold dispatch, KinesiologistAvailableSlotsView.get.
  destruct date_str as [[|c s]|]; cbn.
  - intros _. eexists. reflexivity.
  - intros [Hnil | Hparse]; [discriminate |]. rewrite Hparse.
    eexists. reflexivity.
  - intros _. eexists. reflexivity.
Qed.

Lemma slots_get_run db kid s d :
  s <> [] -> strptime s = Some d ->
  valid_date d ->
  Forall (regular_window d) (availability_filter kid (weekday d) db) ->
  exists q,
    dispatch (KinesiologistAvailableSlotsView.get strptime (Some s) kid) db =
    ({| status_code := HTTP_200_OK;
        body := BSlots (flat_map (free_slots db kid d)
                          (availability_filter kid (weekday d) db)) |},
     db, q).
Proof.
  intros Hs Hparse Hd Hvalid.
  unfold dispatch, KinesiologistAvailableSlotsView.get.
  destruct s as [|c s]; [congruence |]. rewrite Hparse.
  unfold bind, availability_exists, availability_select, query.
  destruct (availability_filter kid (weekday d) db) as [|w rows] eqn:Hrows.
  - cbn. eexists. reflexivity.
  - cbn [negb]. rewrite Hrows, for_avail_run by assumption.
    cbn. eexists. reflexivity.
Qed.

Lemma slots_get_sound db kid s d resp db' q slots :
  strptime s = Some d ->
  dispatch (KinesiologistAvailableSlotsView.get strptime (Some s) kid) db
  = (resp, db', q) ->
  body resp = BSlots slots ->
  db' = db /\ Forall (fun x => is_free db kid d x = true) slots.
Proof.
  intros Hparse. unfold dispatch, KinesiologistAvailableSlotsView.get.
  destruct s as [|c s].
  { cbn. intros Heq. injection Heq as <- _ _. discriminate. }
  rewrite Hparse.
  unfold bind, availability_exists, availability_select, query.
  destruct (availability_filter kid (weekday d) db) as [|w rows] eqn:Hrows.
  - cbn. intros Heq. injection Heq as <- <- _. cbn.
    intros [= <-]. split; [reflexivity | constructor].
  - cbn [negb]. rewrite Hrows.
    destruct (for_avail kid d (w :: rows) [] db) as [[[r|e] db1] q1] eqn:Hfor.
    + apply for_avail_sound in Hfor. destruct Hfor as [-> [extra [-> Hfree]]].
      cbn. intros Heq. injection Heq as <- <- _. cbn.
      intros [= <-]. split; [reflexivity | assumption].
    + intros Heq. injection Heq as <- _ _.
      destruct e; discriminate.
Qed.

End SlotsProperties.

Lemma is_free_no_appointments db kid d x :
  appointments db = ∅ -> is_free db kid d x = true.
Proof. intros H. unfold is_free. rewrite H, map_to_list_empty. reflexivity. Qed.

Lemma tile_remainder L d s e :
  0 < L -> s <= e ->
  0 <= e - (s + Z.of_nat (length (tile L d s e)) * L) < L.
Proof.
  intros HL Hse. unfold tile. rewrite length_map, length_seqZ.
  assert (0 <= (e - s) / L) by (apply Z.div_pos; lia).
  rewrite Z2Nat.id by assumption.
  pose proof (Z.mod_pos_bound (e - s) L HL) as Hmod.
  rewrite Z.mod_eq in Hmod by lia. lia.
Qed.

(** The listing on a date that parses, whatever the windows: the answer is
    the free candidates of every window when every loop fits and a server
    error otherwise; the store is only read. *)
Lemma slots_get_cases strptime db kid s d :
  s <> [] -> strptime s = Some d -> valid_date d ->
  Forall valid_window (availability_filter kid (weekday d) db) ->
  dispatch (KinesiologistAvailableSlotsView.get strptime (Some s) kid) db =
  (if forallb (window_fits d) (availability_filter kid (weekday d) db)
   then {| status_code := HTTP_200_OK;
           body := BSlots (flat_map (free_slots db kid d)
                             (availability_filter kid (weekday d) db)) |}
   else {| status_code := HTTP_500_INTERNAL_SERVER_ERROR;
           body := BException OverflowError |},
   db,
   QAvailabilityExists kid (weekday d)
   :: match availability_filter kid (weekday d) db with
      | [] => []
      | _ :: _ =>
          QAvailabilitySelect kid (weekday d)
          :: probes kid d (availability_filter kid (weekday d) db)
      end).
Proof.
  intros Hs Hparse Hd Hvalid.
  unfold dispatch, KinesiologistAvailableSlotsView.get.
  destruct s as [|c s]; [congruence |]. rewrite Hparse.
  unfold bind, availability_exists, availability_select, query.
  destruct (availability_filter kid (weekday d) db) as [|w rows] eqn:Hrows.
  - reflexivity.
  - cbn [negb]. rewrite Hrows, for_avail_cases by assumption.
    destruct (forallb (window_fits d) (w :: rows)); cbn [app ret];
      rewrite ?app_nil_r; reflexivity.
Qed.

(** A response that carries slots is a 200 of a listing all of whose loops
    fit. *)
Lemma slots_get_listed strptime db kid s d resp db' q slots :
  strptime s = Some d -> valid_date d ->
  Forall valid_window (availability_filter kid (weekday d) db) ->
  dispatch (KinesiologistAvailableSlotsView.get strptime (Some s) kid) db
  = (resp, db', q) ->
  body resp = BSlots slots ->
  forallb (window_fits d) (availability_filter kid (weekday d) db) = true
  /\ status_code resp = 200
  /\ slots = flat_map (free_slots db kid d)
               (availability_filter kid (weekday d) db).
Proof.
  intros Hparse Hd Hvalid Hrun Hbody.
  destruct s as [|c s].
  { cbn in Hrun. injection Hrun as <- _ _. discriminate. }
  rewrite (slots_get_cases strptime db kid (c :: s) d) in Hrun
    by (assumption || discriminate).
  destruct (forallb (window_fits d) _); injection Hrun as <- _ _;
    cbn in Hbody; [| discriminate].
  injection Hbody as <-. repeat split.
Qed.

(** C1 on the last day of the calendar: the date 9999-12-31, a Friday,
    parses, and the window 23:00-23:50 of provider 1 is retained for it.
    The tiling the claim describes is the single slot 23:00-23:45, the
    remainder of five minutes dropped. The loop finds that slot free, then
    forms 23:45 + 45 minutes to test whether a next slot would exceed the
    window's end; that sum is no [datetime], [OverflowError] is raised, and
    the request ends in a server error that carries no slot. *)
Theorem last_day_late_window_overflows :
  strptime_ymd (py "9999-12-31") = Some MAXORDINAL
  /\ availability_filter 1 (weekday MAXORDINAL) late_db
     = [ {| av_kinesiologist_id := 1; av_day := 4;
            av_start_time := mktime 23 0; av_end_time := mktime 23 50 |} ]
  /\ tile slot_length MAXORDINAL (mktime 23 0) (mktime 23 50)
     = [ slot_of MAXORDINAL (mktime 23 0) (mktime 23 45) ]
  /\ dt_add (combine MAXORDINAL (mktime 23 45)) slot_length = None
  /\ dispatch
       (KinesiologistAvailableSlotsView.get strptime_ymd
          (Some (py "9999-12-31")) 1) late_db
     = ({| status_code := 500; body := BException OverflowError |}, late_db,
        [ QAvailabilityExists 1 4; QAvailabilitySelect 1 4;
          QAppointmentOverlapExists 1 3652059 (mktime 23 45) (mktime 23 0) ]).
Proof. repeat split; vm_compute; reflexivity. Qed.

(** X27: for a date of the calendar and windows that hold times of day, the
    listing answers 200 with, window by window, the free slots of the
    tiling: slots of exactly [slot_length] (45 minutes) from the window's
    start, stepping by [slot_length], as long as the slot ends by the
    window's end, the remainder shorter than a slot dropped. It does so
    exactly when every window fits: the sum of the window's start and one
    slot more than the window has candidates is a [datetime]; otherwise the
    request ends in a server error. Before the last day of the calendar
    every window fits. For the window 09:00-10:30 on a Monday without
    appointments the result is exactly 09:00-09:45, 09:45-10:30. *)
Theorem listing_tiles_or_overflows
    (strptime : pystr -> option date) db kid s d :
  s <> [] -> strptime s = Some d ->
  valid_date d ->
  Forall valid_window (availability_filter kid (weekday d) db) ->
  (forallb (window_fits d) (availability_filter kid (weekday d) db) = true ->
   fst (fst (dispatch
               (KinesiologistAvailableSlotsView.get strptime (Some s) kid) db))
   = {| status_code := 200;
        body := BSlots (flat_map (free_slots db kid d)
                          (availability_filter kid (weekday d) db)) |})
  /\ (forallb (window_fits d) (availability_filter kid (weekday d) db) = false ->
      fst (fst (dispatch
                  (KinesiologistAvailableSlotsView.get strptime (Some s) kid)
                  db))
      = {| status_code := 500; body := BException OverflowError |})
  /\ (d < MAXORDINAL ->
      forallb (window_fits d) (availability_filter kid (weekday d) db) = true)
  /\ (forall w, In w (availability_filter kid (weekday d) db) ->
       (window_fits d w = true <->
        combine d (av_start_time w)
        + (Z.max 0 ((av_end_time w - av_start_time w) / minutes 45) + 1)
          * minutes 45
        <= combine MAXORDINAL (DAY - 1))
       /\ (appointments db = ∅ ->
           free_slots db kid d w
           = tile (minutes 45) d (av_start_time w) (av_end_time w))
       /\ (forall x,
             In x (tile (minutes 45) d (av_start_time w) (av_end_time w)) <->
             exists k,
               0 <= k
               /\ av_start_time w + k * minutes 45 + minutes 45 <= av_end_time w
               /\ x = {| slot_date := d;
                         slot_start_time := av_start_time w + k * minutes 45;
                         slot_end_time :=
                           av_start_time w + k * minutes 45 + minutes 45;
                         slot_datetime :=
                           combine d (av_start_time w + k * minutes 45) |})
       /\ (av_start_time w <= av_end_time w ->
           0 <= av_end_time w
                - (av_start_time w
                   + Z.of_nat (length (tile (minutes 45) d (av_start_time w)
                                         (av_end_time w))) * minutes 45)
             < minutes 45))
  /\ dispatch
       (KinesiologistAvailableSlotsView.get strptime_ymd
          (Some (py "2024-01-01")) 1)
        (sample_db ∅)
     = ({| status_code := 200;
           body := BSlots [ slot_of 738886 (mktime 9 0) (mktime 9 45);
                            slot_of 738886 (mktime 9 45) (mktime 10 30) ] |},
        sample_db ∅,
        [ QAvailabilityExists 1 0; QAvailabilitySelect 1 0;
          QAppointmentOverlapExists 1 738886 (mktime 9 45) (mktime 9 0);
          QAppointmentOverlapExists 1 738886 (mktime 10 30) (mktime 9 45) ]).
Proof.
  intros Hs Hparse Hd Hvalid.
  pose proof (slots_get_cases strptime db kid s d Hs Hparse Hd Hvalid) as Hrun.
  split; [| split; [| split; [| split; [| vm_compute; reflexivity]]]].
  - intros Hfit. rewrite Hrun, Hfit. reflexivity.
  - intros Hfit. rewrite Hrun, Hfit. reflexivity.
  - intros Hlast. apply forallb_forall. intros w Hw.
    apply window_fits_before_last_day; [exact Hd | | exact Hlast].
    rewrite Forall_forall in Hvalid. apply Hvalid, list_elem_of_In, Hw.
  - intros w Hw. split; [| split; [| split]].
    + unfold window_fits, loop_fits. rewrite Z.leb_le.
      apply sums_in_range_spec.
    + intros Hempty. unfold free_slots.
      change slot_length with (minutes 45).
      apply forallb_filter_id, forallb_forall.
      intros x _. apply is_free_no_appointments, Hempty.
    + intros x. apply elem_of_tile. reflexivity.
    + intros Hle. apply tile_remainder; [reflexivity | exact Hle].
Qed.

Lemma listing_tiles_or_overflows_witness :
  fst (fst (dispatch
              (KinesiologistAvailableSlotsView.get strptime_ymd
                 (Some (py "9999-12-31")) 1)
              (last_day_db ∅))) =
    {| status_code := 200;
       body := BSlots [ slot_of MAXORDINAL (mktime 9 0) (mktime 9 45);
                        slot_of MAXORDINAL (mktime 9 45) (mktime 10 30);
                        slot_of MAXORDINAL (mktime 22 0) (mktime 22 45) ] |}.
Proof.
  pose proof (listing_tiles_or_overflows strptime_ymd (last_day_db ∅) 1
                (py "9999-12-31") MAXORDINAL) as H.
  destruct H as [H _].
  - vm_compute. discriminate.
  - vm_compute. reflexivity.
  - unfold valid_date, MINYEAR_ORDINAL, MAXORDINAL. lia.
  - replace (availability_filter 1 (weekday MAXORDINAL) (last_day_db ∅))
      with (availabilities (last_day_db ∅)) by (vm_compute; reflexivity).
    repeat constructor; vm_compute; congruence.
  - rewrite H by (vm_compute; reflexivity). vm_compute. reflexivity.
Defined.

Lemma slot_overlaps_true (x : Slot) (a : Appointment) :
  slot_overlaps x a = true <->
  slot_start_time x < end_time a /\ start_time a < slot_end_time x.
Proof.
  unfold slot_overlaps, overlaps.
  rewrite andb_true_iff, !Z.ltb_lt. reflexivity.
Qed.

Lemma slot_overlaps_false (x : Slot) (a : Appointment) :
  slot_overlaps x a = false <->
  end_time a <= slot_start_time x \/ slot_end_time x <= start_time a.
Proof.
  unfold slot_overlaps, overlaps.
  rewrite andb_false_iff, !Z.ltb_ge. reflexivity.
Qed.

(** Every slot of a response is free of every appointment of the provider
    on the date, whatever its status. *)
Lemma listed_slot_free strptime db kid s d resp db' q slots x a :
  strptime s = Some d ->
  dispatch (KinesiologistAvailableSlotsView.get strptime (Some s) kid) db
  = (resp, db', q) ->
  body resp = BSlots slots ->
  In x slots -> booked db kid d a ->
  ~ (slot_start_time x < end_time a /\ start_time a < slot_end_time x).
Proof.
  intros Hparse Hrun Hbody Hx Ha Hov.
  destruct (slots_get_sound strptime db kid s d resp db' q slots
              Hparse Hrun Hbody) as [_ Hfree].
  rewrite Forall_forall in Hfree.
  apply list_elem_of_In, Hfree in Hx.
  rewrite is_free_spec in Hx. specialize (Hx a Ha).
  apply slot_overlaps_true in Hov. congruence.
Qed.

(** C2: no slot of the sequence the listing returns overlaps an existing
    non-terminal appointment of that provider and date, two intervals
    overlapping iff [a.start < b.end] and [b.start < a.end]; a candidate
    that only touches appointments at an endpoint is not excluded. *)
Theorem listed_slots_overlap_no_active_appointment
    (strptime : pystr -> option date) db kid s d resp db' q slots :
  strptime s = Some d ->
  dispatch (KinesiologistAvailableSlotsView.get strptime (Some s) kid) db
  = (resp, db', q) ->
  body resp = BSlots slots ->
  (forall x a,
     In x slots -> booked db kid d a -> ~ terminal (status a) ->
     ~ (slot_start_time x < end_time a /\ start_time a < slot_end_time x))
  /\ (s <> [] -> valid_date d ->
      Forall (regular_window d) (availability_filter kid (weekday d) db) ->
      forall w x,
        In w (availability_filter kid (weekday d) db) ->
        In x (tile slot_length d (av_start_time w) (av_end_time w)) ->
        (forall a, booked db kid d a ->
                   end_time a <= slot_start_time x
                   \/ slot_end_time x <= start_time a) ->
        In x slots)
  /\ fst (fst (dispatch
                 (KinesiologistAvailableSlotsView.get strptime_ymd
                    (Some (py "2024-01-01")) 1)
                 (sample_db {[ 5 := appointment_0945 "confirmed" ]})))
     = {| status_code := 200;
          body := BSlots [ slot_of 738886 (mktime 9 0) (mktime 9 45) ] |}.
Proof.
  intros Hparse Hrun Hbody. split; [| split].
  - intros x a Hx Ha _.
    exact (listed_slot_free strptime db kid s d resp db' q slots x a
             Hparse Hrun Hbody Hx Ha).
  - intros Hs Hd Hvalid w x Hw Hx Htouch.
    destruct (slots_get_run strptime db kid s d Hs Hparse Hd Hvalid)
      as [q' Hrun'].
    rewrite Hrun in Hrun'. injection Hrun' as -> _ _.
    cbn in Hbody. injection Hbody as <-.
    apply in_flat_map. exists w. split; [exact Hw |].
    unfold free_slots. apply filter_In. split; [exact Hx |].
    apply is_free_spec. intros a Ha. apply slot_overlaps_false, Htouch, Ha.
  - vm_compute. reflexivity.
Qed.

Lemma listed_slots_overlap_no_active_appointment_witness :
  ~ (mktime 9 0 < mktime 10 30 /\ mktime 9 45 < mktime 9 45).
Proof.
  pose proof (listed_slots_overlap_no_active_appointment strptime_ymd
                (sample_db {[ 5 := appointment_0945 "confirmed" ]}) 1
                (py "2024-01-01") 738886
                {| status_code := 200;
                   body := BSlots [ slot_of 738886 (mktime 9 0) (mktime 9 45) ] |}
                (sample_db {[ 5 := appointment_0945 "confirmed" ]})
                [ QAvailabilityExists 1 0; QAvailabilitySelect 1 0;
                  QAppointmentOverlapExists 1 738886 (mktime 9 45) (mktime 9 0);
                  QAppointmentOverlapExists 1 738886 (mktime 10 30) (mktime 9 45) ]
                [ slot_of 738886 (mktime 9 0) (mktime 9 45) ]) as H.
  destruct H as [H _].
  - vm_compute. reflexivity.
  - vm_compute. reflexivity.
  - reflexivity.
  - apply (H (slot_of 738886 (mktime 9 0) (mktime 9 45))
             (appointment_0945 "confirmed")).
    + left. reflexivity.
    + split; [exists 5; vm_compute; reflexivity | split; reflexivity].
    + intros [Hc | Hc]; vm_compute in Hc; discriminate.
Defined.

(** C7: the listing checks each candidate against every appointment of the
    provider on the date whatever its status, Cancelled included: a
    candidate that overlaps a Cancelled appointment is not in the returned
    sequence. *)
Theorem cancelled_appointment_excludes_slot
    (strptime : pystr -> option date) db kid s d resp db' q slots :
  strptime s = Some d ->
  dispatch (KinesiologistAvailableSlotsView.get strptime (Some s) kid) db
  = (resp, db', q) ->
  body resp = BSlots slots ->
  (forall c a,
     booked db kid d a -> status a = py "cancelled" ->
     slot_start_time c < end_time a /\ start_time a < slot_end_time c ->
     ~ In c slots)
  /\ (forall c a,
        booked db kid d a ->
        slot_start_time c < end_time a /\ start_time a < slot_end_time c ->
        ~ In c slots)
  /\ fst (fst (dispatch
                 (KinesiologistAvailableSlotsView.get strptime_ymd
                    (Some (py "2024-01-01")) 1)
                 (sample_db {[ 5 := appointment_0945 "cancelled" ]})))
     = {| status_code := 200;
          body := BSlots [ slot_of 738886 (mktime 9 0) (mktime 9 45) ] |}.
Proof.
  intros Hparse Hrun Hbody. split; [| split].
  - intros c a Ha _ Hov Hc.
    exact (listed_slot_free strptime db kid s d resp db' q slots c a
             Hparse Hrun Hbody Hc Ha Hov).
  - intros c a Ha Hov Hc.
    exact (listed_slot_free strptime db kid s d resp db' q slots c a
             Hparse Hrun Hbody Hc Ha Hov).
  - vm_compute. reflexivity.
Qed.

Lemma cancelled_appointment_excludes_slot_witness :
  ~ In (slot_of 738886 (mktime 9 45) (mktime 10 30))
       [ slot_of 738886 (mktime 9 0) (mktime 9 45) ].
Proof.
  pose proof (cancelled_appointment_excludes_slot strptime_ymd
                (sample_db {[ 5 := appointment_0945 "cancelled" ]}) 1
                (py "2024-01-01") 738886
                {| status_code := 200;
                   body := BSlots [ slot_of 738886 (mktime 9 0) (mktime 9 45) ] |}
                (sample_db {[ 5 := appointment_0945 "cancelled" ]})
                [ QAvailabilityExists 1 0; QAvailabilitySelect 1 0;
                  QAppointmentOverlapExists 1 738886 (mktime 9 45) (mktime 9 0);
                  QAppointmentOverlapExists 1 738886 (mktime 10 30) (mktime 9 45) ]
                [ slot_of 738886 (mktime 9 0) (mktime 9 45) ]) as H.
  destruct H as [H _].
  - vm_compute. reflexivity.
  - vm_compute. reflexivity.
  - reflexivity.
  - apply (H (slot_of 738886 (mktime 9 45) (mktime 10 30))
             (appointment_0945 "cancelled")).
    + split; [exists 5; vm_compute; reflexivity | split; reflexivity].
    + reflexivity.
    + vm_compute. split; reflexivity.
Defined.

(** C6: a missing or unparseable date parameter fails with status 400
    before any lookup in the store, the response being the same whatever
    the store holds and no query being issued; and when availability windows
    exist but none matches the queried day the listing answers 200 with the
    empty sequence. *)
Theorem malformed_date_fails_before_lookup (strptime : pystr -> option date) :
  (forall date_str,
     malformed strptime date_str ->
     exists detail, forall db kid,
       dispatch (KinesiologistAvailableSlotsView.get strptime date_str kid) db =
       ({| status_code := 400; body := BDetail detail |}, db, []))
  /\ (forall db kid s d,
        s <> [] -> strptime s = Some d ->
        availabilities db <> [] ->
        (forall w, In w (availabilities db) ->
                   ~ (av_kinesiologist_id w = kid /\ av_day w = weekday d)) ->
        fst (fst (dispatch
                    (KinesiologistAvailableSlotsView.get strptime (Some s) kid)
                    db))
        = {| status_code := 200; body := BSlots [] |}).
Proof.
  split.
  - intros date_str Hbad. exact (slots_get_malformed strptime date_str Hbad).
  - intros db kid s d Hs Hparse _ Hnone.
    assert (Hrows : availability_filter kid (weekday d) db = []).
    { unfold availability_filter.
      induction (availabilities db) as [|w l IH]; [reflexivity |].
      rewrite filter_cons. destruct (decide _) as [Hw | _].
      - exfalso. apply (Hnone w); [left; reflexivity | exact Hw].
      - apply IH. intros w' Hw'. apply Hnone. right. exact Hw'. }
    unfold dispatch, KinesiologistAvailableSlotsView.get.
    destruct s as [|c s]; [congruence |].
    rewrite Hparse.
    unfold bind, availability_exists, query. rewrite Hrows. reflexivity.
Qed.

Lemma malformed_date_fails_before_lookup_witness :
  (exists detail, forall db kid,
     dispatch
       (KinesiologistAvailableSlotsView.get strptime_ymd
          (Some (py "2024-13-01")) kid) db =
     ({| status_code := 400; body := BDetail detail |}, db, []))
  /\ fst (fst (dispatch
                 (KinesiologistAvailableSlotsView.get strptime_ymd
                    (Some (py "2024-01-02")) 1)
                 (sample_db ∅)))
     = {| status_code := 200; body := BSlots [] |}.
Proof.
  destruct (malformed_date_fails_before_lookup strptime_ymd) as [H1 H2].
  split.
  - apply H1. right. vm_compute. reflexivity.
  - apply (H2 (sample_db ∅) 1 (py "2024-01-02") 738887).
    + vm_compute. discriminate.
    + vm_compute. reflexivity.
    + vm_compute. discriminate.
    + intros w [<- | []]. vm_compute. intros [_ Hday]. discriminate.
Defined.

(** ** Stripping *)

Lemma lstrip_head (s : list N) c r : lstrip s = c :: r -> isspace c = false.
Proof.
  induction s as [|x s IH]; cbn; [discriminate |].
  destruct (isspace x) eqn:Hx; [exact IH |].
  intros [= <- _]. exact Hx.
Qed.

Lemma lstrip_suffix (s : list N) : exists p, s = p ++ lstrip s.
Proof.
  induction s as [|x s [p IH]]; cbn.
  - exists []. reflexivity.
  - destruct (isspace x).
    + exists (x :: p). cbn. f_equal. exact IH.
    + exists []. reflexivity.
Qed.

Lemma rstrip_prefix (s : list N) : exists p, s = rstrip s ++ p.
Proof.
  unfold rstrip. destruct (lstrip_suffix (rev s)) as [p Hp].
  exists (rev p).
  rewrite <- rev_app_distr, <- Hp, rev_involutive. reflexivity.
Qed.

Lemma rstrip_last (s : list N) i c : rstrip s = i ++ [c] -> isspace c = false.
Proof.
  unfold rstrip. intros H.
  apply (f_equal (@rev N)) in H.
  rewrite rev_involutive, rev_app_distr in H. cbn in H.
  exact (lstrip_head _ _ _ H).
Qed.

Lemma strip_head (s : list N) c r : strip s = c :: r -> isspace c = false.
Proof.
  unfold strip. intros H.
  destruct (rstrip_prefix (lstrip s)) as [p Hp].
  rewrite H in Hp. cbn in Hp. exact (lstrip_head _ _ _ Hp).
Qed.

Lemma strip_last (s : list N) i c : strip s = i ++ [c] -> isspace c = false.
Proof. unfold strip. apply rstrip_last. Qed.

(** ** The two transitions, path by path *)

Lemma same_user_true user o :
  same_user user o = true <-> o = Some (user_id user).
Proof.
  destruct o as [i|]; cbn; [| split; discriminate].
  rewrite Z.eqb_eq. split; congruence.
Qed.

Lemma status_patch_forbidden db user data id a k :
  appointments db !! id = Some a ->
  kinesiologists db !! kinesiologist_id a = Some k ->
  kine_user k <> Some (user_id user) ->
  dispatch (AppointmentStatusView.patch user data id) db
  = (not_authorized, db, [QAppointmentGet id]).
Proof.
  intros Ha Hk Hu.
  unfold dispatch, AppointmentStatusView.patch, bind, get_appointment_or_404.
  rewrite Ha, Hk.
  destruct (same_user user (kine_user k)) eqn:Hsame.
  - apply same_user_true in Hsame. contradiction.
  - reflexivity.
Qed.

Lemma comment_patch_forbidden db now user data id a k :
  appointments db !! id = Some a ->
  kinesiologists db !! kinesiologist_id a = Some k ->
  kine_user k <> Some (user_id user) ->
  dispatch (AppointmentCommentView.patch now user data id) db
  = (not_authorized, db, [QAppointmentGet id]).
Proof.
  intros Ha Hk Hu.
  unfold dispatch, AppointmentCommentView.patch, bind, get_appointment_or_404.
  rewrite Ha, Hk.
  destruct (same_user user (kine_user k)) eqn:Hsame.
  - apply same_user_true in Hsame. contradiction.
  - reflexivity.
Qed.

Lemma save_status db id a v :
  v = py "confirmed" \/ v = py "cancelled" ->
  save id (set_status a v) [FStatus] db
  = match appointments db !! id with
    | Some row =>
        (Return tt,
         put_appointment db id
           (fold_left (write_field (set_status a v)) [FStatus] row),
         [QAppointmentUpdate id [FStatus]])
    | None => (Raise DatabaseError, db, [QAppointmentUpdate id [FStatus]])
    end.
Proof. intros [-> | ->]; reflexivity. Qed.

Lemma text_parameters_completed a c now :
  forallb utf8_encodable
    (text_parameters
       (set_comment_updated_at
          (set_status (set_kine_comment a c) (py "completed")) now)
       [FKineComment; FStatus; FCommentUpdatedAt])
  = utf8_encodable c.
Proof. cbn. destruct (utf8_encodable c); reflexivity. Qed.

Lemma status_patch_accepts db user data id a v :
  assigned_provider db user id a ->
  data_get data (py "status") = PyStr v ->
  v = py "confirmed" \/ v = py "cancelled" ->
  dispatch (AppointmentStatusView.patch user data id) db
  = ({| status_code := 200; body := BStatusDisplay v |},
     put_appointment db id (set_status a v),
     [QAppointmentGet id; QAppointmentUpdate id [FStatus]]).
Proof.
  intros [Ha [k [Hk Hu]]] Hdata Hv.
  unfold dispatch, AppointmentStatusView.patch, bind, get_appointment_or_404.
  rewrite Ha, Hk. apply same_user_true in Hu. rewrite Hu. cbn [negb].
  rewrite Hdata.
  assert (Hin : py_in (PyStr v) [py "confirmed"; py "cancelled"] = true).
  { unfold py_in. cbn [existsb py_eq_str].
    destruct Hv as [-> | ->].
    - rewrite bool_decide_eq_true_2 by reflexivity. reflexivity.
    - rewrite (bool_decide_eq_true_2 (py "cancelled" = py "cancelled"))
        by reflexivity.
      rewrite !orb_true_r. reflexivity. }
  rewrite Hin. cbv zeta. cbn [negb py_str].
  rewrite save_status by exact Hv. rewrite Ha. reflexivity.
Qed.

Lemma comment_patch_rejects db now user data id a :
  assigned_provider db user id a ->
  truthy (data_get data (py "kine_comment")) = false
  \/ strip (py_str (data_get data (py "kine_comment"))) = [] ->
  dispatch (AppointmentCommentView.patch now user data id) db
  = ({| status_code := 400;
        body := BMessage false "El comentario es obligatorio." |},
     db, [QAppointmentGet id]).
Proof.
  intros [Ha [k [Hk Hu]]] Hblank.
  unfold dispatch, AppointmentCommentView.patch, bind, get_appointment_or_404.
  rewrite Ha, Hk. apply same_user_true in Hu. rewrite Hu. cbn [negb].
  destruct Hblank as [-> | ->]; [reflexivity |].
  rewrite orb_true_r. reflexivity.
Qed.

Lemma comment_patch_accepts db now user data id a :
  assigned_provider db user id a ->
  truthy (data_get data (py "kine_comment")) = true ->
  strip (py_str (data_get data (py "kine_comment"))) <> [] ->
  utf8_encodable (strip (py_str (data_get data (py "kine_comment")))) = true ->
  dispatch (AppointmentCommentView.patch now user data id) db
  = ({| status_code := 200;
        body := BMessage true
          "Sesión marcada como realizada y comentario guardado." |},
     put_appointment db id
       (completed_with a
          (strip (py_str (data_get data (py "kine_comment")))) now),
     [QAppointmentGet id;
      QAppointmentUpdate id [FKineComment; FStatus; FCommentUpdatedAt]]).
Proof.
  intros [Ha [k [Hk Hu]]] Htrue Hstrip Henc.
  unfold dispatch, AppointmentCommentView.patch, bind, get_appointment_or_404.
  rewrite Ha, Hk. apply same_user_true in Hu. rewrite Hu. cbn [negb].
  rewrite Htrue. cbn [negb orb].
  destruct (strip (py_str (data_get data (py "kine_comment")))) as [|c r] eqn:Hs;
    [congruence |].
  cbv zeta. unfold save. rewrite text_parameters_completed, Henc, Ha.
  reflexivity.
Qed.

(** A comment whose stripped text has no UTF-8 encoding passes the view's
    test and fails in [save]: nothing is written. *)
Lemma comment_patch_unencodable db now user data id a :
  assigned_provider db user id a ->
  truthy (data_get data (py "kine_comment")) = true ->
  strip (py_str (data_get data (py "kine_comment"))) <> [] ->
  utf8_encodable (strip (py_str (data_get data (py "kine_comment")))) = false ->
  dispatch (AppointmentCommentView.patch now user data id) db
  = ({| status_code := 500; body := BException UnicodeEncodeError |},
     db, [QAppointmentGet id]).
Proof.
  intros [Ha [k [Hk Hu]]] Htrue Hstrip Henc.
  unfold dispatch, AppointmentCommentView.patch, bind, get_appointment_or_404.
  rewrite Ha, Hk. apply same_user_true in Hu. rewrite Hu. cbn [negb].
  rewrite Htrue. cbn [negb orb].
  destruct (strip (py_str (data_get data (py "kine_comment")))) as [|c r] eqn:Hs;
    [congruence |].
  cbv zeta. unfold save. rewrite text_parameters_completed, Henc.
  reflexivity.
Qed.

(** C3, as the views have it: the terminal status of an appointment does
    not stop a transition by the assigned provider. A status update to
    [confirmed] or [cancelled] answers 200 and overwrites the status; a
    comment that is truthy, not blank once stripped, and whose stripped text
    has a UTF-8 encoding answers 200 and records it with status [completed]
    and the time of the call; a comment that is falsy (absent, empty, zero,
    false) or blank once stripped fails with 400, the store left as it
    was. *)
Theorem terminal_appointment_still_transitions db now user id a :
  assigned_provider db user id a ->
  terminal (status a) ->
  (forall data v,
     data_get data (py "status") = PyStr v ->
     v = py "confirmed" \/ v = py "cancelled" ->
     dispatch (AppointmentStatusView.patch user data id) db
     = ({| status_code := 200; body := BStatusDisplay v |},
        put_appointment db id (set_status a v),
        [QAppointmentGet id; QAppointmentUpdate id [FStatus]]))
  /\ (forall data,
        truthy (data_get data (py "kine_comment")) = true ->
        strip (py_str (data_get data (py "kine_comment"))) <> [] ->
        utf8_encodable (strip (py_str (data_get data (py "kine_comment"))))
        = true ->
        dispatch (AppointmentCommentView.patch now user data id) db
        = ({| status_code := 200;
              body := BMessage true
                "Sesión marcada como realizada y comentario guardado." |},
           put_appointment db id
             (completed_with a
                (strip (py_str (data_get data (py "kine_comment")))) now),
           [QAppointmentGet id;
            QAppointmentUpdate id [FKineComment; FStatus; FCommentUpdatedAt]]))
  /\ (forall data,
        truthy (data_get data (py "kine_comment")) = false
        \/ strip (py_str (data_get data (py "kine_comment"))) = [] ->
        dispatch (AppointmentCommentView.patch now user data id) db
        = ({| status_code := 400;
              body := BMessage false "El comentario es obligatorio." |},
           db, [QAppointmentGet id])).
Proof.
  intros Hprov _. split; [| split].
  - intros data v Hdata Hv. apply status_patch_accepts; assumption.
  - intros data Htrue Hstrip Henc. apply comment_patch_accepts; assumption.
  - intros data Hblank.
    exact (comment_patch_rejects db now user data id a Hprov Hblank).
Qed.

Lemma terminal_appointment_still_transitions_witness :
  dispatch (AppointmentCommentView.patch 77 provider
              {[ py "kine_comment" := PyStr (py "  ok ") ]} 5)
           (sample_db {[ 5 := appointment_0945 "completed" ]})
  = ({| status_code := 200;
        body := BMessage true
          "Sesión marcada como realizada y comentario guardado." |},
     sample_db {[ 5 := completed_with (appointment_0945 "completed")
                         (py "ok") 77 ]},
     [QAppointmentGet 5;
      QAppointmentUpdate 5 [FKineComment; FStatus; FCommentUpdatedAt]]).
Proof.
  pose proof (terminal_appointment_still_transitions
                (sample_db {[ 5 := appointment_0945 "completed" ]})
                77 provider 5 (appointment_0945 "completed")) as H.
  destruct H as [_ [H _]].
  - split; [vm_compute; reflexivity |].
    exists {| kine_user := Some 10 |}. split; vm_compute; reflexivity.
  - right. reflexivity.
  - rewrite (H {[ py "kine_comment" := PyStr (py "  ok ") ]}).
    + vm_compute. reflexivity.
    + vm_compute. reflexivity.
    + vm_compute. discriminate.
    + vm_compute. reflexivity.
Defined.

(** C3 as stated fails: on a Cancelled appointment the assigned provider's
    status update to [confirmed] answers 200 and the row becomes
    [confirmed], and a comment answers 200 and completes the row. *)
Lemma terminal_transition_counterexample :
  terminal (status (appointment_0945 "cancelled"))
  /\ assigned_provider (sample_db {[ 5 := appointment_0945 "cancelled" ]})
       provider 5 (appointment_0945 "cancelled")
  /\ dispatch (AppointmentStatusView.patch provider
                 {[ py "status" := PyStr (py "confirmed") ]} 5)
              (sample_db {[ 5 := appointment_0945 "cancelled" ]})
     = ({| status_code := 200; body := BStatusDisplay (py "confirmed") |},
        sample_db {[ 5 := appointment_0945 "confirmed" ]},
        [QAppointmentGet 5; QAppointmentUpdate 5 [FStatus]])
  /\ dispatch (AppointmentCommentView.patch 77 provider
                 {[ py "kine_comment" := PyStr (py "done") ]} 5)
              (sample_db {[ 5 := appointment_0945 "cancelled" ]})
     = ({| status_code := 200;
           body := BMessage true
             "Sesión marcada como realizada y comentario guardado." |},
        sample_db {[ 5 := completed_with (appointment_0945 "cancelled")
                            (py "done") 77 ]},
        [QAppointmentGet 5;
         QAppointmentUpdate 5 [FKineComment; FStatus; FCommentUpdatedAt]]).
Proof.
  split; [left; reflexivity |]. split.
  - split; [vm_compute; reflexivity |].
    exists {| kine_user := Some 10 |}. split; vm_compute; reflexivity.
  - split; vm_compute; reflexivity.
Qed.

(** C4, as the view has it: for a comment submission by the assigned
    provider on a non-terminal appointment, a comment that is falsy (absent,
    empty, zero, false, an empty container) or whose text is blank once
    stripped fails with 400 and leaves the store as it was, no update being
    issued; any other comment whose stripped text has a UTF-8 encoding
    answers 200 and one single update of the three columns records the
    stripped text, the status [completed] and the time of the call, every
    other column and row kept. In the case that is left, a stripped text
    with a lone surrogate, the update fails as a whole and the store is as
    it was: no request records a part of the three columns. *)
Theorem comment_submission_single_update db now user data id a :
  assigned_provider db user id a ->
  ~ terminal (status a) ->
  (truthy (data_get data (py "kine_comment")) = false
   \/ strip (py_str (data_get data (py "kine_comment"))) = [] ->
   dispatch (AppointmentCommentView.patch now user data id) db
   = ({| status_code := 400;
         body := BMessage false "El comentario es obligatorio." |},
      db, [QAppointmentGet id]))
  /\ (truthy (data_get data (py "kine_comment")) = true ->
      strip (py_str (data_get data (py "kine_comment"))) <> [] ->
      utf8_encodable (strip (py_str (data_get data (py "kine_comment"))))
      = false ->
      dispatch (AppointmentCommentView.patch now user data id) db
      = ({| status_code := 500; body := BException UnicodeEncodeError |},
         db, [QAppointmentGet id]))
  /\ (truthy (data_get data (py "kine_comment")) = true ->
      strip (py_str (data_get data (py "kine_comment"))) <> [] ->
      utf8_encodable (strip (py_str (data_get data (py "kine_comment"))))
      = true ->
      dispatch (AppointmentCommentView.patch now user data id) db
      = ({| status_code := 200;
            body := BMessage true
              "Sesión marcada como realizada y comentario guardado." |},
         {| availabilities := availabilities db;
            appointments :=
              <[id := {| kinesiologist_id := kinesiologist_id a;
                         patient_name_id := patient_name_id a;
                         appt_date := appt_date a;
                         start_time := start_time a;
                         end_time := end_time a;
                         status := py "completed";
                         kine_comment :=
                           Some (strip (py_str
                                   (data_get data (py "kine_comment"))));
                         comment_updated_at := Some now |}]>
                (appointments db);
            kinesiologists := kinesiologists db |},
         [QAppointmentGet id;
          QAppointmentUpdate id [FKineComment; FStatus; FCommentUpdatedAt]])).
Proof.
  intros Hprov _. split; [| split].
  - intros Hblank.
    exact (comment_patch_rejects db now user data id a Hprov Hblank).
  - intros Htrue Hstrip Henc.
    exact (comment_patch_unencodable db now user data id a Hprov Htrue Hstrip
             Henc).
  - intros Htrue Hstrip Henc.
    rewrite (comment_patch_accepts db now user data id a Hprov Htrue Hstrip
               Henc).
    reflexivity.
Qed.

Lemma comment_submission_single_update_witness :
  dispatch (AppointmentCommentView.patch 77 provider
              {[ py "kine_comment" := PyStr (py " good session ") ]} 5)
           (sample_db {[ 5 := appointment_0945 "confirmed" ]})
  = ({| status_code := 200;
        body := BMessage true
          "Sesión marcada como realizada y comentario guardado." |},
     sample_db {[ 5 := completed_with (appointment_0945 "confirmed")
                         (py "good session") 77 ]},
     [QAppointmentGet 5;
      QAppointmentUpdate 5 [FKineComment; FStatus; FCommentUpdatedAt]]).
Proof.
  pose proof (comment_submission_single_update
                (sample_db {[ 5 := appointment_0945 "confirmed" ]})
                77 provider
                {[ py "kine_comment" := PyStr (py " good session ") ]}
                5 (appointment_0945 "confirmed")) as H.
  destruct H as [_ [_ H]].
  - split; [vm_compute; reflexivity |].
    exists {| kine_user := Some 10 |}. split; vm_compute; reflexivity.
  - intros [Hc | Hc]; vm_compute in Hc; discriminate.
  - rewrite H.
    + vm_compute. reflexivity.
    + vm_compute. reflexivity.
    + vm_compute. discriminate.
    + vm_compute. reflexivity.
Defined.

(** C4 as stated fails: the comment [0], a JSON number whose text is "0",
    neither blank nor whitespace, is rejected with 400 on a Requested
    appointment and nothing is recorded; and the comment of one lone
    surrogate, the JSON text [\ud800], neither blank nor whitespace either,
    ends in a server error with nothing recorded. *)
Lemma zero_comment_counterexample :
  strip (py_str (PyInt 0)) = py "0"
  /\ ~ terminal (status (appointment_0945 "requested"))
  /\ assigned_provider (sample_db {[ 5 := appointment_0945 "requested" ]})
       provider 5 (appointment_0945 "requested")
  /\ dispatch (AppointmentCommentView.patch 77 provider
                 {[ py "kine_comment" := PyInt 0 ]} 5)
              (sample_db {[ 5 := appointment_0945 "requested" ]})
     = ({| status_code := 400;
           body := BMessage false "El comentario es obligatorio." |},
        sample_db {[ 5 := appointment_0945 "requested" ]},
        [QAppointmentGet 5])
  /\ strip (py_str (PyStr [55296%N])) = [55296%N]
  /\ dispatch (AppointmentCommentView.patch 77 provider
                 {[ py "kine_comment" := PyStr [55296%N] ]} 5)
              (sample_db {[ 5 := appointment_0945 "requested" ]})
     = ({| status_code := 500; body := BException UnicodeEncodeError |},
        sample_db {[ 5 := appointment_0945 "requested" ]},
        [QAppointmentGet 5]).
Proof.
  split; [vm_compute; reflexivity |]. split.
  - intros [Hc | Hc]; vm_compute in Hc; discriminate.
  - split.
    + split; [vm_compute; reflexivity |].
      exists {| kine_user := Some 10 |}. split; vm_compute; reflexivity.
    + repeat split; vm_compute; reflexivity.
Qed.

(** C5: on a status update and on a comment submission the caller is
    checked before the request and the state are looked at: for a caller who
    is not the assigned provider the answer is 403 whatever the requested
    status, the comment and the appointment's current state, and the store
    is left as it was, the only query being the lookup of the appointment. *)
Theorem authorization_checked_first db now user data id a k :
  appointments db !! id = Some a ->
  kinesiologists db !! kinesiologist_id a = Some k ->
  kine_user k <> Some (user_id user) ->
  dispatch (AppointmentStatusView.patch user data id) db
  = ({| status_code := 403; body := BMessage false "No autorizado" |},
     db, [QAppointmentGet id])
  /\ dispatch (AppointmentCommentView.patch now user data id) db
     = ({| status_code := 403; body := BMessage false "No autorizado" |},
        db, [QAppointmentGet id]).
Proof.
  intros Ha Hk Hu. split.
  - exact (status_patch_forbidden db user data id a k Ha Hk Hu).
  - exact (comment_patch_forbidden db now user data id a k Ha Hk Hu).
Qed.

Lemma authorization_checked_first_witness :
  dispatch (AppointmentStatusView.patch stranger
              {[ py "status" := PyStr (py "bogus") ]} 5)
           (sample_db {[ 5 := appointment_0945 "completed" ]})
  = ({| status_code := 403; body := BMessage false "No autorizado" |},
     sample_db {[ 5 := appointment_0945 "completed" ]}, [QAppointmentGet 5])
  /\ dispatch (AppointmentCommentView.patch 77 stranger
                 {[ py "kine_comment" := PyStr (py "done") ]} 5)
              (sample_db {[ 5 := appointment_0945 "completed" ]})
     = ({| status_code := 403; body := BMessage false "No autorizado" |},
        sample_db {[ 5 := appointment_0945 "completed" ]}, [QAppointmentGet 5]).
Proof.
  split.
  - apply (authorization_checked_first
             (sample_db {[ 5 := appointment_0945 "completed" ]}) 77 stranger
             {[ py "status" := PyStr (py "bogus") ]} 5
             (appointment_0945 "completed") {| kine_user := Some 10 |}).
    + vm_compute. reflexivity.
    + vm_compute. reflexivity.
    + vm_compute. discriminate.
  - apply (authorization_checked_first
             (sample_db {[ 5 := appointment_0945 "completed" ]}) 77 stranger
             {[ py "kine_comment" := PyStr (py "done") ]} 5
             (appointment_0945 "completed") {| kine_user := Some 10 |}).
    + vm_compute. reflexivity.
    + vm_compute. reflexivity.
    + vm_compute. discriminate.
Defined.

(** C9: a successful status update, by the assigned provider with status
    [confirmed] or [cancelled], changes the status column of the appointment
    and nothing else: provider, patient, date, start and end time, the
    stored comment and its timestamp are as before the call, and so is
    every other row of the store. *)
Theorem status_update_changes_status_only db user data id a v :
  assigned_provider db user id a ->
  data_get data (py "status") = PyStr v ->
  v = py "confirmed" \/ v = py "cancelled" ->
  exists resp db' q a',
    dispatch (AppointmentStatusView.patch user data id) db = (resp, db', q)
    /\ status_code resp = 200
    /\ q = [QAppointmentGet id; QAppointmentUpdate id [FStatus]]
    /\ appointments db' !! id = Some a'
    /\ status a' = v
    /\ kinesiologist_id a' = kinesiologist_id a
    /\ patient_name_id a' = patient_name_id a
    /\ appt_date a' = appt_date a
    /\ start_time a' = start_time a
    /\ end_time a' = end_time a
    /\ kine_comment a' = kine_comment a
    /\ comment_updated_at a' = comment_updated_at a
    /\ (forall j, j <> id -> appointments db' !! j = appointments db !! j)
    /\ availabilities db' = availabilities db
    /\ kinesiologists db' = kinesiologists db.
Proof.
  intros Hprov Hdata Hv.
  eexists _, _, _, (set_status a v).
  split; [apply status_patch_accepts; eassumption |].
  cbn. rewrite lookup_insert_eq.
  repeat (split; [reflexivity |]).
  split; [| split; reflexivity].
  intros j Hj. apply lookup_insert_ne. congruence.
Qed.

Lemma status_update_changes_status_only_witness :
  exists resp db' q a',
    dispatch (AppointmentStatusView.patch provider
                {[ py "status" := PyStr (py "cancelled") ]} 5)
             (sample_db {[ 5 := appointment_0945 "requested" ]})
    = (resp, db', q)
    /\ appointments db' !! 5 = Some a'
    /\ a' = appointment_0945 "cancelled".
Proof.
  destruct (status_update_changes_status_only
              (sample_db {[ 5 := appointment_0945 "requested" ]}) provider
              {[ py "status" := PyStr (py "cancelled") ]} 5
              (appointment_0945 "requested") (py "cancelled"))
    as [resp [db' [q [a' [Hrun [_ [_ [Ha' _]]]]]]]].
  - split; [vm_compute; reflexivity |].
    exists {| kine_user := Some 10 |}. split; vm_compute; reflexivity.
  - vm_compute. reflexivity.
  - right. reflexivity.
  - exists resp, db', q, a'. split; [exact Hrun |]. split; [exact Ha' |].
    vm_compute in Hrun. injection Hrun as _ <- _.
    vm_compute in Ha'. injection Ha' as <-. reflexivity.
Defined.

(** C10: after a successful comment submission the stored comment is the
    submitted one coerced to text and stripped of leading and trailing
    whitespace; it is therefore never blank and neither starts nor ends with
    whitespace. *)
Theorem stored_comment_is_stripped db now user data id resp db' q :
  dispatch (AppointmentCommentView.patch now user data id) db
  = (resp, db', q) ->
  status_code resp = 200 ->
  exists a',
    appointments db' !! id = Some a'
    /\ kine_comment a'
       = Some (strip (py_str (data_get data (py "kine_comment"))))
    /\ (forall stored,
          kine_comment a' = Some stored ->
          stored <> []
          /\ (forall c r, stored = c :: r -> isspace c = false)
          /\ (forall i c, stored = i ++ [c] -> isspace c = false)).
Proof.
  unfold dispatch, AppointmentCommentView.patch, bind, get_appointment_or_404.
  destruct (appointments db !! id) as [a|] eqn:Ha;
    [| intros [= <- _ _]; discriminate].
  destruct (kinesiologists db !! kinesiologist_id a) as [k|];
    [| intros [= <- _ _]; discriminate].
  destruct (same_user user (kine_user k)); cbn [negb];
    [| intros [= <- _ _]; discriminate].
  destruct (truthy (data_get data (py "kine_comment"))); cbn [negb orb];
    [| intros [= <- _ _]; discriminate].
  destruct (strip (py_str (data_get data (py "kine_comment"))))
    as [|c0 r0] eqn:Hstrip; [intros [= <- _ _]; discriminate |].
  cbv zeta. unfold save. rewrite text_parameters_completed.
  destruct (utf8_encodable (c0 :: r0));
    [| intros [= <- _ _]; discriminate].
  rewrite Ha. cbn. intros [= <- <- _] _.
  eexists. cbn. rewrite lookup_insert_eq.
  split; [reflexivity |]. split; [reflexivity |].
  cbn. intros stored [= <-]. split; [discriminate |]. split.
  - intros c r Heq. rewrite <- Hstrip in Heq. exact (strip_head _ _ _ Heq).
  - intros i c Heq. rewrite <- Hstrip in Heq. exact (strip_last _ _ _ Heq).
Qed.

Lemma stored_comment_is_stripped_witness :
  exists a',
    appointments
      (sample_db {[ 5 := completed_with (appointment_0945 "confirmed")
                          (py "42") 77 ]}) !! 5 = Some a'
    /\ kine_comment a' = Some (py "42").
Proof.
  destruct (stored_comment_is_stripped
              (sample_db {[ 5 := appointment_0945 "confirmed" ]}) 77 provider
              {[ py "kine_comment" := PyInt 42 ]} 5
              {| status_code := 200;
                 body := BMessage true
                   "Sesión marcada como realizada y comentario guardado." |}
              (sample_db {[ 5 := completed_with (appointment_0945 "confirmed")
                                   (py "42") 77 ]})
              [QAppointmentGet 5;
               QAppointmentUpdate 5 [FKineComment; FStatus; FCommentUpdatedAt]])
    as [a' [Ha' [Hc _]]].
  - vm_compute. reflexivity.
  - reflexivity.
  - exists a'. split; [exact Ha' |]. rewrite Hc. vm_compute. reflexivity.
Defined.

(** ** Booking *)

Section CreateProperties.

Variable ValidatedData : Type.
Variable vd_patient_name : ValidatedData -> Patient.
Variable serializer_is_valid :
  Kinesiologist -> gmap (list N) pyval -> DB -> option ValidatedData.
Variable serializer_save : ValidatedData -> DB -> SaveResult.

(** C8: for a well-formed booking request, one the serializer accepts, a
    caller who is neither the patient named in the request, nor the assigned
    provider, nor an administrator gets 403, and no appointment is created:
    the serializer's [save] is not reached and the store is as before. *)
Theorem create_forbidden_for_third_party db user data kid k v :
  kinesiologists db !! kid = Some k ->
  serializer_is_valid k data db = Some v ->
  is_superuser user = false ->
  patient_user (vd_patient_name v) <> Some (user_id user) ->
  kine_user k <> Some (user_id user) ->
  dispatch (AppointmentCreateView.post ValidatedData vd_patient_name
              serializer_is_valid serializer_save user data kid) db
  = ({| status_code := 403;
        body := BMessage false
          "No tiene permisos para agendar esta hora médica." |},
     db, [QKinesiologistGet kid; QSerializerValidate]).
Proof.
  intros Hk Hvalid Hsuper Hpatient Hkine.
  unfold dispatch, AppointmentCreateView.post, bind, get_kinesiologist_or_404,
    AppointmentCreateView.is_valid.
  rewrite Hk, Hvalid, Hsuper.
  destruct (same_user user (patient_user (vd_patient_name v))) eqn:Hp.
  { apply same_user_true in Hp. contradiction. }
  destruct (same_user user (kine_user k)) eqn:Hq.
  { apply same_user_true in Hq. contradiction. }
  reflexivity.
Qed.

End CreateProperties.

Lemma create_forbidden_for_third_party_witness :
  dispatch (AppointmentCreateView.post Patient (fun p => p)
              (fun _ _ _ => Some {| patient_user := Some 12 |})
              (fun _ db =>
                 Saved (appointment_0945 "requested")
                       (put_appointment db 6 (appointment_0945 "requested")))
              stranger ∅ 1)
           (sample_db ∅)
  = ({| status_code := 403;
        body := BMessage false
          "No tiene permisos para agendar esta hora médica." |},
     sample_db ∅, [QKinesiologistGet 1; QSerializerValidate]).
Proof.
  apply (create_forbidden_for_third_party Patient (fun p => p)
           (fun _ _ _ => Some {| patient_user := Some 12 |})
           (fun _ db =>
              Saved (appointment_0945 "requested")
                    (put_appointment db 6 (appointment_0945 "requested")))
           (sample_db ∅) stranger ∅ 1 {| kine_user := Some 10 |}
           {| patient_user := Some 12 |}).
  - vm_compute. reflexivity.
  - reflexivity.
  - reflexivity.
  - vm_compute. discriminate.
  - vm_compute. discriminate.
Defined.

(** * Further properties of the views *)

(** ** The two transitions on every input *)

Lemma py_in_status v :
  py_in v [py "confirmed"; py "cancelled"] = true <->
  v = PyStr (py "confirmed") \/ v = PyStr (py "cancelled").
Proof.
  unfold py_in. cbn [existsb]. rewrite orb_false_r, orb_true_iff.
  destruct v as [| b | z | s | t x]; cbn [py_eq_str];
    try (split; [intros [H | H]; discriminate | intros [H | H]; discriminate]).
  rewrite !bool_decide_eq_true. split; intros [H | H]; [left | right | left | right];
    congruence.
Qed.

(** Every run of the status update either leaves the store alone and does
    not answer 200, or is the accepted update of the assigned provider. *)
Lemma status_patch_cases db user data id resp db' q :
  dispatch (AppointmentStatusView.patch user data id) db = (resp, db', q) ->
  (db' = db /\ status_code resp <> 200)
  \/ (exists a v,
        assigned_provider db user id a
        /\ data_get data (py "status") = PyStr v
        /\ (v = py "confirmed" \/ v = py "cancelled")
        /\ status_code resp = 200
        /\ db' = put_appointment db id (set_status a v)).
Proof.
  unfold dispatch, AppointmentStatusView.patch, bind, get_appointment_or_404.
  remember (data_get data (py "status")) as new_status eqn:Hnew.
  destruct (appointments db !! id) as [a|] eqn:Ha;
    [| intros [= <- <- _]; left; split; [reflexivity | discriminate]].
  destruct (kinesiologists db !! kinesiologist_id a) as [k|] eqn:Hk;
    [| intros [= <- <- _]; left; split; [reflexivity | discriminate]].
  destruct (same_user user (kine_user k)) eqn:Hu; cbn [negb];
    [| intros [= <- <- _]; left; split; [reflexivity | discriminate]].
  destruct (py_in new_status _) eqn:Hin; cbn [negb];
    [| intros [= <- <- _]; left; split; [reflexivity | discriminate]].
  apply py_in_status in Hin.
  apply same_user_true in Hu.
  assert (Hprov : assigned_provider db user id a) by (split; eauto).
  destruct Hin as [-> | ->]; cbv zeta; cbn [py_str];
    rewrite save_status by auto; rewrite Ha; intros [= <- <- _]; right.
  - exists a, (py "confirmed"). split; [exact Hprov |]. repeat split; auto.
  - exists a, (py "cancelled"). split; [exact Hprov |]. repeat split; auto.
Qed.

Lemma comment_patch_cases db now user data id resp db' q :
  dispatch (AppointmentCommentView.patch now user data id) db = (resp, db', q) ->
  (db' = db /\ status_code resp <> 200)
  \/ (exists a,
        assigned_provider db user id a
        /\ truthy (data_get data (py "kine_comment")) = true
        /\ strip (py_str (data_get data (py "kine_comment"))) <> []
        /\ status_code resp = 200
        /\ db' = put_appointment db id
                   (completed_with a
                      (strip (py_str (data_get data (py "kine_comment"))))
                      now)).
Proof.
  unfold dispatch, AppointmentCommentView.patch, bind, get_appointment_or_404.
  remember (data_get data (py "kine_comment")) as comment eqn:Hcomment.
  destruct (appointments db !! id) as [a|] eqn:Ha;
    [| intros [= <- <- _]; left; split; [reflexivity | discriminate]].
  destruct (kinesiologists db !! kinesiologist_id a) as [k|] eqn:Hk;
    [| intros [= <- <- _]; left; split; [reflexivity | discriminate]].
  destruct (same_user user (kine_user k)) eqn:Hu; cbn [negb];
    [| intros [= <- <- _]; left; split; [reflexivity | discriminate]].
  destruct (truthy comment) eqn:Ht; cbn [negb orb];
    [| intros [= <- <- _]; left; split; [reflexivity | discriminate]].
  destruct (strip (py_str comment)) as [|c0 r0] eqn:Hs;
    [intros [= <- <- _]; left; split; [reflexivity | discriminate] |].
  cbv zeta. unfold save. rewrite text_parameters_completed.
  destruct (utf8_encodable (c0 :: r0));
    [| intros [= <- <- _]; left; split; [reflexivity | discriminate]].
  rewrite Ha. intros [= <- <- _]. right.
  apply same_user_true in Hu. exists a.
  assert (Hprov : assigned_provider db user id a) by (split; eauto).
  split; [exact Hprov |]. repeat split; auto.
Qed.

Lemma lstrip_id (s : list N) :
  (forall c r, s = c :: r -> isspace c = false) -> lstrip s = s.
Proof.
  destruct s as [|c r]; [reflexivity |]. intros H. cbn.
  rewrite (H c r eq_refl). reflexivity.
Qed.

Lemma rstrip_rstrip (s : list N) : rstrip (rstrip s) = rstrip s.
Proof.
  unfold rstrip. rewrite rev_involutive. f_equal.
  apply lstrip_id. intros c r H. exact (lstrip_head _ _ _ H).
Qed.

Lemma strip_strip (s : list N) : strip (strip s) = strip s.
Proof.
  unfold strip at 1.
  rewrite (lstrip_id (strip s)) by (intros c r H; exact (strip_head _ _ _ H)).
  unfold strip. apply rstrip_rstrip.
Qed.

(** What replacing a row by one with the same booking leaves in place. *)
Lemma put_appointment_frame db id a a' :
  appointments db !! id = Some a -> same_booking a a' ->
  availabilities (put_appointment db id a') = availabilities db
  /\ kinesiologists (put_appointment db id a') = kinesiologists db
  /\ dom (appointments (put_appointment db id a')) = dom (appointments db)
  /\ (forall j, j <> id ->
        appointments (put_appointment db id a') !! j = appointments db !! j)
  /\ (forall a0, appointments db !! id = Some a0 ->
        exists a1, appointments (put_appointment db id a') !! id = Some a1
                   /\ same_booking a0 a1).
Proof.
  intros Ha Hsame. cbn. split; [reflexivity |]. split; [reflexivity |].
  split; [apply dom_insert_lookup_L; eauto |]. split.
  - intros j Hj. apply lookup_insert_ne. congruence.
  - intros a0 Ha0. exists a'. rewrite lookup_insert_eq.
    split; [reflexivity | congruence].
Qed.

Lemma same_booking_refl a : same_booking a a.
Proof. repeat split. Qed.

Lemma same_booking_set_status a v : same_booking a (set_status a v).
Proof. repeat split. Qed.

Lemma same_booking_completed_with a c now :
  same_booking a (completed_with a c now).
Proof. repeat split. Qed.

(** X1: a status update by the assigned provider whose value is anything but
    the text [confirmed] or [cancelled] (no value, another spelling, a value
    that is no text) fails with 400; nothing is written. *)
Theorem status_update_rejects_other_values db user data id a :
  assigned_provider db user id a ->
  data_get data (py "status") <> PyStr (py "confirmed") ->
  data_get data (py "status") <> PyStr (py "cancelled") ->
  dispatch (AppointmentStatusView.patch user data id) db
  = ({| status_code := 400;
        body := BMessage false
          "Estado inválido. Use 'confirmed' o 'cancelled'." |},
     db, [QAppointmentGet id]).
Proof.
  intros [Ha [k [Hk Hu]]] Hc1 Hc2.
  unfold dispatch, AppointmentStatusView.patch, bind, get_appointment_or_404.
  rewrite Ha, Hk. apply same_user_true in Hu. rewrite Hu. cbn [negb].
  destruct (py_in (data_get data (py "status")) _) eqn:Hin; [| reflexivity].
  apply py_in_status in Hin. destruct Hin; contradiction.
Qed.

Lemma status_update_rejects_other_values_witness :
  dispatch (AppointmentStatusView.patch provider
              {[ py "status" := PyStr (py "Confirmed") ]} 5)
           (sample_db {[ 5 := appointment_0945 "requested" ]})
  = ({| status_code := 400;
        body := BMessage false
          "Estado inválido. Use 'confirmed' o 'cancelled'." |},
     sample_db {[ 5 := appointment_0945 "requested" ]}, [QAppointmentGet 5]).
Proof.
  apply (status_update_rejects_other_values
           (sample_db {[ 5 := appointment_0945 "requested" ]}) provider
           {[ py "status" := PyStr (py "Confirmed") ]} 5
           (appointment_0945 "requested")).
  - split; [vm_compute; reflexivity |].
    exists {| kine_user := Some 10 |}. split; vm_compute; reflexivity.
  - vm_compute. discriminate.
  - vm_compute. discriminate.
Defined.

(** X2: for an appointment id that is not in the store both transitions
    answer 404 to any caller and any request body, before the caller is
    looked at, and leave the store as it was. *)
Theorem unknown_appointment_is_not_found db now user data id :
  appointments db !! id = None ->
  dispatch (AppointmentStatusView.patch user data id) db
  = ({| status_code := 404; body := BException Http404 |},
     db, [QAppointmentGet id])
  /\ dispatch (AppointmentCommentView.patch now user data id) db
     = ({| status_code := 404; body := BException Http404 |},
        db, [QAppointmentGet id]).
Proof.
  intros Hnone. split.
  - unfold dispatch, AppointmentStatusView.patch, bind, get_appointment_or_404.
    rewrite Hnone. reflexivity.
  - unfold dispatch, AppointmentCommentView.patch, bind, get_appointment_or_404.
    rewrite Hnone. reflexivity.
Qed.

Lemma unknown_appointment_is_not_found_witness :
  dispatch (AppointmentStatusView.patch provider
              {[ py "status" := PyStr (py "confirmed") ]} 6)
           (sample_db {[ 5 := appointment_0945 "requested" ]})
  = ({| status_code := 404; body := BException Http404 |},
     sample_db {[ 5 := appointment_0945 "requested" ]}, [QAppointmentGet 6]).
Proof.
  apply (unknown_appointment_is_not_found
           (sample_db {[ 5 := appointment_0945 "requested" ]}) 77 provider
           {[ py "status" := PyStr (py "confirmed") ]} 6).
  vm_compute. reflexivity.
Defined.

(** X3: the two transitions write to the store only for the assigned
    provider: whenever a request leaves the store different from what it
    was, the caller is the user of the appointment's kinesiologist and the
    answer is 200. *)
Theorem only_assigned_provider_changes_store db now user data id resp db' q :
  dispatch (AppointmentStatusView.patch user data id) db = (resp, db', q)
  \/ dispatch (AppointmentCommentView.patch now user data id) db
     = (resp, db', q) ->
  db' <> db ->
  status_code resp = 200
  /\ exists a, assigned_provider db user id a.
Proof.
  intros [Hrun | Hrun] Hchanged.
  - apply status_patch_cases in Hrun.
    destruct Hrun as [[Heq _] | [a [v [Hprov [_ [_ [Hcode _]]]]]]];
      [contradiction | eauto].
  - apply comment_patch_cases in Hrun.
    destruct Hrun as [[Heq _] | [a [Hprov [_ [_ [Hcode _]]]]]];
      [contradiction | eauto].
Qed.

Lemma only_assigned_provider_changes_store_witness :
  status_code {| status_code := 200; body := BStatusDisplay (py "confirmed") |}
  = 200
  /\ exists a,
       assigned_provider (sample_db {[ 5 := appointment_0945 "requested" ]})
         provider 5 a.
Proof.
  apply (only_assigned_provider_changes_store
           (sample_db {[ 5 := appointment_0945 "requested" ]}) 77 provider
           {[ py "status" := PyStr (py "confirmed") ]} 5
           {| status_code := 200; body := BStatusDisplay (py "confirmed") |}
           (sample_db {[ 5 := appointment_0945 "confirmed" ]})
           [QAppointmentGet 5; QAppointmentUpdate 5 [FStatus]]).
  - left. vm_compute. reflexivity.
  - vm_compute. discriminate.
Defined.

(** X4: whatever the request, the two transitions neither add nor remove an
    appointment and never move one: the ids of the appointment table, every
    other row, the provider, patient, date and times of the addressed row,
    and the other tables are the same after the call as before. *)
Theorem transitions_keep_bookings db now user data id resp db' q :
  dispatch (AppointmentStatusView.patch user data id) db = (resp, db', q)
  \/ dispatch (AppointmentCommentView.patch now user data id) db
     = (resp, db', q) ->
  availabilities db' = availabilities db
  /\ kinesiologists db' = kinesiologists db
  /\ dom (appointments db') = dom (appointments db)
  /\ (forall j, j <> id -> appointments db' !! j = appointments db !! j)
  /\ (forall a, appointments db !! id = Some a ->
        exists a', appointments db' !! id = Some a' /\ same_booking a a').
Proof.
  assert (Hsame : availabilities db = availabilities db
            /\ kinesiologists db = kinesiologists db
            /\ dom (appointments db) = dom (appointments db)
            /\ (forall j, j <> id -> appointments db !! j = appointments db !! j)
            /\ (forall a, appointments db !! id = Some a ->
                  exists a', appointments db !! id = Some a'
                             /\ same_booking a a')).
  { do 4 (split; [reflexivity |]).
    intros a Ha. exists a. split; [exact Ha | apply same_booking_refl]. }
  intros [Hrun | Hrun].
  - apply status_patch_cases in Hrun.
    destruct Hrun as [[-> _] | [a [v [[Ha _] [_ [_ [_ ->]]]]]]];
      [exact Hsame |].
    exact (put_appointment_frame db id a _ Ha (same_booking_set_status a v)).
  - apply comment_patch_cases in Hrun.
    destruct Hrun as [[-> _] | [a [[Ha _] [_ [_ [_ ->]]]]]];
      [exact Hsame |].
    exact (put_appointment_frame db id a _ Ha
             (same_booking_completed_with a _ now)).
Qed.

Lemma transitions_keep_bookings_witness :
  dom (appointments
         (sample_db {[ 5 := completed_with (appointment_0945 "confirmed")
                             (py "ok") 77 ]}))
  = dom (appointments (sample_db {[ 5 := appointment_0945 "confirmed" ]})).
Proof.
  apply (transitions_keep_bookings
           (sample_db {[ 5 := appointment_0945 "confirmed" ]}) 77 provider
           {[ py "kine_comment" := PyStr (py " ok") ]} 5
           {| status_code := 200;
              body := BMessage true
                "Sesión marcada como realizada y comentario guardado." |}
           (sample_db {[ 5 := completed_with (appointment_0945 "confirmed")
                                (py "ok") 77 ]})
           [QAppointmentGet 5;
            QAppointmentUpdate 5 [FKineComment; FStatus; FCommentUpdatedAt]]).
  right. vm_compute. reflexivity.
Defined.

Lemma assigned_provider_put db user id a a' :
  assigned_provider db user id a -> same_booking a a' ->
  assigned_provider (put_appointment db id a') user id a'.
Proof.
  intros [Ha [k [Hk Hu]]] [Hkid _]. split.
  - cbn. apply lookup_insert_eq.
  - exists k. cbn. rewrite Hkid. split; assumption.
Qed.

Lemma put_appointment_twice db id a a' :
  put_appointment (put_appointment db id a) id a' = put_appointment db id a'.
Proof. unfold put_appointment. cbn. rewrite insert_insert_eq. reflexivity. Qed.

(** X5: both transitions keep the appointment table consistent about
    comments: if before a request every row has a comment exactly when it
    has a comment timestamp, the same holds after it, whatever the caller
    and the request. *)
Theorem transitions_keep_comment_consistent db now user data id resp db' q :
  comment_consistent db ->
  dispatch (AppointmentStatusView.patch user data id) db = (resp, db', q)
  \/ dispatch (AppointmentCommentView.patch now user data id) db
     = (resp, db', q) ->
  comment_consistent db'.
Proof.
  intros Hinv [Hrun | Hrun].
  - apply status_patch_cases in Hrun.
    destruct Hrun as [[-> _] | [a [v [[Ha _] [_ [_ [_ ->]]]]]]];
      [exact Hinv |].
    intros j b. cbn. destruct (decide (j = id)) as [-> | Hne].
    + rewrite lookup_insert_eq. intros [= <-]. cbn. exact (Hinv id a Ha).
    + rewrite lookup_insert_ne by congruence. apply Hinv.
  - apply comment_patch_cases in Hrun.
    destruct Hrun as [[-> _] | [a [[Ha _] [_ [_ [_ ->]]]]]];
      [exact Hinv |].
    intros j b. cbn. destruct (decide (j = id)) as [-> | Hne].
    + rewrite lookup_insert_eq. intros [= <-]. cbn. split; discriminate.
    + rewrite lookup_insert_ne by congruence. apply Hinv.
Qed.

Lemma transitions_keep_comment_consistent_witness :
  comment_consistent
    (sample_db {[ 5 := completed_with (appointment_0945 "confirmed")
                        (py "ok") 77 ]}).
Proof.
  apply (transitions_keep_comment_consistent
           (sample_db {[ 5 := appointment_0945 "confirmed" ]}) 77 provider
           {[ py "kine_comment" := PyStr (py " ok") ]} 5
           {| status_code := 200;
              body := BMessage true
                "Sesión marcada como realizada y comentario guardado." |}
           (sample_db {[ 5 := completed_with (appointment_0945 "confirmed")
                                (py "ok") 77 ]})
           [QAppointmentGet 5;
            QAppointmentUpdate 5 [FKineComment; FStatus; FCommentUpdatedAt]]).
  - intros j b. unfold sample_db. cbn [appointments].
    destruct (decide (j = 5)) as [-> | Hne].
    + rewrite lookup_singleton_eq. intros [= <-]. cbn. split; reflexivity.
    + rewrite lookup_singleton_ne by congruence. discriminate.
  - right. vm_compute. reflexivity.
Defined.

(** X6: both transitions keep every stored comment stripped: if before a
    request no stored comment is empty or has whitespace around it, the same
    holds after it; stripping a stored comment again changes nothing. *)
Theorem transitions_keep_comments_stripped db now user data id resp db' q :
  comments_stripped db ->
  dispatch (AppointmentStatusView.patch user data id) db = (resp, db', q)
  \/ dispatch (AppointmentCommentView.patch now user data id) db
     = (resp, db', q) ->
  comments_stripped db'.
Proof.
  intros Hinv [Hrun | Hrun].
  - apply status_patch_cases in Hrun.
    destruct Hrun as [[-> _] | [a [v [[Ha _] [_ [_ [_ ->]]]]]]];
      [exact Hinv |].
    intros j b c. cbn. destruct (decide (j = id)) as [-> | Hne].
    + rewrite lookup_insert_eq. intros [= <-]. cbn. exact (Hinv id a c Ha).
    + rewrite lookup_insert_ne by congruence. apply Hinv.
  - apply comment_patch_cases in Hrun.
    destruct Hrun as [[-> _] | [a [[Ha _] [_ [Hstrip [_ ->]]]]]];
      [exact Hinv |].
    intros j b c. cbn. destruct (decide (j = id)) as [-> | Hne].
    + rewrite lookup_insert_eq. intros [= <-]. cbn. intros [= <-].
      split; [exact Hstrip | apply strip_strip].
    + rewrite lookup_insert_ne by congruence. apply Hinv.
Qed.

Lemma transitions_keep_comments_stripped_witness :
  comments_stripped
    (sample_db {[ 5 := completed_with (appointment_0945 "confirmed")
                        (py "ok") 77 ]}).
Proof.
  apply (transitions_keep_comments_stripped
           (sample_db {[ 5 := appointment_0945 "confirmed" ]}) 77 provider
           {[ py "kine_comment" := PyStr (py " ok") ]} 5
           {| status_code := 200;
              body := BMessage true
                "Sesión marcada como realizada y comentario guardado." |}
           (sample_db {[ 5 := completed_with (appointment_0945 "confirmed")
                                (py "ok") 77 ]})
           [QAppointmentGet 5;
            QAppointmentUpdate 5 [FKineComment; FStatus; FCommentUpdatedAt]]).
  - intros j b c. unfold sample_db. cbn [appointments].
    destruct (decide (j = 5)) as [-> | Hne].
    + rewrite lookup_singleton_eq. intros [= <-]. cbn. discriminate.
    + rewrite lookup_singleton_ne by congruence. discriminate.
  - right. vm_compute. reflexivity.
Defined.

(** X7: of two accepted status updates of one appointment the later one
    wins: the store after both is the store the later one alone would have
    left, so repeating an update changes nothing. *)
Theorem last_status_update_wins db user data1 data2 id a v1 v2 :
  assigned_provider db user id a ->
  data_get data1 (py "status") = PyStr v1 ->
  v1 = py "confirmed" \/ v1 = py "cancelled" ->
  data_get data2 (py "status") = PyStr v2 ->
  v2 = py "confirmed" \/ v2 = py "cancelled" ->
  forall resp1 db1 q1,
    dispatch (AppointmentStatusView.patch user data1 id) db = (resp1, db1, q1) ->
    dispatch (AppointmentStatusView.patch user data2 id) db1
    = dispatch (AppointmentStatusView.patch user data2 id) db.
Proof.
  intros Hprov Hd1 Hv1 Hd2 Hv2 resp1 db1 q1.
  rewrite (status_patch_accepts db user data1 id a v1 Hprov Hd1 Hv1).
  intros [= _ <- _].
  rewrite (status_patch_accepts db user data2 id a v2 Hprov Hd2 Hv2).
  rewrite (status_patch_accepts _ user data2 id (set_status a v1) v2
             (assigned_provider_put db user id a _ Hprov
                (same_booking_set_status a v1)) Hd2 Hv2).
  rewrite put_appointment_twice. reflexivity.
Qed.

Lemma last_status_update_wins_witness :
  dispatch (AppointmentStatusView.patch provider
              {[ py "status" := PyStr (py "confirmed") ]} 5)
           (sample_db {[ 5 := appointment_0945 "cancelled" ]})
  = dispatch (AppointmentStatusView.patch provider
                {[ py "status" := PyStr (py "confirmed") ]} 5)
             (sample_db {[ 5 := appointment_0945 "requested" ]}).
Proof.
  apply (last_status_update_wins
           (sample_db {[ 5 := appointment_0945 "requested" ]}) provider
           {[ py "status" := PyStr (py "cancelled") ]}
           {[ py "status" := PyStr (py "confirmed") ]} 5
           (appointment_0945 "requested") (py "cancelled") (py "confirmed")
           ltac:(split; [vm_compute; reflexivity |];
                 exists {| kine_user := Some 10 |};
                 split; vm_compute; reflexivity)
           ltac:(vm_compute; reflexivity) ltac:(right; reflexivity)
           ltac:(vm_compute; reflexivity) ltac:(left; reflexivity)
           {| status_code := 200; body := BStatusDisplay (py "cancelled") |}
           (sample_db {[ 5 := appointment_0945 "cancelled" ]})
           [QAppointmentGet 5; QAppointmentUpdate 5 [FStatus]]).
  vm_compute. reflexivity.
Defined.

(** X8: a status update that follows an accepted comment submission, one
    answered 200, moves the appointment out of [completed] and keeps the
    comment and its timestamp: the row is the completed one with only its
    status replaced. *)
Theorem status_update_after_comment_keeps_comment
    db now user cdata sdata id a v :
  assigned_provider db user id a ->
  data_get sdata (py "status") = PyStr v ->
  v = py "confirmed" \/ v = py "cancelled" ->
  forall resp1 db1 q1,
    dispatch (AppointmentCommentView.patch now user cdata id) db
    = (resp1, db1, q1) ->
    status_code resp1 = 200 ->
    dispatch (AppointmentStatusView.patch user sdata id) db1
    = ({| status_code := 200; body := BStatusDisplay v |},
       put_appointment db id
         (set_status
            (completed_with a
               (strip (py_str (data_get cdata (py "kine_comment")))) now) v),
       [QAppointmentGet id; QAppointmentUpdate id [FStatus]]).
Proof.
  intros Hprov Hd Hv resp1 db1 q1 Hrun Hcode.
  apply comment_patch_cases in Hrun.
  destruct Hrun as [[_ Hne] | [a' [[Ha' _] [_ [_ [_ ->]]]]]];
    [contradiction |].
  assert (a' = a) as -> by (destruct Hprov as [Ha _]; congruence).
  rewrite (status_patch_accepts _ user sdata id _ v
             (assigned_provider_put db user id a _ Hprov
                (same_booking_completed_with a _ now)) Hd Hv).
  rewrite put_appointment_twice. reflexivity.
Qed.

Lemma status_update_after_comment_keeps_comment_witness :
  dispatch (AppointmentStatusView.patch provider
              {[ py "status" := PyStr (py "cancelled") ]} 5)
           (sample_db {[ 5 := completed_with (appointment_0945 "confirmed")
                               (py "ok") 77 ]})
  = ({| status_code := 200; body := BStatusDisplay (py "cancelled") |},
     put_appointment (sample_db {[ 5 := appointment_0945 "confirmed" ]}) 5
       (set_status
          (completed_with (appointment_0945 "confirmed")
             (strip (py_str (data_get {[ py "kine_comment" := PyStr (py " ok") ]}
                               (py "kine_comment")))) 77)
          (py "cancelled")),
     [QAppointmentGet 5; QAppointmentUpdate 5 [FStatus]]).
Proof.
  apply (status_update_after_comment_keeps_comment
           (sample_db {[ 5 := appointment_0945 "confirmed" ]}) 77 provider
           {[ py "kine_comment" := PyStr (py " ok") ]}
           {[ py "status" := PyStr (py "cancelled") ]} 5
           (appointment_0945 "confirmed") (py "cancelled")
           ltac:(split; [vm_compute; reflexivity |];
                 exists {| kine_user := Some 10 |};
                 split; vm_compute; reflexivity)
           ltac:(vm_compute; reflexivity) ltac:(right; reflexivity)
           {| status_code := 200;
              body := BMessage true
                "Sesión marcada como realizada y comentario guardado." |}
           (sample_db {[ 5 := completed_with (appointment_0945 "confirmed")
                                (py "ok") 77 ]})
           [QAppointmentGet 5;
            QAppointmentUpdate 5 [FKineComment; FStatus; FCommentUpdatedAt]]).
  - vm_compute. reflexivity.
  - reflexivity.
Defined.

(** ** The slot listing on every input *)

Lemma same_schedule_refl db : same_schedule db db.
Proof. split; reflexivity. Qed.

(** The loops read the appointments through the overlap query alone. *)
Lemma while_slots_ext db db' kid d e cur slots :
  same_schedule db db' ->
  exists r q,
    while_slots kid d e cur slots db = (r, db, q)
    /\ while_slots kid d e cur slots db' = (r, db', q).
Proof.
  intros [_ Hsame].
  remember (Z.to_nat ((e - cur) / slot_length)) as n eqn:Hn.
  revert cur slots Hn.
  induction n as [n IH] using lt_wf_ind. intros cur slots Hn.
  rewrite !while_slots_unroll.
  destruct (dt_add cur slot_length) as [ce|] eqn:Hadd;
    [| eexists _, _; split; reflexivity].
  apply dt_add_sum in Hadd.
  destruct (decide (ce <= e)) as [Hle|Hgt];
    [| eexists _, _; split; reflexivity].
  unfold bind, appointment_overlap_exists, query.
  rewrite (Hsame kid d (time_of ce) (time_of cur)).
  match goal with
  | |- context [while_slots kid d e ce ?sl db] =>
      destruct (IH (Z.to_nat ((e - ce) / slot_length))
                  ltac:(subst n ce; apply iterations_decrease; lia)
                  ce sl eq_refl) as [r [q [-> ->]]]
  end.
  destruct r; eexists _, _; split; reflexivity.
Qed.

Lemma for_avail_ext db db' kid d rows slots :
  same_schedule db db' ->
  exists r q,
    for_avail kid d rows slots db = (r, db, q)
    /\ for_avail kid d rows slots db' = (r, db', q).
Proof.
  intros Hsame. revert slots.
  induction rows as [|w rows IH]; intros slots.
  - eexists _, _. split; reflexivity.
  - cbn [for_avail]. unfold bind.
    destruct (while_slots_ext db db' kid d
                (combine d (av_end_time w)) (combine d (av_start_time w))
                slots Hsame) as [r [q [-> ->]]].
    destruct r as [slots1 | ex].
    + destruct (IH slots1) as [r2 [q2 [-> ->]]].
      eexists _, _. split; reflexivity.
    + eexists _, _. split; reflexivity.
Qed.

Lemma slots_get_ext strptime db db' kid date_str :
  same_schedule db db' ->
  exists resp q,
    dispatch (KinesiologistAvailableSlotsView.get strptime date_str kid) db
    = (resp, db, q)
    /\ dispatch (KinesiologistAvailableSlotsView.get strptime date_str kid) db'
       = (resp, db', q).
Proof.
  intros Hsame. unfold dispatch, KinesiologistAvailableSlotsView.get.
  destruct date_str as [[|c s]|]; try (eexists _, _; split; reflexivity).
  destruct (strptime (c :: s)) as [d|];
    [| eexists _, _; split; reflexivity].
  unfold bind, availability_exists, availability_select, query,
    availability_filter.
  destruct Hsame as [Hav Hq]. rewrite Hav.
  destruct (filter _ (availabilities db)) as [|w rows] eqn:Hrows.
  - eexists _, _. split; reflexivity.
  - cbn [negb]. rewrite ?Hav, ?Hrows.
    destruct (for_avail_ext db db' kid d (w :: rows) []
                (conj Hav Hq)) as [r [q [-> ->]]].
    destruct r; eexists _, _; split; reflexivity.
Qed.

(** X9: the listing only reads: for every date parameter, provider and
    store, whatever it answers (a list, an error for the date, or the
    failure of a [datetime] sum), the store afterwards is the store
    before. *)
Theorem listing_never_writes
    (strptime : pystr -> option date) db kid date_str resp db' q :
  dispatch (KinesiologistAvailableSlotsView.get strptime date_str kid) db
  = (resp, db', q) ->
  db' = db.
Proof.
  destruct (slots_get_ext strptime db db kid date_str (same_schedule_refl db))
    as [r [q0 [Hrun _]]].
  rewrite Hrun. intros [= _ <- _]. reflexivity.
Qed.

Lemma listing_never_writes_witness : late_db = late_db.
Proof.
  symmetry.
  apply (listing_never_writes strptime_ymd late_db 1 (Some (py "9999-12-31"))
           {| status_code := 500; body := BException OverflowError |} late_db
           [ QAvailabilityExists 1 4; QAvailabilitySelect 1 4;
             QAppointmentOverlapExists 1 3652059 (mktime 23 45) (mktime 23 0) ]).
  vm_compute. reflexivity.
Defined.

Lemma overlap_row_same_booking kid d start_lt end_gt a a' :
  same_booking a a' ->
  overlap_row kid d start_lt end_gt a' = overlap_row kid d start_lt end_gt a.
Proof.
  intros [Hk [_ [Hd [Hs He]]]]. unfold overlap_row.
  rewrite Hk, Hd, Hs, He. reflexivity.
Qed.

Lemma same_schedule_put db id a a' :
  appointments db !! id = Some a -> same_booking a a' ->
  same_schedule db (put_appointment db id a').
Proof.
  intros Ha Hsame. split; [reflexivity |].
  intros kid d start_lt end_gt. cbn [put_appointment appointments].
  apply Bool.eq_iff_eq_true. rewrite !existsb_exists. split.
  - intros [[j b] [Hin Hrow]].
    apply list_elem_of_In, elem_of_map_to_list in Hin.
    destruct (decide (j = id)) as [-> | Hne].
    + rewrite lookup_insert_eq in Hin. injection Hin as <-.
      exists (id, a). split.
      * apply list_elem_of_In, elem_of_map_to_list. exact Ha.
      * cbn in *. rewrite <- Hrow. symmetry.
        apply overlap_row_same_booking, Hsame.
    + rewrite lookup_insert_ne in Hin by congruence.
      exists (j, b). split; [| exact Hrow].
      apply list_elem_of_In, elem_of_map_to_list. exact Hin.
  - intros [[j b] [Hin Hrow]].
    apply list_elem_of_In, elem_of_map_to_list in Hin.
    destruct (decide (j = id)) as [-> | Hne].
    + assert (b = a) as -> by congruence.
      exists (id, a'). split.
      * apply list_elem_of_In, elem_of_map_to_list, lookup_insert_eq.
      * cbn in *. rewrite <- Hrow. apply overlap_row_same_booking, Hsame.
    + exists (j, b). split; [| exact Hrow].
      apply list_elem_of_In, elem_of_map_to_list.
      rewrite lookup_insert_ne by congruence. exact Hin.
Qed.

(** X10: no status update and no comment changes what the listing answers:
    for every provider and date the listing gives the same response, and
    asks the same queries, on the store a transition leaves as on the store
    before it. Cancelling or completing an appointment frees no slot. *)
Theorem transitions_leave_listing_unchanged
    (strptime : pystr -> option date) db now user data id resp db' q
    kid date_str :
  dispatch (AppointmentStatusView.patch user data id) db = (resp, db', q)
  \/ dispatch (AppointmentCommentView.patch now user data id) db
     = (resp, db', q) ->
  exists r ql,
    dispatch (KinesiologistAvailableSlotsView.get strptime date_str kid) db
    = (r, db, ql)
    /\ dispatch (KinesiologistAvailableSlotsView.get strptime date_str kid) db'
       = (r, db', ql).
Proof.
  intros Hrun. apply slots_get_ext.
  destruct Hrun as [Hrun | Hrun].
  - apply status_patch_cases in Hrun.
    destruct Hrun as [[-> _] | [a [v [[Ha _] [_ [_ [_ ->]]]]]]];
      [apply same_schedule_refl |].
    exact (same_schedule_put db id a _ Ha (same_booking_set_status a v)).
  - apply comment_patch_cases in Hrun.
    destruct Hrun as [[-> _] | [a [[Ha _] [_ [_ [_ ->]]]]]];
      [apply same_schedule_refl |].
    exact (same_schedule_put db id a _ Ha
             (same_booking_completed_with a _ now)).
Qed.

Lemma transitions_leave_listing_unchanged_witness :
  exists r ql,
    dispatch (KinesiologistAvailableSlotsView.get strptime_ymd
                (Some (py "2024-01-01")) 1)
             (sample_db {[ 5 := appointment_0945 "confirmed" ]})
    = (r, sample_db {[ 5 := appointment_0945 "confirmed" ]}, ql)
    /\ dispatch (KinesiologistAvailableSlotsView.get strptime_ymd
                   (Some (py "2024-01-01")) 1)
                (sample_db {[ 5 := appointment_0945 "cancelled" ]})
       = (r, sample_db {[ 5 := appointment_0945 "cancelled" ]}, ql).
Proof.
  apply (transitions_leave_listing_unchanged strptime_ymd
           (sample_db {[ 5 := appointment_0945 "confirmed" ]}) 77 provider
           {[ py "status" := PyStr (py "cancelled") ]} 5
           {| status_code := 200; body := BStatusDisplay (py "cancelled") |}
           (sample_db {[ 5 := appointment_0945 "cancelled" ]})
           [QAppointmentGet 5; QAppointmentUpdate 5 [FStatus]]).
  left. vm_compute. reflexivity.
Defined.

(** ** The slots of a response *)

(** X11: for a date of the calendar and windows that hold times of day,
    the listing asks the store once whether the provider has windows on the
    weekday; with none it asks nothing more; otherwise it reads the windows
    once and then asks one overlap query per candidate slot, window after
    window in order, whether the candidate is free or not. When it answers
    200 it has asked about every candidate of every window; when a sum
    overflows it has asked about the candidates before that sum and the
    request fails there. *)
Theorem listing_queries_once_per_candidate
    (strptime : pystr -> option date) db kid s d :
  s <> [] -> strptime s = Some d ->
  valid_date d ->
  Forall valid_window (availability_filter kid (weekday d) db) ->
  snd (dispatch (KinesiologistAvailableSlotsView.get strptime (Some s) kid) db)
  = QAvailabilityExists kid (weekday d)
    :: match availability_filter kid (weekday d) db with
       | [] => []
       | _ :: _ =>
           QAvailabilitySelect kid (weekday d)
           :: probes kid d (availability_filter kid (weekday d) db)
       end
  /\ (status_code
        (fst (fst (dispatch
                     (KinesiologistAvailableSlotsView.get strptime (Some s) kid)
                     db))) = 200 ->
      probes kid d (availability_filter kid (weekday d) db)
      = flat_map
          (fun w =>
             map (fun x =>
                    QAppointmentOverlapExists kid d
                      (slot_end_time x) (slot_start_time x))
                 (tile (minutes 45) d (av_start_time w) (av_end_time w)))
          (availability_filter kid (weekday d) db))
  /\ (status_code
        (fst (fst (dispatch
                     (KinesiologistAvailableSlotsView.get strptime (Some s) kid)
                     db))) <> 200 ->
      fst (fst (dispatch
                  (KinesiologistAvailableSlotsView.get strptime (Some s) kid)
                  db))
      = {| status_code := 500; body := BException OverflowError |}
      /\ exists pre w post,
           availability_filter kid (weekday d) db = pre ++ w :: post
           /\ probes kid d (availability_filter kid (weekday d) db)
              = flat_map
                  (fun w =>
                     map (overlap_query kid d)
                       (tile (minutes 45) d (av_start_time w) (av_end_time w)))
                  pre
                ++ map (overlap_query kid d)
                     (take (Z.to_nat (sums_in_range d (av_start_time w)))
                        (tile (minutes 45) d (av_start_time w)
                           (av_end_time w)))).
Proof.
  intros Hs Hparse Hd Hvalid.
  rewrite (slots_get_cases strptime db kid s d Hs Hparse Hd Hvalid).
  cbn [fst snd]. split; [reflexivity |].
  destruct (forallb (window_fits d) (availability_filter kid (weekday d) db))
    eqn:Hfit; cbn [status_code].
  - split; [| intros Hne; exfalso; apply Hne; reflexivity].
    intros _. exact (probes_all kid d _ Hfit).
  - split; [discriminate |]. intros _. split; [reflexivity |].
    exact (probes_overflow kid d _ Hfit).
Qed.

Lemma listing_queries_once_per_candidate_witness :
  snd (dispatch (KinesiologistAvailableSlotsView.get strptime_ymd
                   (Some (py "9999-12-31")) 1) late_first_db)
  = [ QAvailabilityExists 1 4; QAvailabilitySelect 1 4;
      QAppointmentOverlapExists 1 MAXORDINAL (mktime 23 45) (mktime 23 0) ].
Proof.
  destruct (listing_queries_once_per_candidate strptime_ymd late_first_db 1
              (py "9999-12-31") MAXORDINAL) as [H _].
  - vm_compute. discriminate.
  - vm_compute. reflexivity.
  - unfold valid_date, MINYEAR_ORDINAL, MAXORDINAL. lia.
  - replace (availability_filter 1 (weekday MAXORDINAL) late_first_db)
      with (availabilities late_first_db) by (vm_compute; reflexivity).
    repeat constructor; vm_compute; congruence.
  - rewrite H. vm_compute. reflexivity.
Defined.

Lemma free_slots_shape db kid d w x :
  In x (free_slots db kid d w) ->
  slot_date x = d
  /\ slot_end_time x = slot_start_time x + minutes 45
  /\ slot_datetime x = combine d (slot_start_time x)
  /\ av_start_time w <= slot_start_time x
  /\ slot_end_time x <= av_end_time w
  /\ (slot_start_time x - av_start_time w) mod minutes 45 = 0.
Proof.
  unfold free_slots. intros Hin. apply filter_In in Hin.
  destruct Hin as [Hin _].
  apply elem_of_tile in Hin; [| reflexivity].
  destruct Hin as [k [Hk [Hle ->]]]. cbn.
  change slot_length with (minutes 45) in *.
  assert (0 < minutes 45) by reflexivity.
  repeat split; try lia.
  replace (av_start_time w + k * minutes 45 - av_start_time w)
    with (k * minutes 45) by lia.
  apply Z.mod_mul. discriminate.
Qed.

(** X12: for a date of the calendar and windows that hold times of day,
    every slot of a response is a slot of the queried date that lasts
    exactly 45 minutes, carries the [datetime] of its start, lies within a
    window of the provider for that weekday and starts a whole number of
    slots after the window's start. *)
Theorem listed_slot_shape
    (strptime : pystr -> option date) db kid s d resp db' q slots x :
  strptime s = Some d ->
  valid_date d ->
  Forall valid_window (availability_filter kid (weekday d) db) ->
  dispatch (KinesiologistAvailableSlotsView.get strptime (Some s) kid) db
  = (resp, db', q) ->
  body resp = BSlots slots ->
  In x slots ->
  slot_date x = d
  /\ slot_end_time x = slot_start_time x + minutes 45
  /\ slot_datetime x = combine d (slot_start_time x)
  /\ exists w,
       In w (availabilities db)
       /\ av_kinesiologist_id w = kid /\ av_day w = weekday d
       /\ av_start_time w <= slot_start_time x
       /\ slot_end_time x <= av_end_time w
       /\ (slot_start_time x - av_start_time w) mod minutes 45 = 0.
Proof.
  intros Hparse Hd Hvalid Hrun Hbody Hx.
  destruct (slots_get_listed strptime db kid s d resp db' q slots
              Hparse Hd Hvalid Hrun Hbody) as [_ [_ ->]].
  apply in_flat_map in Hx. destruct Hx as [w [Hw Hx]].
  destruct (free_slots_shape db kid d w x Hx)
    as [H1 [H2 [H3 [H4 [H5 H6]]]]].
  split; [exact H1 |]. split; [exact H2 |]. split; [exact H3 |].
  exists w. unfold availability_filter in Hw.
  apply list_elem_of_In, list_elem_of_filter in Hw.
  destruct Hw as [[Hk Hday] Hw]. apply list_elem_of_In in Hw.
  repeat split; assumption.
Qed.

Lemma listed_slot_shape_witness :
  slot_end_time (slot_of MAXORDINAL (mktime 22 0) (mktime 22 45))
  = slot_start_time (slot_of MAXORDINAL (mktime 22 0) (mktime 22 45))
    + minutes 45.
Proof.
  apply (listed_slot_shape strptime_ymd (last_day_db ∅) 1
           (py "9999-12-31") MAXORDINAL
           {| status_code := 200;
              body := BSlots [ slot_of MAXORDINAL (mktime 9 0) (mktime 9 45);
                               slot_of MAXORDINAL (mktime 9 45) (mktime 10 30);
                               slot_of MAXORDINAL (mktime 22 0) (mktime 22 45) ]
           |}
           (last_day_db ∅)
           [ QAvailabilityExists 1 4; QAvailabilitySelect 1 4;
             QAppointmentOverlapExists 1 MAXORDINAL (mktime 9 45) (mktime 9 0);
             QAppointmentOverlapExists 1 MAXORDINAL (mktime 10 30) (mktime 9 45);
             QAppointmentOverlapExists 1 MAXORDINAL (mktime 22 45) (mktime 22 0)
           ]
           [ slot_of MAXORDINAL (mktime 9 0) (mktime 9 45);
             slot_of MAXORDINAL (mktime 9 45) (mktime 10 30);
             slot_of MAXORDINAL (mktime 22 0) (mktime 22 45) ]).
  - vm_compute. reflexivity.
  - unfold valid_date, MINYEAR_ORDINAL, MAXORDINAL. lia.
  - replace (availability_filter 1 (weekday MAXORDINAL) (last_day_db ∅))
      with (availabilities (last_day_db ∅)) by (vm_compute; reflexivity).
    repeat constructor; vm_compute; congruence.
  - vm_compute. reflexivity.
  - reflexivity.
  - right. right. left. reflexivity.
Defined.

(** The relation of a slot that ends by the start of another. *)
Lemma tile_sorted L d s e :
  0 < L ->
  StronglySorted (fun x y : Slot => slot_end_time x <= slot_start_time y)
    (tile L d s e).
Proof.
  intros HL.
  remember (Z.to_nat ((e - s) / L)) as n eqn:Hn. revert s Hn.
  induction n as [|n IH]; intros s Hn.
  - unfold tile. rewrite seqZ_nil by lia. constructor.
  - assert (Hle : L <= e - s).
    { destruct (Z_lt_le_dec (e - s) L) as [Hlt | Hge]; [| exact Hge].
      assert ((e - s) / L <= 0)
        by (apply Z.lt_succ_r, Z.div_lt_upper_bound; lia).
      lia. }
    rewrite tile_cons by assumption. constructor.
    + apply IH.
      replace (e - s) with (e - (s + L) + 1 * L) in Hn by lia.
      rewrite Z.div_add in Hn by lia.
      assert (0 <= (e - (s + L)) / L) by (apply Z.div_pos; lia).
      lia.
    + apply Forall_forall. intros y Hy. apply list_elem_of_In in Hy.
      apply elem_of_tile in Hy; [| exact HL].
      destruct Hy as [k [Hk [_ ->]]]. rewrite candidate_0. cbn. nia.
Qed.

Lemma StronglySorted_List_filter {A} (R : A -> A -> Prop) (p : A -> bool) l :
  StronglySorted R l -> StronglySorted R (List.filter p l).
Proof.
  induction 1 as [|x l Hl IH Hx]; cbn; [constructor |].
  destruct (p x); [| exact IH]. constructor; [exact IH |].
  apply Forall_forall. intros y Hy.
  apply list_elem_of_In, filter_In in Hy.
  rewrite Forall_forall in Hx. apply Hx, list_elem_of_In. tauto.
Qed.

Lemma chronological_NoDup (l : list Slot) :
  Forall (fun x => slot_start_time x < slot_end_time x) l ->
  StronglySorted (fun x y : Slot => slot_end_time x <= slot_start_time y) l ->
  List.NoDup l.
Proof.
  intros Hpos Hsorted. induction Hsorted as [|x l Hl IH Hx].
  - constructor.
  - apply Forall_cons in Hpos. destruct Hpos as [Hxpos Hlpos].
    constructor; [| apply IH; exact Hlpos].
    intros Hin. rewrite Forall_forall in Hx.
    apply list_elem_of_In in Hin. specialize (Hx x Hin). lia.
Qed.

Lemma free_slots_chronological db kid d rows :
  StronglySorted (fun w1 w2 => av_end_time w1 <= av_start_time w2) rows ->
  StronglySorted (fun x y : Slot => slot_end_time x <= slot_start_time y)
    (flat_map (free_slots db kid d) rows).
Proof.
  induction 1 as [|w rows Hrows IH Hw]; [constructor |].
  cbn [flat_map]. apply StronglySorted_app_2.
  - intros x y Hx Hy. apply list_elem_of_In in Hx, Hy.
    apply in_flat_map in Hy. destruct Hy as [w' [Hw' Hy]].
    apply free_slots_shape in Hx, Hy.
    rewrite Forall_forall in Hw. apply list_elem_of_In in Hw'.
    specialize (Hw w' Hw'). cbn beta in Hw. lia.
  - unfold free_slots. apply StronglySorted_List_filter, tile_sorted.
    reflexivity.
  - exact IH.
Qed.

(** X13: for a date of the calendar and windows that hold times of day,
    when the provider's windows for the weekday come in chronological order
    without overlapping, a response with slots is chronological: each slot
    ends by the start of every later slot, so no two slots overlap and none
    is listed twice. *)
Theorem listing_chronological
    (strptime : pystr -> option date) db kid s d resp db' q slots :
  strptime s = Some d ->
  valid_date d ->
  Forall valid_window (availability_filter kid (weekday d) db) ->
  StronglySorted (fun w1 w2 => av_end_time w1 <= av_start_time w2)
    (availability_filter kid (weekday d) db) ->
  dispatch (KinesiologistAvailableSlotsView.get strptime (Some s) kid) db
  = (resp, db', q) ->
  body resp = BSlots slots ->
  StronglySorted (fun x y : Slot => slot_end_time x <= slot_start_time y) slots
  /\ List.NoDup slots.
Proof.
  intros Hparse Hd Hvalid Hwindows Hrun Hbody.
  destruct (slots_get_listed strptime db kid s d resp db' q slots
              Hparse Hd Hvalid Hrun Hbody) as [_ [_ ->]].
  pose proof (free_slots_chronological db kid d _ Hwindows) as Hsorted.
  split; [exact Hsorted |].
  apply chronological_NoDup; [| exact Hsorted].
  apply Forall_forall. intros x Hx. apply list_elem_of_In in Hx.
  apply in_flat_map in Hx. destruct Hx as [w [_ Hx]].
  apply free_slots_shape in Hx.
  assert (0 < minutes 45) by reflexivity. lia.
Qed.

Lemma listing_chronological_witness :
  StronglySorted (fun x y : Slot => slot_end_time x <= slot_start_time y)
    [ slot_of MAXORDINAL (mktime 9 0) (mktime 9 45);
      slot_of MAXORDINAL (mktime 9 45) (mktime 10 30);
      slot_of MAXORDINAL (mktime 22 0) (mktime 22 45) ]
  /\ List.NoDup [ slot_of MAXORDINAL (mktime 9 0) (mktime 9 45);
                  slot_of MAXORDINAL (mktime 9 45) (mktime 10 30);
                  slot_of MAXORDINAL (mktime 22 0) (mktime 22 45) ].
Proof.
  apply (listing_chronological strptime_ymd (last_day_db ∅) 1
           (py "9999-12-31") MAXORDINAL
           {| status_code := 200;
              body := BSlots [ slot_of MAXORDINAL (mktime 9 0) (mktime 9 45);
                               slot_of MAXORDINAL (mktime 9 45) (mktime 10 30);
                               slot_of MAXORDINAL (mktime 22 0) (mktime 22 45) ]
           |}
           (last_day_db ∅)
           [ QAvailabilityExists 1 4; QAvailabilitySelect 1 4;
             QAppointmentOverlapExists 1 MAXORDINAL (mktime 9 45) (mktime 9 0);
             QAppointmentOverlapExists 1 MAXORDINAL (mktime 10 30) (mktime 9 45);
             QAppointmentOverlapExists 1 MAXORDINAL (mktime 22 45) (mktime 22 0)
           ]).
  - vm_compute. reflexivity.
  - unfold valid_date, MINYEAR_ORDINAL, MAXORDINAL. lia.
  - replace (availability_filter 1 (weekday MAXORDINAL) (last_day_db ∅))
      with (availabilities (last_day_db ∅)) by (vm_compute; reflexivity).
    repeat constructor; vm_compute; congruence.
  - replace (availability_filter 1 (weekday MAXORDINAL) (last_day_db ∅))
      with (availabilities (last_day_db ∅)) by (vm_compute; reflexivity).
    repeat constructor; vm_compute; congruence.
  - vm_compute. reflexivity.
  - reflexivity.
Defined.

Lemma is_free_mono db db' kid d x :
  appointments db ⊆ appointments db' ->
  is_free db' kid d x = true -> is_free db kid d x = true.
Proof.
  intros Hsub. rewrite !is_free_spec. intros Hfree a [[id Ha] Hrest].
  apply Hfree. split; [| exact Hrest].
  exists id. exact (lookup_weaken _ _ _ _ Ha Hsub).
Qed.

Lemma filter_sublist_impl {A} (p p' : A -> bool) (l : list A) :
  (forall x, p' x = true -> p x = true) ->
  List.filter p' l `sublist_of` List.filter p l.
Proof.
  intros Himpl. induction l as [|x l IH]; cbn; [constructor |].
  destruct (p' x) eqn:Hp'.
  - rewrite (Himpl x Hp'). constructor. exact IH.
  - destruct (p x); [constructor |]; exact IH.
Qed.

Lemma flat_map_sublist {A B} (f g : A -> list B) (l : list A) :
  (forall x, f x `sublist_of` g x) ->
  flat_map f l `sublist_of` flat_map g l.
Proof.
  intros Hfg. induction l as [|x l IH]; cbn; [constructor |].
  apply sublist_app; [apply Hfg | exact IH].
Qed.

(** X14: booking only takes slots away: for a date of the calendar and
    windows that hold times of day, if a second store has the same windows
    and every appointment of the first, and possibly more, then whenever the
    listing on the first store answers with slots, the listing on the second
    answers 200 with slots that are, in order, among those of the first. *)
Theorem more_appointments_fewer_slots
    (strptime : pystr -> option date) db db' kid s d resp dbo q slots :
  strptime s = Some d ->
  valid_date d ->
  Forall valid_window (availability_filter kid (weekday d) db) ->
  availabilities db' = availabilities db ->
  appointments db ⊆ appointments db' ->
  dispatch (KinesiologistAvailableSlotsView.get strptime (Some s) kid) db
  = (resp, dbo, q) ->
  body resp = BSlots slots ->
  exists slots',
    fst (fst (dispatch
                (KinesiologistAvailableSlotsView.get strptime (Some s) kid)
                db'))
    = {| status_code := 200; body := BSlots slots' |}
    /\ slots' `sublist_of` slots.
Proof.
  intros Hparse Hd Hvalid Hav Hsub Hrun Hbody.
  assert (Hrows : availability_filter kid (weekday d) db'
                  = availability_filter kid (weekday d) db)
    by (unfold availability_filter; rewrite Hav; reflexivity).
  destruct (slots_get_listed strptime db kid s d resp dbo q slots
              Hparse Hd Hvalid Hrun Hbody) as [Hfit [_ ->]].
  assert (Hs : s <> []).
  { intros ->. cbn in Hrun. injection Hrun as <- _ _. discriminate. }
  rewrite <- Hrows in Hvalid, Hfit.
  rewrite (slots_get_cases strptime db' kid s d Hs Hparse Hd Hvalid), Hfit.
  eexists. split; [reflexivity |].
  rewrite Hrows. apply flat_map_sublist. intros w. unfold free_slots.
  apply filter_sublist_impl. intros x. apply is_free_mono, Hsub.
Qed.

Lemma more_appointments_fewer_slots_witness :
  exists slots',
    fst (fst (dispatch
                (KinesiologistAvailableSlotsView.get strptime_ymd
                   (Some (py "9999-12-31")) 1)
                (last_day_db {[ 5 := last_day_appointment ]})))
    = {| status_code := 200; body := BSlots slots' |}
    /\ slots' `sublist_of`
         [ slot_of MAXORDINAL (mktime 9 0) (mktime 9 45);
           slot_of MAXORDINAL (mktime 9 45) (mktime 10 30);
           slot_of MAXORDINAL (mktime 22 0) (mktime 22 45) ].
Proof.
  apply (more_appointments_fewer_slots strptime_ymd (last_day_db ∅)
           (last_day_db {[ 5 := last_day_appointment ]}) 1
           (py "9999-12-31") MAXORDINAL
           {| status_code := 200;
              body := BSlots [ slot_of MAXORDINAL (mktime 9 0) (mktime 9 45);
                               slot_of MAXORDINAL (mktime 9 45) (mktime 10 30);
                               slot_of MAXORDINAL (mktime 22 0) (mktime 22 45) ]
           |}
           (last_day_db ∅)
           [ QAvailabilityExists 1 4; QAvailabilitySelect 1 4;
             QAppointmentOverlapExists 1 MAXORDINAL (mktime 9 45) (mktime 9 0);
             QAppointmentOverlapExists 1 MAXORDINAL (mktime 10 30) (mktime 9 45);
             QAppointmentOverlapExists 1 MAXORDINAL (mktime 22 45) (mktime 22 0)
           ]).
  - vm_compute. reflexivity.
  - unfold valid_date, MINYEAR_ORDINAL, MAXORDINAL. lia.
  - replace (availability_filter 1 (weekday MAXORDINAL) (last_day_db ∅))
      with (availabilities (last_day_db ∅)) by (vm_compute; reflexivity).
    repeat constructor; vm_compute; congruence.
  - reflexivity.
  - cbn [last_day_db appointments]. apply map_empty_subseteq.
  - vm_compute. reflexivity.
  - reflexivity.
Defined.

(** ** Booking, path by path *)

Section CreatePaths.

Variable ValidatedData : Type.
Variable vd_patient_name : ValidatedData -> Patient.
Variable serializer_is_valid :
  Kinesiologist -> gmap (list N) pyval -> DB -> option ValidatedData.
Variable serializer_save : ValidatedData -> DB -> SaveResult.

(** X15: in booking, the kinesiologist is looked up and the request
    validated before the caller is looked at: an unknown kinesiologist id is
    answered 404 without consulting the serializer, and a request the
    serializer rejects is answered 400 for every caller, the third party
    that an accepted request would get 403 for included; nothing is
    saved. *)
Theorem create_checks_before_authorization db user data kid :
  (kinesiologists db !! kid = None ->
   dispatch (AppointmentCreateView.post ValidatedData vd_patient_name
               serializer_is_valid serializer_save user data kid) db
   = ({| status_code := 404; body := BException Http404 |},
      db, [QKinesiologistGet kid]))
  /\ (forall k,
        kinesiologists db !! kid = Some k ->
        serializer_is_valid k data db = None ->
        dispatch (AppointmentCreateView.post ValidatedData vd_patient_name
                    serializer_is_valid serializer_save user data kid) db
        = ({| status_code := 400; body := BException SerializerError |},
           db, [QKinesiologistGet kid; QSerializerValidate])).
Proof.
  unfold dispatch, AppointmentCreateView.post, bind, get_kinesiologist_or_404,
    AppointmentCreateView.is_valid.
  split.
  - intros ->. reflexivity.
  - intros k -> ->. reflexivity.
Qed.

(** X16: an accepted booking request of an administrator, of the patient
    named in it or of the provider goes to the serializer's [save], once,
    and the answer follows its result: 201 with the new appointment and the
    store [save] produced, 400 with the message of a validation error, or
    500 on an integrity error, in both error cases with the store as it
    was. *)
Theorem create_authorized_outcome db user data kid k v :
  kinesiologists db !! kid = Some k ->
  serializer_is_valid k data db = Some v ->
  is_superuser user = true
  \/ patient_user (vd_patient_name v) = Some (user_id user)
  \/ kine_user k = Some (user_id user) ->
  dispatch (AppointmentCreateView.post ValidatedData vd_patient_name
              serializer_is_valid serializer_save user data kid) db
  = match serializer_save v db with
    | Saved appointment db1 =>
        ({| status_code := 201; body := BCreated appointment |}, db1,
         [QKinesiologistGet kid; QSerializerValidate; QSerializerSave])
    | SaveValidationError message =>
        ({| status_code := 400; body := BMessage false message |}, db,
         [QKinesiologistGet kid; QSerializerValidate; QSerializerSave])
    | SaveIntegrityError =>
        ({| status_code := 500;
            body := BMessage false
              "No fue posible agendar la hora médica. Intente nuevamente." |},
         db, [QKinesiologistGet kid; QSerializerValidate; QSerializerSave])
    end.
Proof.
  intros Hk Hvalid Hauth.
  unfold dispatch, AppointmentCreateView.post, bind, get_kinesiologist_or_404,
    AppointmentCreateView.is_valid, AppointmentCreateView.atomic_save.
  rewrite Hk, Hvalid.
  assert (Hyes : is_superuser user
                 || same_user user (patient_user (vd_patient_name v))
                 || same_user user (kine_user k) = true).
  { destruct Hauth as [-> | [Hp | Hq]]; [reflexivity | |].
    - apply same_user_true in Hp. rewrite Hp, orb_true_r. reflexivity.
    - apply same_user_true in Hq. rewrite Hq, orb_true_r. reflexivity. }
  rewrite Hyes. cbn [negb].
  destruct (serializer_save v db); reflexivity.
Qed.

End CreatePaths.

Lemma create_checks_before_authorization_witness :
  dispatch (AppointmentCreateView.post Patient (fun p => p)
              (fun _ _ _ => None)
              (fun _ _ => SaveIntegrityError) stranger ∅ 1)
           (sample_db ∅)
  = ({| status_code := 400; body := BException SerializerError |},
     sample_db ∅, [QKinesiologistGet 1; QSerializerValidate]).
Proof.
  destruct (create_checks_before_authorization Patient (fun p => p)
              (fun _ _ _ => None) (fun _ _ => SaveIntegrityError)
              (sample_db ∅) stranger ∅ 1) as [_ H].
  apply (H {| kine_user := Some 10 |}).
  - vm_compute. reflexivity.
  - reflexivity.
Defined.

Lemma create_authorized_outcome_witness :
  dispatch (AppointmentCreateView.post Patient (fun p => p)
              (fun _ _ _ => Some {| patient_user := Some 11 |})
              (fun _ db =>
                 Saved (appointment_0945 "requested")
                       (put_appointment db 6 (appointment_0945 "requested")))
              stranger ∅ 1)
           (sample_db ∅)
  = ({| status_code := 201; body := BCreated (appointment_0945 "requested") |},
     put_appointment (sample_db ∅) 6 (appointment_0945 "requested"),
     [QKinesiologistGet 1; QSerializerValidate; QSerializerSave]).
Proof.
  rewrite (create_authorized_outcome Patient (fun p => p)
             (fun _ _ _ => Some {| patient_user := Some 11 |})
             (fun _ db =>
                Saved (appointment_0945 "requested")
                      (put_appointment db 6 (appointment_0945 "requested")))
             (sample_db ∅) stranger ∅ 1 {| kine_user := Some 10 |}
             {| patient_user := Some 11 |}).
  - reflexivity.
  - vm_compute. reflexivity.
  - reflexivity.
  - right. left. reflexivity.
Defined.

(** ** Ordered queries *)

Lemma lex_le_total {A} (key : A -> Z * Z) :
  Total (fun x y => lex_le (key x) (key y)).
Proof. intros x y. unfold lex_le. lia. Qed.

Lemma lex_le_trans {A} (key : A -> Z * Z) :
  Transitive (fun x y => lex_le (key x) (key y)).
Proof. intros x y z. unfold lex_le. lia. Qed.

Lemma order_by_sorted {A} (key : A -> Z * Z) (l : list A) :
  StronglySorted (fun x y => lex_le (key x) (key y)) (order_by key l).
Proof.
  unfold order_by.
  apply (@StronglySorted_merge_sort _ _ _ (lex_le_trans key) (lex_le_total key)).
Qed.

Lemma order_by_perm {A} (key : A -> Z * Z) (l : list A) :
  order_by key l ≡ₚ l.
Proof. unfold order_by. apply merge_sort_Permutation. Qed.

Lemma elem_of_appointment_rows keep db id a :
  (id, a) ∈ appointment_rows keep db <->
  appointments db !! id = Some a /\ keep a = true.
Proof.
  unfold appointment_rows.
  rewrite list_elem_of_In, filter_In, <- list_elem_of_In, elem_of_map_to_list.
  reflexivity.
Qed.

Lemma NoDup_appointment_rows keep db : NoDup (appointment_rows keep db).
Proof.
  unfold appointment_rows.
  assert (H : NoDup (map_to_list (appointments db)))
    by apply NoDup_map_to_list.
  induction H as [|p l Hp Hl IH]; cbn; [constructor |].
  destruct (keep (snd p)); [| exact IH].
  constructor; [| exact IH].
  rewrite list_elem_of_In, filter_In, <- list_elem_of_In. tauto.
Qed.

(** ** AvailabilityListCreateView *)

(** X17: the agenda of an unknown kinesiologist is 404; that of a known one
    is 200 for whoever asks and holds the provider's windows, all of them
    and no others, ordered by day and then start time, and the provider's
    appointments of every status, each once, ordered by date and then start
    time. *)
Theorem agenda_is_sorted_and_complete db kid :
  (kinesiologists db !! kid = None ->
   serve (AvailabilityListCreateView.get kid db)
   = {| reply_code := 404; payload := PException Http404 |})
  /\ (forall k,
        kinesiologists db !! kid = Some k ->
        exists av appts,
          serve (AvailabilityListCreateView.get kid db)
          = {| reply_code := 200; payload := PAgenda k av appts |}
          /\ StronglySorted
               (fun a b => lex_le (av_day a, av_start_time a)
                             (av_day b, av_start_time b)) av
          /\ av ≡ₚ filter (fun a => av_kinesiologist_id a = kid)
                     (availabilities db)
          /\ StronglySorted
               (fun p q : Z * Appointment =>
                  lex_le (appt_date (snd p), start_time (snd p))
                    (appt_date (snd q), start_time (snd q))) appts
          /\ NoDup appts
          /\ (forall id a,
                (id, a) ∈ appts <->
                appointments db !! id = Some a /\ kinesiologist_id a = kid)).
Proof.
  unfold AvailabilityListCreateView.get. split.
  - intros ->. reflexivity.
  - intros k ->. eexists _, _. split; [reflexivity |].
    split; [apply order_by_sorted |]. split; [apply order_by_perm |].
    split; [apply order_by_sorted |]. split.
    + rewrite order_by_perm. apply NoDup_appointment_rows.
    + intros id a. rewrite order_by_perm, elem_of_appointment_rows.
      rewrite Z.eqb_eq. reflexivity.
Qed.

Lemma agenda_is_sorted_and_complete_witness :
  exists av appts,
    serve (AvailabilityListCreateView.get 1 agenda_db)
    = {| reply_code := 200;
         payload := PAgenda {| kine_user := Some 10 |} av appts |}
    /\ av ≡ₚ filter (fun a => av_kinesiologist_id a = 1)
               (availabilities agenda_db)
    /\ NoDup appts.
Proof.
  destruct (agenda_is_sorted_and_complete agenda_db 1) as [_ H].
  destruct (H {| kine_user := Some 10 |}) as [av [appts [H1 [_ [H2 [_ [H3 _]]]]]]].
  - vm_compute. reflexivity.
  - exists av, appts. split; [exact H1 |]. split; [exact H2 | exact H3].
Defined.

Section AvailabilityPaths.

Variable ValidatedData : Type.
Variable serializer_is_valid :
  Kinesiologist -> gmap (list N) pyval -> DB -> option ValidatedData.
Variable serializer_save : Z -> ValidatedData -> DB -> AvailabilitySaveResult.

(** X18: registering a window answers 404 for an unknown kinesiologist and
    403 for a caller who is neither an administrator nor the kinesiologist's
    user; in both cases the request body is not even validated and the
    store is left as it was. Here authorisation comes before validation. *)
Theorem availability_post_forbidden_before_validation db user data kid :
  (kinesiologists db !! kid = None ->
   dispatch_reply
     (AvailabilityListCreateView.post ValidatedData serializer_is_valid
        serializer_save user data kid) db
   = ({| reply_code := 404; payload := PException Http404 |},
      db, [QKinesiologistGet kid]))
  /\ (forall k,
        kinesiologists db !! kid = Some k ->
        is_superuser user = false ->
        kine_user k <> Some (user_id user) ->
        dispatch_reply
          (AvailabilityListCreateView.post ValidatedData serializer_is_valid
             serializer_save user data kid) db
        = ({| reply_code := 403;
              payload := PMessage false
                "No tiene permisos para registrar este horario." |},
           db, [QKinesiologistGet kid])).
Proof.
  unfold dispatch_reply, AvailabilityListCreateView.post, bind,
    get_kinesiologist_or_404.
  split.
  - intros ->. reflexivity.
  - intros k -> -> Hu.
    destruct (same_user user (kine_user k)) eqn:Hsame.
    + apply same_user_true in Hsame. contradiction.
    + reflexivity.
Qed.

(** X19: a window registered by an administrator or by the kinesiologist's
    own user is validated and then saved once, under the id of the
    kinesiologist of the address, and the answer follows the result: 400
    without a save when the serializer rejects the body, 201 with the new
    window and the store [save] produced, 400 with the message of a
    validation error raised while saving, or 500 on an integrity error, the
    store as it was in every error case. *)
Theorem availability_post_authorized_outcome db user data kid k :
  kinesiologists db !! kid = Some k ->
  is_superuser user = true \/ kine_user k = Some (user_id user) ->
  dispatch_reply
    (AvailabilityListCreateView.post ValidatedData serializer_is_valid
       serializer_save user data kid) db
  = match serializer_is_valid k data db with
    | None =>
        ({| reply_code := 400; payload := PException SerializerError |},
         db, [QKinesiologistGet kid; QSerializerValidate])
    | Some v =>
        match serializer_save kid v db with
        | AvailabilitySaved availability db1 =>
            ({| reply_code := 201; payload := PAvailability availability |},
             db1,
             [QKinesiologistGet kid; QSerializerValidate; QSerializerSave])
        | AvailabilityValidationError message =>
            ({| reply_code := 400; payload := PMessage false message |}, db,
             [QKinesiologistGet kid; QSerializerValidate; QSerializerSave])
        | AvailabilityIntegrityError =>
            ({| reply_code := 500;
                payload := PMessage false
                  "No fue posible guardar el horario. Intente nuevamente." |},
             db,
             [QKinesiologistGet kid; QSerializerValidate; QSerializerSave])
        end
    end.
Proof.
  intros Hk Hauth.
  unfold dispatch_reply, AvailabilityListCreateView.post, bind,
    get_kinesiologist_or_404, AvailabilityListCreateView.is_valid,
    AvailabilityListCreateView.atomic_save.
  rewrite Hk.
  assert (Hyes : is_superuser user || same_user user (kine_user k) = true).
  { destruct Hauth as [-> | Hq]; [reflexivity |].
    apply same_user_true in Hq. rewrite Hq, orb_true_r. reflexivity. }
  rewrite Hyes. cbn [negb].
  destruct (serializer_is_valid k data db) as [v|]; [| reflexivity].
  destruct (serializer_save kid v db); reflexivity.
Qed.

End AvailabilityPaths.

Lemma availability_post_forbidden_before_validation_witness :
  dispatch_reply
    (AvailabilityListCreateView.post unit (fun _ _ _ => None)
       (fun _ _ _ => AvailabilityIntegrityError) stranger ∅ 1) agenda_db
  = ({| reply_code := 403;
        payload := PMessage false
          "No tiene permisos para registrar este horario." |},
     agenda_db, [QKinesiologistGet 1]).
Proof.
  destruct (availability_post_forbidden_before_validation unit
              (fun _ _ _ => None) (fun _ _ _ => AvailabilityIntegrityError)
              agenda_db stranger ∅ 1) as [_ H].
  apply (H {| kine_user := Some 10 |}).
  - vm_compute. reflexivity.
  - reflexivity.
  - vm_compute. discriminate.
Defined.

Lemma availability_post_authorized_outcome_witness :
  dispatch_reply
    (AvailabilityListCreateView.post unit (fun _ _ _ => Some tt)
       (fun kid _ db =>
          AvailabilitySaved
            {| av_kinesiologist_id := kid; av_day := 3;
               av_start_time := mktime 9 0; av_end_time := mktime 10 0 |} db)
       provider ∅ 1) agenda_db
  = ({| reply_code := 201;
        payload :=
          PAvailability
            {| av_kinesiologist_id := 1; av_day := 3;
               av_start_time := mktime 9 0; av_end_time := mktime 10 0 |} |},
     agenda_db, [QKinesiologistGet 1; QSerializerValidate; QSerializerSave]).
Proof.
  rewrite (availability_post_authorized_outcome unit (fun _ _ _ => Some tt)
             (fun kid _ db =>
                AvailabilitySaved
                  {| av_kinesiologist_id := kid; av_day := 3;
                     av_start_time := mktime 9 0; av_end_time := mktime 10 0 |}
                  db)
             agenda_db provider ∅ 1 {| kine_user := Some 10 |}).
  - reflexivity.
  - vm_compute. reflexivity.
  - right. reflexivity.
Defined.

(** ** KinesiologistUpcomingAppointmentsView *)

Lemma elem_of_kinesiologists_of user db id k :
  In (id, k)
     (List.filter (fun p : Z * Kinesiologist =>
                     same_user user (kine_user (snd p)))
        (map_to_list (kinesiologists db))) <->
  kinesiologists db !! id = Some k /\ kine_user k = Some (user_id user).
Proof.
  rewrite filter_In, <- list_elem_of_In, elem_of_map_to_list. cbn.
  rewrite same_user_true. reflexivity.
Qed.

Lemma first_kinesiologist_none user db :
  KinesiologistUpcomingAppointmentsView.first_kinesiologist user db = None <->
  forall id k,
    kinesiologists db !! id = Some k -> kine_user k <> Some (user_id user).
Proof.
  unfold KinesiologistUpcomingAppointmentsView.first_kinesiologist.
  rewrite head_None. split.
  - intros Hnil id k Hk Hu.
    assert (Hin : (id, k) ∈ order_by (fun p : Z * Kinesiologist => (fst p, 0))
                    (List.filter (fun p : Z * Kinesiologist =>
                                    same_user user (kine_user (snd p)))
                       (map_to_list (kinesiologists db)))).
    { rewrite order_by_perm. apply list_elem_of_In.
      apply elem_of_kinesiologists_of. split; assumption. }
    rewrite Hnil in Hin. inversion Hin.
  - intros Hnone.
    destruct (order_by _ _) as [|[id k] t] eqn:Hl; [reflexivity | exfalso].
    assert (Hin : (id, k) ∈ order_by (fun p : Z * Kinesiologist => (fst p, 0))
                    (List.filter (fun p : Z * Kinesiologist =>
                                    same_user user (kine_user (snd p)))
                       (map_to_list (kinesiologists db))))
      by (rewrite Hl; left).
    rewrite order_by_perm in Hin.
    apply list_elem_of_In, elem_of_kinesiologists_of in Hin.
    destruct Hin as [Hk Hu]. exact (Hnone id k Hk Hu).
Qed.

Lemma first_kinesiologist_least user db kine_id k :
  kinesiologists db !! kine_id = Some k ->
  kine_user k = Some (user_id user) ->
  (forall j k', kinesiologists db !! j = Some k' ->
                kine_user k' = Some (user_id user) -> kine_id <= j) ->
  KinesiologistUpcomingAppointmentsView.first_kinesiologist user db
  = Some (kine_id, k).
Proof.
  intros Hk Hu Hleast.
  unfold KinesiologistUpcomingAppointmentsView.first_kinesiologist.
  pose proof (order_by_sorted (fun p : Z * Kinesiologist => (fst p, 0))
                (List.filter (fun p : Z * Kinesiologist =>
                                same_user user (kine_user (snd p)))
                   (map_to_list (kinesiologists db)))) as Hsorted.
  assert (Hmem : forall p,
            p ∈ order_by (fun p : Z * Kinesiologist => (fst p, 0))
                  (List.filter (fun p : Z * Kinesiologist =>
                                  same_user user (kine_user (snd p)))
                     (map_to_list (kinesiologists db))) <->
            kinesiologists db !! fst p = Some (snd p)
            /\ kine_user (snd p) = Some (user_id user)).
  { intros [j k']. rewrite order_by_perm, list_elem_of_In.
    apply elem_of_kinesiologists_of. }
  destruct (order_by _ _) as [|[j k'] t]; cbn.
  - exfalso. assert (H : (kine_id, k) ∈ @nil (Z * Kinesiologist))
      by (apply Hmem; split; assumption).
    inversion H.
  - assert (Hhead : (j, k') ∈ (j, k') :: t) by left.
    apply Hmem in Hhead. cbn in Hhead. destruct Hhead as [Hj Hju].
    pose proof (Hleast j k' Hj Hju) as Hle.
    assert (Hin : (kine_id, k) ∈ (j, k') :: t)
      by (apply Hmem; split; assumption).
    apply StronglySorted_cons in Hsorted. destruct Hsorted as [Hall _].
    assert (j = kine_id) as ->.
    { apply elem_of_cons in Hin. destruct Hin as [[= -> _] | Hin];
        [reflexivity |].
      rewrite Forall_forall in Hall. specialize (Hall _ Hin).
      unfold lex_le in Hall. cbn in Hall. lia. }
    do 2 f_equal. congruence.
Qed.

Section UpcomingProperties.

Variable strftime_date : date -> pystr.
Variable strftime_time : time -> pystr.
Variable status_display : pystr -> pystr.
Variable patient_str : Patient -> pystr.

(** X20: the upcoming appointments are refused with 403 exactly to a caller
    who is the user of no kinesiologist; every other caller, the user of a
    kinesiologist, is answered 200. *)
Theorem upcoming_forbidden_without_kinesiologist today now_time user acc db :
  ((forall id k, kinesiologists db !! id = Some k ->
                 kine_user k <> Some (user_id user)) ->
   KinesiologistUpcomingAppointmentsView.get strftime_date strftime_time
     status_display patient_str today now_time user acc db
   = {| reply_code := 403;
        payload := PMessage false
          "El usuario no corresponde a un kinesiólogo." |})
  /\ (forall id k,
        kinesiologists db !! id = Some k ->
        kine_user k = Some (user_id user) ->
        reply_code
          (KinesiologistUpcomingAppointmentsView.get strftime_date
             strftime_time status_display patient_str today now_time user
             acc db) = 200).
Proof.
  unfold KinesiologistUpcomingAppointmentsView.get. split.
  - intros Hnone. apply first_kinesiologist_none in Hnone.
    rewrite Hnone. reflexivity.
  - intros id k Hk Hu.
    destruct (KinesiologistUpcomingAppointmentsView.first_kinesiologist
                user db) eqn:Hfirst; [reflexivity | exfalso].
    rewrite first_kinesiologist_none in Hfirst.
    exact (Hfirst id k Hk Hu).
Qed.

Lemma omap_row_all acc (qs : list (Z * Appointment)) :
  (forall p, p ∈ qs -> is_Some (patients acc !! patient_name_id (snd p))) ->
  map up_appointment_id
    (omap (KinesiologistUpcomingAppointmentsView.row strftime_date
             strftime_time status_display patient_str acc) qs)
  = map fst qs
  /\ map up_status
       (omap (KinesiologistUpcomingAppointmentsView.row strftime_date
                strftime_time status_display patient_str acc) qs)
     = map (fun p => status (snd p)) qs.
Proof.
  induction qs as [|p qs IH]; intros Hall; [split; reflexivity |].
  destruct (Hall p ltac:(left)) as [patient Hp].
  assert (Hrow : KinesiologistUpcomingAppointmentsView.row strftime_date
                   strftime_time status_display patient_str acc p
                 = Some (KinesiologistUpcomingAppointmentsView.row_of
                           strftime_date strftime_time status_display
                           patient_str acc patient p)).
  { unfold KinesiologistUpcomingAppointmentsView.row. rewrite Hp.
    reflexivity. }
  destruct IH as [IH1 IH2]; [intros q Hq; apply Hall; right; exact Hq |].
  cbn [omap list_omap]. rewrite Hrow. cbn [map]. rewrite IH1, IH2.
  split; reflexivity.
Qed.

(** X21: to the user of a kinesiologist (the one of lowest id, should the
    user have several) the view lists that kinesiologist's appointments that
    start today at or after the current time or on a later date, whatever
    their status: every such appointment once, none else, ordered by date
    and then start time, each row carrying the id and the status of its
    appointment. *)
Theorem upcoming_lists_future_appointments
    today now_time user acc db kine_id k :
  kinesiologists db !! kine_id = Some k ->
  kine_user k = Some (user_id user) ->
  (forall j k', kinesiologists db !! j = Some k' ->
                kine_user k' = Some (user_id user) -> kine_id <= j) ->
  (forall id a, appointments db !! id = Some a ->
                is_Some (patients acc !! patient_name_id a)) ->
  exists qs rows,
    KinesiologistUpcomingAppointmentsView.get strftime_date strftime_time
      status_display patient_str today now_time user acc db
    = {| reply_code := 200; payload := PUpcoming rows |}
    /\ map up_appointment_id rows = map fst qs
    /\ map up_status rows = map (fun p => status (snd p)) qs
    /\ StronglySorted
         (fun p q : Z * Appointment =>
            lex_le (appt_date (snd p), start_time (snd p))
              (appt_date (snd q), start_time (snd q))) qs
    /\ NoDup qs
    /\ (forall id a,
          (id, a) ∈ qs <->
          appointments db !! id = Some a
          /\ kinesiologist_id a = kine_id
          /\ (today < appt_date a
              \/ (appt_date a = today /\ now_time <= start_time a))).
Proof.
  intros Hk Hu Hleast Hpatients.
  unfold KinesiologistUpcomingAppointmentsView.get.
  rewrite (first_kinesiologist_least user db kine_id k Hk Hu Hleast).
  cbn [fst].
  set (qs := order_by _ _).
  assert (Hmem : forall id a,
            (id, a) ∈ qs <->
            appointments db !! id = Some a
            /\ kinesiologist_id a = kine_id
            /\ (today < appt_date a
                \/ (appt_date a = today /\ now_time <= start_time a))).
  { intros id a. unfold qs.
    rewrite order_by_perm, elem_of_appointment_rows.
    unfold KinesiologistUpcomingAppointmentsView.upcoming.
    rewrite andb_true_iff, orb_true_iff, andb_true_iff.
    rewrite !Z.eqb_eq, Z.ltb_lt, Z.leb_le. tauto. }
  destruct (omap_row_all acc qs) as [Hids Hst].
  { intros [id a] Hin. apply Hmem in Hin. destruct Hin as [Ha _].
    exact (Hpatients id a Ha). }
  exists qs, (omap (KinesiologistUpcomingAppointmentsView.row strftime_date
                      strftime_time status_display patient_str acc) qs).
  split; [reflexivity |]. split; [exact Hids |]. split; [exact Hst |].
  split; [apply order_by_sorted |]. split; [| exact Hmem].
  unfold qs. rewrite order_by_perm. apply NoDup_appointment_rows.
Qed.

(** X22: the name shown for a patient is the first and last name of the
    patient's user joined by one blank, without whitespace around it; when
    that is empty (no user, or no names) it is the text of the patient
    record instead. *)
Theorem upcoming_patient_name acc patient p :
  let shown :=
    up_patient_name
      (KinesiologistUpcomingAppointmentsView.row_of strftime_date
         strftime_time status_display patient_str acc patient p) in
  (patient_user patient = None -> shown = patient_str patient)
  /\ (forall uid u,
        patient_user patient = Some uid -> users acc !! uid = Some u ->
        let full := strip (default [] (first_name u) ++ py " "
                           ++ default [] (last_name u)) in
        (full = [] -> shown = patient_str patient)
        /\ (full <> [] ->
            shown = full
            /\ (forall c r, shown = c :: r -> isspace c = false)
            /\ (forall i c, shown = i ++ [c] -> isspace c = false))).
Proof.
  cbn zeta. unfold KinesiologistUpcomingAppointmentsView.row_of,
    KinesiologistUpcomingAppointmentsView.patient_full_name. cbn.
  split.
  - intros ->. reflexivity.
  - intros uid u -> ->.
    destruct (strip _) as [|c0 r0] eqn:Hfull.
    + split; [reflexivity | congruence].
    + split; [discriminate |]. intros _.
      split; [reflexivity |]. rewrite <- Hfull. split.
      * intros c r H. exact (strip_head _ _ _ H).
      * intros i c H. exact (strip_last _ _ _ H).
Qed.

End UpcomingProperties.

Lemma upcoming_forbidden_without_kinesiologist_witness :
  KinesiologistUpcomingAppointmentsView.get (fun _ => []) (fun _ => [])
    (fun s => s) (fun _ => py "patient") 738886 (mktime 9 30) stranger
    sample_accounts agenda_db
  = {| reply_code := 403;
       payload := PMessage false
         "El usuario no corresponde a un kinesiólogo." |}.
Proof.
  destruct (upcoming_forbidden_without_kinesiologist (fun _ => [])
              (fun _ => []) (fun s => s) (fun _ => py "patient") 738886
              (mktime 9 30) stranger sample_accounts agenda_db) as [H _].
  apply H. intros id k Hk. unfold agenda_db in Hk. cbn [kinesiologists] in Hk.
  rewrite lookup_insert in Hk. case_decide.
  - injection Hk as <-. vm_compute. discriminate.
  - rewrite lookup_singleton in Hk. case_decide; [| discriminate].
    injection Hk as <-. vm_compute. discriminate.
Defined.

Lemma upcoming_lists_future_appointments_witness :
  exists (qs : list (Z * Appointment)) rows,
    KinesiologistUpcomingAppointmentsView.get (fun _ => []) (fun _ => [])
      (fun s => s) (fun _ => py "patient") 738886 (mktime 9 30) provider
      sample_accounts agenda_db
    = {| reply_code := 200; payload := PUpcoming rows |}
    /\ map up_appointment_id rows = map fst qs
    /\ NoDup qs.
Proof.
  destruct (upcoming_lists_future_appointments (fun _ => []) (fun _ => [])
              (fun s => s) (fun _ => py "patient") 738886 (mktime 9 30)
              provider sample_accounts agenda_db 1 {| kine_user := Some 10 |})
    as [qs [rows [H1 [H2 [_ [_ [H3 _]]]]]]].
  - vm_compute. reflexivity.
  - reflexivity.
  - intros j k' Hj Hu. unfold agenda_db in Hj. cbn [kinesiologists] in Hj.
    rewrite lookup_insert in Hj. case_decide; [lia |].
    rewrite lookup_singleton in Hj. case_decide; [lia | discriminate].
  - intros id a Ha. unfold agenda_db in Ha. cbn [appointments] in Ha.
    rewrite lookup_insert in Ha. case_decide.
    { injection Ha as <-. vm_compute. eauto. }
    rewrite lookup_insert in Ha. case_decide.
    { injection Ha as <-. vm_compute. eauto. }
    rewrite lookup_singleton in Ha. case_decide; [| discriminate].
    injection Ha as <-. vm_compute. eauto.
  - exists qs, rows. split; [exact H1 |]. split; [exact H2 | exact H3].
Defined.

Lemma upcoming_patient_name_witness :
  up_patient_name
    (KinesiologistUpcomingAppointmentsView.row_of (fun _ => []) (fun _ => [])
       (fun s => s) (fun _ => py "patient") sample_accounts
       {| patient_user := None |} (5, appointment_0945 "confirmed"))
  = py "patient".
Proof.
  destruct (upcoming_patient_name (fun _ => []) (fun _ => []) (fun s => s)
              (fun _ => py "patient") sample_accounts
              {| patient_user := None |} (5, appointment_0945 "confirmed"))
    as [H _].
  apply H. reflexivity.
Defined.

(** ** patient_appointments_history *)

Lemma elem_of_patients_of user acc id pt :
  In (id, pt)
     (List.filter (fun p : Z * Patient => same_user user (patient_user (snd p)))
        (map_to_list (patients acc))) <->
  patients acc !! id = Some pt /\ patient_user pt = Some (user_id user).
Proof.
  rewrite filter_In, <- list_elem_of_In, elem_of_map_to_list. cbn.
  rewrite same_user_true. reflexivity.
Qed.

Lemma NoDup_List_filter {A} (f : A -> bool) (l : list A) :
  NoDup l -> NoDup (List.filter f l).
Proof.
  induction 1 as [|x l Hx Hl IH]; cbn; [constructor |].
  destruct (f x); [| exact IH]. constructor; [| exact IH].
  rewrite list_elem_of_In, filter_In, <- list_elem_of_In. tauto.
Qed.

Lemma get_patient_unique user acc pid pt :
  patients acc !! pid = Some pt ->
  patient_user pt = Some (user_id user) ->
  (forall j pt', patients acc !! j = Some pt' ->
                 patient_user pt' = Some (user_id user) -> j = pid) ->
  get_patient user acc = inr (pid, pt).
Proof.
  intros Hp Hu Huniq. unfold get_patient.
  pose proof (NoDup_List_filter
                (fun p : Z * Patient => same_user user (patient_user (snd p)))
                _ (NoDup_map_to_list (patients acc))) as Hnodup.
  assert (Hin : In (pid, pt)
                  (List.filter (fun p : Z * Patient =>
                                  same_user user (patient_user (snd p)))
                     (map_to_list (patients acc))))
    by (apply elem_of_patients_of; split; assumption).
  assert (Hall : forall y,
            In y (List.filter (fun p : Z * Patient =>
                                 same_user user (patient_user (snd p)))
                    (map_to_list (patients acc))) -> y = (pid, pt)).
  { intros [j pt'] Hy. apply elem_of_patients_of in Hy.
    destruct Hy as [Hj Hju]. pose proof (Huniq j pt' Hj Hju) as ->.
    congruence. }
  destruct (List.filter _ _) as [|x [|y t]].
  - destruct Hin.
  - rewrite (Hall x (or_introl eq_refl)). reflexivity.
  - exfalso. pose proof (Hall x (or_introl eq_refl)) as ->.
    pose proof (Hall y (or_intror (or_introl eq_refl))) as ->.
    apply NoDup_cons in Hnodup. destruct Hnodup as [Hnot _].
    apply Hnot. left.
Qed.

Lemma StronglySorted_weaken {A} (R R' : A -> A -> Prop) (l : list A) :
  (forall x y, R x y -> R' x y) ->
  StronglySorted R l -> StronglySorted R' l.
Proof.
  intros Himpl. induction 1 as [|x l Hl IH Hx]; constructor; [exact IH |].
  eapply Forall_impl; [exact Hx |]. intros y. apply Himpl.
Qed.

Section HistoryProperties.

Variable strftime_date : date -> pystr.
Variable strftime_time : time -> pystr.
Variable status_display : pystr -> pystr.
Variable get_full_name : AuthUser -> pystr.

(** X23: the history has no answer of its own for a caller without a patient
    record: [Patient.objects.get] raises and the request ends in a server
    error, 500, not in 403 or 404, whatever the appointments are. *)
Theorem history_without_patient_is_server_error user acc db :
  (forall id pt, patients acc !! id = Some pt ->
                 patient_user pt <> Some (user_id user)) ->
  patient_appointments_history strftime_date strftime_time status_display
    get_full_name user acc db
  = {| reply_code := 500; payload := PUncaught DoesNotExist |}.
Proof.
  intros Hnone. unfold patient_appointments_history, get_patient.
  destruct (List.filter _ _) as [|[id pt] t] eqn:Hl; [reflexivity | exfalso].
  assert (Hin : In (id, pt)
                  (List.filter (fun p : Z * Patient =>
                                  same_user user (patient_user (snd p)))
                     (map_to_list (patients acc))))
    by (rewrite Hl; left; reflexivity).
  apply elem_of_patients_of in Hin. destruct Hin as [Hp Hu].
  exact (Hnone id pt Hp Hu).
Qed.

Lemma history_rows_all acc db (qs : list (Z * Appointment)) :
  (forall p, p ∈ qs ->
     exists k uid u,
       kinesiologists db !! kinesiologist_id (snd p) = Some k
       /\ kine_user k = Some uid /\ users acc !! uid = Some u) ->
  exists rows,
    history_rows strftime_date strftime_time status_display get_full_name
      acc db qs = inr rows
    /\ map hi_id rows = map fst qs
    /\ map hi_status rows = map (fun p => status (snd p)) qs
    /\ map hi_kine_comment rows
       = map (fun p => default [] (kine_comment (snd p))) qs.
Proof.
  induction qs as [|p qs IH]; intros Hall.
  - exists []. repeat split; reflexivity.
  - destruct (Hall p ltac:(left)) as [k [uid [u [Hk [Hu Huser]]]]].
    destruct IH as [rows [Hrows [H1 [H2 H3]]]];
      [intros q Hq; apply Hall; right; exact Hq |].
    cbn [history_rows]. rewrite Hk, Hu. cbn. rewrite Huser, Hrows.
    eexists. split; [reflexivity |]. cbn. rewrite H1, H2, H3.
    repeat split; reflexivity.
Qed.

(** X24: to the user of exactly one patient the history lists that patient's
    appointments with every kinesiologist and of every status: each once,
    none else, the latest date first and within a date the latest start
    first; each row carries the id and status of its appointment and the
    stored comment, or the empty text when there is none. *)
Theorem history_lists_own_appointments user acc db pid pt :
  patients acc !! pid = Some pt ->
  patient_user pt = Some (user_id user) ->
  (forall j pt', patients acc !! j = Some pt' ->
                 patient_user pt' = Some (user_id user) -> j = pid) ->
  (forall id a, appointments db !! id = Some a ->
     exists k uid u,
       kinesiologists db !! kinesiologist_id a = Some k
       /\ kine_user k = Some uid /\ users acc !! uid = Some u) ->
  exists qs rows,
    patient_appointments_history strftime_date strftime_time status_display
      get_full_name user acc db
    = {| reply_code := 200; payload := PHistory rows |}
    /\ map hi_id rows = map fst qs
    /\ map hi_status rows = map (fun p => status (snd p)) qs
    /\ map hi_kine_comment rows
       = map (fun p => default [] (kine_comment (snd p))) qs
    /\ StronglySorted
         (fun p q : Z * Appointment =>
            lex_le (appt_date (snd q), start_time (snd q))
              (appt_date (snd p), start_time (snd p))) qs
    /\ NoDup qs
    /\ (forall id a,
          (id, a) ∈ qs <->
          appointments db !! id = Some a /\ patient_name_id a = pid).
Proof.
  intros Hp Hu Huniq Hrefs. unfold patient_appointments_history.
  rewrite (get_patient_unique user acc pid pt Hp Hu Huniq). cbn [fst].
  set (qs := order_by _ _).
  assert (Hmem : forall id a,
            (id, a) ∈ qs <->
            appointments db !! id = Some a /\ patient_name_id a = pid).
  { intros id a. unfold qs.
    rewrite order_by_perm, elem_of_appointment_rows, Z.eqb_eq.
    reflexivity. }
  destruct (history_rows_all acc db qs) as [rows [Hrows [H1 [H2 H3]]]].
  { intros [id a] Hin. apply Hmem in Hin. destruct Hin as [Ha _].
    exact (Hrefs id a Ha). }
  exists qs, rows. rewrite Hrows.
  split; [reflexivity |]. split; [exact H1 |]. split; [exact H2 |].
  split; [exact H3 |]. split; [| split; [| exact Hmem]].
  - pose proof (order_by_sorted
                  (fun p : Z * Appointment =>
                     (- appt_date (snd p), - start_time (snd p)))
                  (appointment_rows (fun a => patient_name_id a =? pid) db))
      as Hsorted.
    fold qs in Hsorted.
    eapply StronglySorted_weaken; [| exact Hsorted].
    intros x y. unfold lex_le. cbn. lia.
  - unfold qs. rewrite order_by_perm. apply NoDup_appointment_rows.
Qed.

End HistoryProperties.

Lemma history_without_patient_is_server_error_witness :
  patient_appointments_history (fun _ => []) (fun _ => []) (fun s => s)
    (fun _ => []) provider sample_accounts agenda_db
  = {| reply_code := 500; payload := PUncaught DoesNotExist |}.
Proof.
  apply (history_without_patient_is_server_error (fun _ => []) (fun _ => [])
           (fun s => s) (fun _ => []) provider sample_accounts agenda_db).
  intros id pt Hp. unfold sample_accounts in Hp. cbn [patients] in Hp.
  rewrite lookup_insert in Hp. case_decide.
  - injection Hp as <-. vm_compute. discriminate.
  - rewrite lookup_singleton in Hp. case_decide; [| discriminate].
    injection Hp as <-. vm_compute. discriminate.
Defined.

Lemma history_lists_own_appointments_witness :
  exists (qs : list (Z * Appointment)) rows,
    patient_appointments_history (fun _ => []) (fun _ => []) (fun s => s)
      (fun _ => []) patient_luis sample_accounts agenda_db
    = {| reply_code := 200; payload := PHistory rows |}
    /\ map hi_id rows = map fst qs
    /\ NoDup qs.
Proof.
  destruct (history_lists_own_appointments (fun _ => []) (fun _ => [])
              (fun s => s) (fun _ => []) patient_luis sample_accounts
              agenda_db 7 {| patient_user := Some 30 |})
    as [qs [rows [H1 [H2 [_ [_ [_ [H3 _]]]]]]]].
  - vm_compute. reflexivity.
  - reflexivity.
  - intros j pt' Hj Hu. unfold sample_accounts in Hj. cbn [patients] in Hj.
    rewrite lookup_insert in Hj. case_decide; [congruence |].
    rewrite lookup_singleton in Hj. case_decide; [| discriminate].
    injection Hj as <-. vm_compute in Hu. discriminate.
  - intros id a Ha. unfold agenda_db in Ha. cbn [appointments] in Ha.
    rewrite lookup_insert in Ha. case_decide.
    { injection Ha as <-.
      exists {| kine_user := Some 10 |}, 10,
        {| first_name := Some (py "Ana"); last_name := Some [];
           username := py "ana" |}.
      repeat split; vm_compute; reflexivity. }
    rewrite lookup_insert in Ha. case_decide.
    { injection Ha as <-.
      exists {| kine_user := Some 10 |}, 10,
        {| first_name := Some (py "Ana"); last_name := Some [];
           username := py "ana" |}.
      repeat split; vm_compute; reflexivity. }
    rewrite lookup_singleton in Ha. case_decide; [| discriminate].
    injection Ha as <-.
    exists {| kine_user := Some 20 |}, 20,
      {| first_name := None; last_name := None; username := py "kine2" |}.
    repeat split; vm_compute; reflexivity.
  - exists qs, rows. split; [exact H1 |]. split; [exact H2 | exact H3].
Defined.

(** ** The routes *)

Lemma after_prefix_sound l s rest :
  after_prefix l s = Some rest -> s = l ++ rest.
Proof.
  revert s. induction l as [|a l IH]; intros s; cbn.
  - intros [= ->]. reflexivity.
  - destruct s as [|c s]; [discriminate |].
    destruct (N.eqb_spec a c) as [-> | _]; [| discriminate].
    intros H. rewrite (IH s H). reflexivity.
Qed.

Lemma after_prefix_app l rest : after_prefix l (l ++ rest) = Some rest.
Proof.
  induction l as [|a l IH]; cbn; [reflexivity |].
  rewrite N.eqb_refl. exact IH.
Qed.

Lemma match_int_sound k parameter seen s groups :
  match_int k parameter seen s = Some groups ->
  exists ds rest groups',
    ds <> [] /\ Forall (fun c => is_Some (digit c)) ds
    /\ s = ds ++ rest /\ k rest = Some groups'
    /\ groups = (parameter, seen ++ ds) :: groups'.
Proof.
  revert seen. induction s as [|c s IH]; intros seen; cbn; [discriminate |].
  destruct (digit c) as [d|] eqn:Hd; [| discriminate].
  destruct (match_int k parameter (seen ++ [c]) s) as [g|] eqn:Hrec.
  - intros [= <-]. apply IH in Hrec.
    destruct Hrec as [ds [rest [g' [Hne [Hds [-> [Hk ->]]]]]]].
    exists (c :: ds), rest, g'.
    split; [discriminate |]. split; [constructor; eauto |].
    split; [reflexivity |]. split; [exact Hk |].
    rewrite <- app_assoc. reflexivity.
  - destruct (k s) as [g'|] eqn:Hk; [| discriminate].
    intros [= <-]. exists [c], s, g'.
    split; [discriminate |]. split; [repeat constructor; eauto |].
    split; [reflexivity |]. split; [exact Hk | reflexivity].
Qed.

Lemma match_groups_sound parts s groups :
  match_groups parts s = Some groups -> has_shape parts s.
Proof.
  revert s groups. induction parts as [|[l | parameter] parts IH];
    intros s groups; cbn.
  - destruct s; [reflexivity | discriminate].
  - destruct (after_prefix l s) as [rest|] eqn:Hl; [| discriminate].
    intros H. exists rest.
    split; [exact (after_prefix_sound l s rest Hl) | exact (IH _ _ H)].
  - intros H. apply match_int_sound in H.
    destruct H as [ds [rest [g' [Hne [Hds [-> [Hk _]]]]]]].
    exists ds, rest. repeat split; try assumption. exact (IH _ _ Hk).
Qed.

Lemma match_route_sound parts s kwargs :
  match_route parts s = Some kwargs -> has_shape parts s.
Proof.
  unfold match_route.
  destruct (match_groups parts s) as [g|] eqn:Hg; [| discriminate].
  intros _. exact (match_groups_sound parts s g Hg).
Qed.

Lemma match_int_complete k parameter seen ds rest groups' :
  ds <> [] -> Forall (fun c => is_Some (digit c)) ds ->
  match rest with [] => True | c :: _ => digit c = None end ->
  k rest = Some groups' ->
  match_int k parameter seen (ds ++ rest)
  = Some ((parameter, seen ++ ds) :: groups').
Proof.
  intros Hne Hds Hrest Hk. revert seen.
  induction Hds as [|c ds [d Hd] Hds IH]; [congruence |]. intros seen.
  cbn. rewrite Hd.
  destruct ds as [|c' ds].
  - cbn.
    assert (Hstop : match_int k parameter (seen ++ [c]) rest = None).
    { destruct rest as [|c0 t]; cbn; [reflexivity |]. rewrite Hrest.
      reflexivity. }
    rewrite Hstop, Hk. reflexivity.
  - rewrite IH by discriminate. rewrite <- app_assoc. reflexivity.
Qed.

Lemma digits_then_slash ds ds' (t t' : list N) :
  Forall (fun c => is_Some (digit c)) ds ->
  Forall (fun c => is_Some (digit c)) ds' ->
  ds ++ 47%N :: t = ds' ++ 47%N :: t' -> ds = ds' /\ t = t'.
Proof.
  intros Hds. revert ds'.
  induction Hds as [|c ds Hc Hds IH]; intros ds' Hds' Heq.
  - destruct Hds' as [|c' ds' [d Hd] _]; cbn in Heq.
    + injection Heq as <-. split; reflexivity.
    + injection Heq as <- _. vm_compute in Hd. discriminate.
  - destruct Hds' as [|c' ds' _ Hds']; cbn in Heq.
    + injection Heq as -> _. destruct Hc as [d Hd].
      vm_compute in Hd. discriminate.
    + injection Heq as <- Heq. destruct (IH ds' Hds' Heq) as [-> ->].
      split; reflexivity.
Qed.

Ltac eval_literals H :=
  repeat match type of H with
         | context [py ?s] =>
             let v := eval vm_compute in (py s) in
             change (py s) with v in H
         end.

(** A path has the shape of at most one pattern of the table. *)
Lemma shapes_disjoint path p1 p2 :
  In p1 urlpatterns -> In p2 urlpatterns ->
  has_shape (route p1) path -> has_shape (route p2) path ->
  p1 = p2.
Proof.
  intros H1 H2 M1 M2.
  unfold urlpatterns in H1, H2. cbn [In] in H1, H2.
  repeat (destruct H1 as [<- | H1]); try contradiction;
  repeat (destruct H2 as [<- | H2]); try contradiction;
  try reflexivity; exfalso; cbn [route has_shape] in M1, M2.
  all: repeat match goal with
         | H : exists _, _ |- _ => destruct H
         | H : _ /\ _ |- _ => destruct H
         end; subst.
  all: match goal with
       | H : _ ++ _ = _ ++ _ |- _ =>
           eval_literals H;
           first
             [ apply app_inv_head in H; cbn [app] in H;
               apply digits_then_slash in H; [| assumption | assumption];
               destruct H as [_ H]; discriminate H
             | cbn [app] in H; discriminate H ]
       end.
Qed.

(** A path is matched by at most one pattern of the table. *)
Lemma routes_disjoint path p1 p2 :
  In p1 urlpatterns -> In p2 urlpatterns ->
  is_Some (match_route (route p1) path) ->
  is_Some (match_route (route p2) path) ->
  p1 = p2.
Proof.
  intros H1 H2 [kw1 M1] [kw2 M2].
  apply match_route_sound in M1, M2.
  exact (shapes_disjoint path p1 p2 H1 H2 M1 M2).
Qed.

Lemma resolve_in_first patterns path p kwargs :
  In p patterns ->
  match_route (route p) path = Some kwargs ->
  (forall p', In p' patterns ->
              is_Some (match_route (route p') path) -> p' = p) ->
  resolve_in patterns path = Some (view p, kwargs).
Proof.
  induction patterns as [|p0 rest IH]; intros Hin Hmatch Huniq;
    [destruct Hin |].
  cbn [resolve_in].
  destruct (match_route (route p0) path) as [kw0|] eqn:H0.
  - assert (p0 = p) as -> by (apply Huniq; [left; reflexivity | eauto]).
    congruence.
  - destruct Hin as [-> | Hin]; [congruence |].
    apply IH; [exact Hin | exact Hmatch |].
    intros p' Hp'. apply Huniq. right. exact Hp'.
Qed.

Lemma resolve_in_Some patterns path v kwargs :
  resolve_in patterns path = Some (v, kwargs) ->
  exists p, In p patterns /\ match_route (route p) path = Some kwargs
            /\ view p = v.
Proof.
  induction patterns as [|p0 rest IH]; cbn [resolve_in]; [discriminate |].
  destruct (match_route (route p0) path) as [kw0|] eqn:H0.
  - intros [= <- <-]. exists p0. split; [left; reflexivity | eauto].
  - intros H. destruct (IH H) as [p [Hin Hp]].
    exists p. split; [right; exact Hin | exact Hp].
Qed.

Lemma resolve_in_None patterns path :
  resolve_in patterns path = None <->
  forall p, In p patterns -> match_route (route p) path = None.
Proof.
  induction patterns as [|p0 rest IH]; cbn [resolve_in].
  - split; [intros _ p [] | reflexivity].
  - destruct (match_route (route p0) path) as [kw0|] eqn:H0.
    + split; [discriminate |]. intros H.
      rewrite (H p0 (or_introl eq_refl)) in H0. discriminate.
    + rewrite IH. split.
      * intros H p [<- | Hin]; [exact H0 | exact (H p Hin)].
      * intros H p Hin. apply H. right. exact Hin.
Qed.

(** X25: no route of the table shadows another: a path is matched by at
    most one of the seven patterns, and the table resolves every path the
    same way in whatever order its patterns are listed; in particular
    [kinesiologist/appointments/upcoming/] is kept apart from
    [kinesiologists/<int>/appointments/]. *)
Theorem route_order_is_irrelevant path patterns :
  patterns ≡ₚ urlpatterns ->
  resolve_in patterns path = resolve path
  /\ (forall p1 p2,
        In p1 urlpatterns -> In p2 urlpatterns ->
        is_Some (match_route (route p1) path) ->
        is_Some (match_route (route p2) path) ->
        p1 = p2).
Proof.
  intros Hperm. split; [| intros p1 p2; apply routes_disjoint].
  unfold resolve.
  destruct (resolve_in urlpatterns path) as [[v kwargs]|] eqn:Hres.
  - apply resolve_in_Some in Hres. destruct Hres as [p [Hin [Hmatch <-]]].
    apply resolve_in_first; [| exact Hmatch |].
    + apply list_elem_of_In. rewrite Hperm. apply list_elem_of_In, Hin.
    + intros p' Hp' Hsome. apply (routes_disjoint path); [| exact Hin | | eauto].
      * apply list_elem_of_In. rewrite <- Hperm. apply list_elem_of_In, Hp'.
      * exact Hsome.
  - apply resolve_in_None. intros p Hp.
    rewrite resolve_in_None in Hres. apply Hres.
    apply list_elem_of_In. rewrite <- Hperm. apply list_elem_of_In, Hp.
Qed.

Lemma route_order_is_irrelevant_witness :
  resolve_in (rev urlpatterns) (py "kinesiologists/12/appointments/")
  = resolve (py "kinesiologists/12/appointments/").
Proof.
  apply (route_order_is_irrelevant (py "kinesiologists/12/appointments/")
           (rev urlpatterns)).
  symmetry. apply Permutation_rev.
Defined.

Lemma match_groups_route prefix parameter suffix ds :
  ds <> [] -> Forall (fun c => is_Some (digit c)) ds ->
  match suffix with [] => True | c :: _ => digit c = None end ->
  match_groups [Lit prefix; IntConverter parameter; Lit suffix]
    (prefix ++ ds ++ suffix)
  = Some [(parameter, ds)].
Proof.
  intros Hne Hds Hsuffix. cbn [match_groups].
  rewrite after_prefix_app.
  apply (match_int_complete _ parameter [] ds suffix []); try assumption.
  cbn [match_groups].
  pose proof (after_prefix_app suffix []) as Hself.
  rewrite app_nil_r in Hself. rewrite Hself. reflexivity.
Qed.

(** X26: every address of the table reaches its view: with a non-empty text
    of decimal digits in the place of the id, leading zeros allowed, of at
    most 4300 digits, each of the five routes with an id resolves to its
    view with the id read as a decimal number; with more digits [int]
    refuses the text and the address resolves to no view at all. The two
    fixed addresses resolve to their views without arguments. *)
Theorem routes_resolve_to_their_views ds :
  ds <> [] -> Forall (fun c => is_Some (digit c)) ds ->
  (Z.of_nat (length ds) <= INT_MAX_STR_DIGITS ->
   resolve (py "kinesiologists/" ++ ds ++ py "/availability/")
   = Some (AvailabilityListCreateView_as_view,
           [(py "kinesiologist_id", int_of_digits 0 ds)])
   /\ resolve (py "kinesiologists/" ++ ds ++ py "/appointments/")
      = Some (AppointmentCreateView_as_view,
              [(py "kinesiologist_id", int_of_digits 0 ds)])
   /\ resolve (py "kinesiologists/" ++ ds ++ py "/slots/")
      = Some (KinesiologistAvailableSlotsView_as_view,
              [(py "kinesiologist_id", int_of_digits 0 ds)])
   /\ resolve (py "appointments/" ++ ds ++ py "/status/")
      = Some (AppointmentStatusView_as_view,
              [(py "appointment_id", int_of_digits 0 ds)])
   /\ resolve (py "appointments/" ++ ds ++ py "/comment/")
      = Some (AppointmentCommentView_as_view,
              [(py "appointment_id", int_of_digits 0 ds)]))
  /\ (INT_MAX_STR_DIGITS < Z.of_nat (length ds) ->
      resolve (py "kinesiologists/" ++ ds ++ py "/availability/") = None
      /\ resolve (py "kinesiologists/" ++ ds ++ py "/appointments/") = None
      /\ resolve (py "kinesiologists/" ++ ds ++ py "/slots/") = None
      /\ resolve (py "appointments/" ++ ds ++ py "/status/") = None
      /\ resolve (py "appointments/" ++ ds ++ py "/comment/") = None)
  /\ resolve (py "patients/appointments/history/")
     = Some (patient_appointments_history_view, [])
  /\ resolve (py "kinesiologist/appointments/upcoming/")
     = Some (KinesiologistUpcomingAppointmentsView_as_view, []).
Proof.
  intros Hne Hds.
  assert (Hshort : forall p v prefix parameter suffix,
            Z.of_nat (length ds) <= INT_MAX_STR_DIGITS ->
            In p urlpatterns ->
            route p = [Lit prefix; IntConverter parameter; Lit suffix] ->
            view p = v ->
            match suffix with [] => True | c :: _ => digit c = None end ->
            resolve (prefix ++ ds ++ suffix)
            = Some (v, [(parameter, int_of_digits 0 ds)])).
  { intros p v prefix parameter suffix Hlen Hin Hr <- Hsuffix.
    assert (Hmatch : match_route (route p) (prefix ++ ds ++ suffix)
                     = Some [(parameter, int_of_digits 0 ds)]).
    { unfold match_route. rewrite Hr, match_groups_route by assumption.
      cbn [convert]. unfold to_python.
      rewrite (proj2 (Z.leb_le _ _) Hlen). reflexivity. }
    apply (resolve_in_first urlpatterns _ p); [exact Hin | exact Hmatch |].
    intros p' Hp' Hsome.
    apply (routes_disjoint (prefix ++ ds ++ suffix));
      [exact Hp' | exact Hin | exact Hsome |].
    rewrite Hmatch. eauto. }
  assert (Hlong : forall p prefix parameter suffix,
            INT_MAX_STR_DIGITS < Z.of_nat (length ds) ->
            In p urlpatterns ->
            route p = [Lit prefix; IntConverter parameter; Lit suffix] ->
            match suffix with [] => True | c :: _ => digit c = None end ->
            resolve (prefix ++ ds ++ suffix) = None).
  { intros p prefix parameter suffix Hlen Hin Hr Hsuffix.
    pose proof (match_groups_route prefix parameter suffix ds Hne Hds Hsuffix)
      as Hgroups.
    rewrite <- Hr in Hgroups.
    apply resolve_in_None. intros p' Hp'. unfold match_route.
    destruct (match_groups (route p') (prefix ++ ds ++ suffix)) as [g|] eqn:Hg;
      [| reflexivity].
    assert (p' = p) as ->.
    { apply (shapes_disjoint (prefix ++ ds ++ suffix));
        [exact Hp' | exact Hin | |].
      - exact (match_groups_sound _ _ _ Hg).
      - exact (match_groups_sound _ _ _ Hgroups). }
    rewrite Hgroups in Hg. injection Hg as <-.
    cbn [convert]. unfold to_python.
    rewrite (proj2 (Z.leb_gt _ _) Hlen). reflexivity. }
  split; [| split; [| split; reflexivity]].
  - intros Hlen. repeat split.
    + eapply Hshort; [exact Hlen | left; reflexivity | reflexivity ..].
    + eapply Hshort; [exact Hlen | right; left; reflexivity | reflexivity ..].
    + eapply Hshort;
        [exact Hlen | do 2 right; left; reflexivity | reflexivity ..].
    + eapply Hshort;
        [exact Hlen | do 5 right; left; reflexivity | reflexivity ..].
    + eapply Hshort;
        [exact Hlen | do 6 right; left; reflexivity | reflexivity ..].
  - intros Hlen. repeat split.
    + eapply Hlong; [exact Hlen | left; reflexivity | reflexivity ..].
    + eapply Hlong; [exact Hlen | right; left; reflexivity | reflexivity ..].
    + eapply Hlong;
        [exact Hlen | do 2 right; left; reflexivity | reflexivity ..].
    + eapply Hlong;
        [exact Hlen | do 5 right; left; reflexivity | reflexivity ..].
    + eapply Hlong;
        [exact Hlen | do 6 right; left; reflexivity | reflexivity ..].
Qed.

Lemma routes_resolve_to_their_views_witness :
  resolve (py "appointments/" ++ py "0042" ++ py "/status/")
  = Some (AppointmentStatusView_as_view, [(py "appointment_id", 42)]).
Proof.
  destruct (routes_resolve_to_their_views (py "0042")) as [H _].
  - vm_compute. discriminate.
  - vm_compute. repeat constructor; eauto.
  - destruct H as [_ [_ [_ [H _]]]].
    + vm_compute. discriminate.
    + rewrite H. vm_compute. reflexivity.
Defined.
